(** * x-api-service: session resolution cascade and TTL cache

    A shallow embedding of [client.js] (class [TwitterClient]) and of
    [twitter_helper.js] (class [TwitterHelper]).  The asynchronous JavaScript
    methods become computations in a state-and-exception monad over a
    [World]; the collaborators the code only talks to (the platform
    [Scraper], the MongoDB driver, the clock, [JSON.parse]) are the fields of
    an environment [Env] whose answers may depend on everything that has
    happened so far. *)

From Stdlib Require Import ZArith String Ascii List Lia Bool DecimalString.
From stdpp Require Import base gmap strings list option.
Import ListNotations.

Set Warnings "-register-all".

Open Scope Z_scope.
Open Scope string_scope.

(* ===================================================================== *)
(** ** JavaScript values *)
(* ===================================================================== *)

Module Js.

(** The values that flow through the helper layer and through
    [JSON.parse].  Numbers are integers: the code never computes with
    fractions on the paths modelled here. *)
Inductive JsVal : Type :=
| VUndefined
| VNull
| VBool (b : bool)
| VNum (n : Z)
| VStr (s : string)
| VArr (items : list JsVal)
| VObj (fields : list (string * JsVal)).

(** A thrown [Error]: the code only ever reads its [message]. *)
Record JsError : Type := mkError { message : string }.

Inductive outcome (A : Type) : Type :=
| Ok (a : A)
| Throw (e : JsError).
Arguments Ok {A} a.
Arguments Throw {A} e.

Definition obind {A B} (o : outcome A) (k : A -> outcome B) : outcome B :=
  match o with
  | Ok a => k a
  | Throw e => Throw e
  end.

(** [if (v)]: JavaScript truthiness. *)
Definition truthy (v : JsVal) : bool :=
  match v with
  | VUndefined | VNull => false
  | VBool b => b
  | VNum n => negb (Z.eqb n 0)
  | VStr s => negb (String.eqb s "")
  | VArr _ | VObj _ => true
  end.

(** [a || b] *)
Definition js_or (a b : JsVal) : JsVal := if truthy a then a else b.

(** Own property of an object literal; a later duplicate key wins, as in
    [JSON.parse]. *)
Fixpoint lookup_field (k : string) (fields : list (string * JsVal)) : option JsVal :=
  match fields with
  | [] => None
  | (k', v) :: rest =>
      match lookup_field k rest with
      | Some v' => Some v'
      | None => if String.eqb k k' then Some v else None
      end
  end.

Definition string_of_Z (n : Z) : string := NilZero.string_of_int (Z.to_int n).

(** Decimal integer literal to number, for string-to-number coercion;
    [None] is NaN.  Only plain decimal integers are recognised. *)
Definition is_digit (c : ascii) : bool :=
  let n := nat_of_ascii c in Nat.leb 48 n && Nat.leb n 57.

Fixpoint digits_value (acc : Z) (s : string) : option Z :=
  match s with
  | EmptyString => Some acc
  | String c rest =>
      if is_digit c
      then digits_value (10 * acc + Z.of_nat (nat_of_ascii c - 48)) rest
      else None
  end.

Definition string_to_number (s : string) : option Z :=
  match s with
  | EmptyString => Some 0
  | String "-" (String c rest) => option_map Z.opp (digits_value 0 (String c rest))
  | String "+" (String c rest) => digits_value 0 (String c rest)
  | _ => digits_value 0 s
  end.

(** [`${v}`]: the string a template literal interpolates. *)
Fixpoint toString (v : JsVal) : string :=
  match v with
  | VUndefined => "undefined"
  | VNull => "null"
  | VBool true => "true"
  | VBool false => "false"
  | VNum n => string_of_Z n
  | VStr s => s
  | VArr items =>
      (fix join (l : list JsVal) : string :=
         match l with
         | [] => ""
         | x :: rest =>
             let elem := match x with
                         | VUndefined | VNull => ""
                         | _ => toString x
                         end in
             match rest with
             | [] => elem
             | _ :: _ => elem +:+ "," +:+ join rest
             end
         end) items
  | VObj _ => "[object Object]"
  end.

(** [v > 0] *)
Definition gt_zero (v : JsVal) : bool :=
  match v with
  | VUndefined => false
  | VNull => false
  | VBool b => b
  | VNum n => Z.ltb 0 n
  | VStr _ | VArr _ | VObj _ =>
      match string_to_number (toString v) with
      | Some n => Z.ltb 0 n
      | None => false
      end
  end.

Definition TypeError (what : string) : JsError := mkError what.

(** [v.name] (also [v[name]]): reading a property throws a [TypeError] on
    [null] and [undefined], finds [length] and indices on arrays and
    strings, and own fields on objects. *)
Definition index_of_name (name : string) : option nat :=
  match digits_value 0 name with
  | Some n => if String.eqb (string_of_Z n) name then Some (Z.to_nat n) else None
  | None => None
  end.

Definition get_prop (v : JsVal) (name : string) : outcome JsVal :=
  match v with
  | VUndefined =>
      Throw (TypeError ("Cannot read properties of undefined (reading '" +:+ name +:+ "')"))
  | VNull =>
      Throw (TypeError ("Cannot read properties of null (reading '" +:+ name +:+ "')"))
  | VBool _ | VNum _ => Ok VUndefined
  | VStr s =>
      if String.eqb name "length" then Ok (VNum (Z.of_nat (String.length s)))
      else match index_of_name name with
           | Some i =>
               match String.get i s with
               | Some c => Ok (VStr (String c EmptyString))
               | None => Ok VUndefined
               end
           | None => Ok VUndefined
           end
  | VArr items =>
      if String.eqb name "length" then Ok (VNum (Z.of_nat (List.length items)))
      else match index_of_name name with
           | Some i =>
               match nth_error items i with
               | Some x => Ok x
               | None => Ok VUndefined
               end
           | None => Ok VUndefined
           end
  | VObj fields =>
      match lookup_field name fields with
      | Some x => Ok x
      | None => Ok VUndefined
      end
  end.

(** [s.includes(sub)] *)
Fixpoint includes (sub s : string) : bool :=
  String.prefix sub s
  || match s with
     | EmptyString => false
     | String _ rest => includes sub rest
     end.

End Js.
Export Js.

(* ===================================================================== *)
(** ** Data model *)
(* ===================================================================== *)

(** One cookie of a Cookie Jar, with the fields [setCookiesOnClient] reads.
    [domain] and [sameSite] may be missing ([undefined]). *)
Record Cookie : Type := mkCookie {
  key : string;
  value : string;
  domain : option string;
  path : string;
  secure : bool;
  httpOnly : bool;
  sameSite : option string
}.

Definition CookieJar : Type := list Cookie.

(** The argument of [getClient] (and, for [sendTweet], the request body it
    is taken from). *)
Record Credentials : Type := mkCredentials {
  username : string;
  password : string;
  email : option string;
  twoFactorSecret : option string;
  cookies : option CookieJar;
  text : JsVal;
  reply_to_id : JsVal;
  quote_tweet_id : JsVal;
  mediaData : JsVal
}.

(** A [Scraper] object, named by the order of its construction. *)
Definition Handle : Type := nat.

(** A document of the [cookies] collection: [{ _id, cookies, updatedAt }]. *)
Record SessionRecord : Type := mkSessionRecord {
  rec_cookies : CookieJar;
  rec_updatedAt : Z
}.

(** A document of the [twitter_cache] collection:
    [{ _id, data, timestamp, expiresAt }]. *)
Record CacheEntry : Type := mkCacheEntry {
  data : JsVal;
  timestamp : Z;
  expiresAt : Z
}.

(** When a promise settles, in milliseconds after it was created, and
    with what; [None] is a promise that never settles. *)
Definition Settle : Type := option (Z * outcome JsVal).

(** Everything the program does to the outside, newest first. *)
Inductive Event : Type :=
| EvNewScraper (h : Handle)
| EvIsLoggedIn (h : Handle)
| EvSetCookies (h : Handle) (cookieStrings : list string)
| EvLogin (h : Handle) (user pass : string) (mail secret : option string)
| EvGetCookies (h : Handle)
| EvScraper (h : Handle) (method : string) (args : list JsVal)
| EvFetchSearchTweets (h : Handle) (args : list JsVal)
| EvResponseJson (response : JsVal)
| EvNewMongoClient
| EvIsConnected
| EvConnect
| EvFindOne (collection id : string)
| EvUpdateOne (collection id : string)
| EvDateNow
| EvConsoleError (args : list JsVal).

Definition History : Type := list Event.

(** The collaborators.  Each answer is a function of the history so far,
    so that the same call may be answered differently each time. *)
Record Env : Type := mkEnv {
  (* agent-twitter-client *)
  scraper_isLoggedIn : History -> Handle -> outcome bool;
  scraper_setCookies : History -> Handle -> list string -> outcome unit;
  scraper_login :
    History -> Handle -> string -> string -> option string -> option string -> outcome unit;
  scraper_getCookies : History -> Handle -> outcome CookieJar;
  scraper_call : History -> Handle -> string -> list JsVal -> outcome JsVal;
  scraper_fetchSearchTweets : History -> Handle -> list JsVal -> Settle;
  scraper_getFollowing : History -> Handle -> list JsVal -> list JsVal * option JsError;
  response_json : History -> JsVal -> outcome JsVal;
  (* mongodb *)
  mongo_new : History -> outcome unit;
  mongo_isConnected : History -> bool;
  mongo_connect : History -> outcome unit;
  mongo_findOne : History -> outcome unit;
  mongo_updateOne : History -> outcome unit;
  (* runtime *)
  Date_now : History -> Z;
  JSON_parse : string -> outcome JsVal;
  (* two pure blocks of twitter_helper.js kept abstract: the
     [JSON.parse(JSON.stringify(tweet, replacer))] of [getTweet] and the
     [timeline.map(...)] of [fetchHomeTimeline] *)
  JSON_strip : JsVal -> outcome JsVal;
  formatTimeline : JsVal -> outcome JsVal
}.

(** The state the program owns or writes: the static registries of the two
    classes, the lazily created Mongo client, the two collections of
    database [x-api], the allocation counter of [Scraper] objects and the
    history.  The registries are plain objects used as maps and are held
    as finite maps of their own entries: the keys a plain object inherits
    ([constructor], [toString], ...) and the key [__proto__], whose
    assignment rebinds the prototype, are not represented, so a username
    is taken to be none of these. *)
Record World : Type := mkWorld {
  st_instances : gmap string Handle;
  st_cookies : gmap string CookieJar;
  st_profiles : gmap string JsVal;
  this_mongoClient : bool;
  db_cookies : gmap string SessionRecord;
  db_twitter_cache : gmap string CacheEntry;
  next_handle : Handle;
  trace : History
}.

Definition record_event (ev : Event) (w : World) : World :=
  mkWorld (st_instances w) (st_cookies w) (st_profiles w) (this_mongoClient w)
          (db_cookies w) (db_twitter_cache w) (next_handle w) (ev :: trace w).

Definition set_instances (m : gmap string Handle) (w : World) : World :=
  mkWorld m (st_cookies w) (st_profiles w) (this_mongoClient w)
          (db_cookies w) (db_twitter_cache w) (next_handle w) (trace w).

Definition set_cookies (m : gmap string CookieJar) (w : World) : World :=
  mkWorld (st_instances w) m (st_profiles w) (this_mongoClient w)
          (db_cookies w) (db_twitter_cache w) (next_handle w) (trace w).

Definition set_profiles (m : gmap string JsVal) (w : World) : World :=
  mkWorld (st_instances w) (st_cookies w) m (this_mongoClient w)
          (db_cookies w) (db_twitter_cache w) (next_handle w) (trace w).

Definition set_mongoClient (b : bool) (w : World) : World :=
  mkWorld (st_instances w) (st_cookies w) (st_profiles w) b
          (db_cookies w) (db_twitter_cache w) (next_handle w) (trace w).

Definition set_db_cookies (m : gmap string SessionRecord) (w : World) : World :=
  mkWorld (st_instances w) (st_cookies w) (st_profiles w) (this_mongoClient w)
          m (db_twitter_cache w) (next_handle w) (trace w).

Definition set_db_twitter_cache (m : gmap string CacheEntry) (w : World) : World :=
  mkWorld (st_instances w) (st_cookies w) (st_profiles w) (this_mongoClient w)
          (db_cookies w) m (next_handle w) (trace w).

Definition set_next_handle (h : Handle) (w : World) : World :=
  mkWorld (st_instances w) (st_cookies w) (st_profiles w) (this_mongoClient w)
          (db_cookies w) (db_twitter_cache w) h (trace w).

(* ===================================================================== *)
(** ** The monad of asynchronous methods *)
(* ===================================================================== *)

(** An [async] method run to completion: it resolves ([Ok]) or rejects
    ([Throw]), and what it did to the world stays done either way. *)
Definition M (A : Type) : Type := World -> outcome A * World.

Definition ret {A} (a : A) : M A := fun w => (Ok a, w).

Definition throw {A} (e : JsError) : M A := fun w => (Throw e, w).

Definition bind {A B} (m : M A) (k : A -> M B) : M B :=
  fun w =>
    match m w with
    | (Ok a, w') => k a w'
    | (Throw e, w') => (Throw e, w')
    end.

(** [try { body } catch (error) { handler }] *)
Definition try_catch {A} (body : M A) (handler : JsError -> M A) : M A :=
  fun w =>
    match body w with
    | (Ok a, w') => (Ok a, w')
    | (Throw e, w') => handler e w'
    end.

Definition gets {A} (f : World -> A) : M A := fun w => (Ok (f w), w).

Definition modify (f : World -> World) : M unit := fun w => (Ok tt, f w).

(** A call to a collaborator: it is answered from the history before the
    call and then recorded. *)
Definition call {A} (ev : Event) (answer : History -> outcome A) : M A :=
  fun w => (answer (trace w), record_event ev w).

(** A pure expression that may throw. *)
Definition lift {A} (o : outcome A) : M A := fun w => (o, w).

Declare Scope js_scope.
Delimit Scope js_scope with js.
Notation "x <- m ;; k" := (bind m (fun x => k))
  (at level 100, m at next level, right associativity) : js_scope.
Notation "m ;;; k" := (bind m (fun _ => k))
  (at level 100, right associativity) : js_scope.
Open Scope js_scope.

(** [console.error(...args)] *)
Definition console_error (args : list JsVal) : M unit :=
  modify (record_event (EvConsoleError args)).

(* ===================================================================== *)
(** ** client.js: class TwitterClient *)
(* ===================================================================== *)

Module TwitterClient.
Section WithEnv.

Variable env : Env.

Definition dbName : string := "x-api".
Definition collectionName : string := "cookies".

(** [Date.now()] and [new Date()] *)
Definition now : M Z := call EvDateNow (fun h => Ok (Date_now env h)).

(** [initMongoClient]: create the client once, connect when the topology
    is not connected; a failed connect is logged and rethrown. *)
Definition initMongoClient : M unit :=
  created <- gets this_mongoClient ;;
  (if created : bool then ret tt
   else (call EvNewMongoClient (mongo_new env) ;;; modify (set_mongoClient true))) ;;;
  connected <- call EvIsConnected (fun h => Ok (mongo_isConnected env h)) ;;
  if connected : bool then ret tt
  else
    try_catch (call EvConnect (mongo_connect env))
      (fun error =>
         console_error [VStr "Failed to connect to MongoDB:"; VStr (message error)] ;;;
         throw error).

(** The [domain] local of the [map] callback in [setCookiesOnClient]. *)
Definition cookieDomain (cookie : Cookie) : option string :=
  match domain cookie with
  | Some d =>
      if negb (String.eqb d "") && includes "x.com" d
      then Some ".twitter.com"
      else Some d
  | None => None
  end.

(** The template literal of the [map] callback. *)
Definition cookieString (cookie : Cookie) : string :=
  key cookie +:+ "=" +:+ value cookie
  +:+ "; Domain=" +:+ match cookieDomain cookie with
                      | Some d => d
                      | None => "undefined"
                      end
  +:+ "; Path=" +:+ path cookie
  +:+ (if secure cookie then "; Secure" else "")
  +:+ (if httpOnly cookie then "; HttpOnly" else "")
  +:+ "; SameSite=" +:+ match sameSite cookie with
                        | Some s => if String.eqb s "" then "Lax" else s
                        | None => "Lax"
                        end.

Definition setCookiesOnClient (client : Handle) (jar : CookieJar) : M unit :=
  let cookieStrings := map cookieString jar in
  call (EvSetCookies client cookieStrings)
       (fun h => scraper_setCookies env h client cookieStrings).

Definition isLoggedIn (client : Handle) : M bool :=
  call (EvIsLoggedIn client) (fun h => scraper_isLoggedIn env h client).

Definition saveCookies (user : string) (jar : CookieJar) : M unit :=
  try_catch
    (initMongoClient ;;;
     updatedAt <- now ;;
     call (EvUpdateOne collectionName user) (mongo_updateOne env) ;;;
     modify (fun w =>
       set_db_cookies (<[user := mkSessionRecord jar updatedAt]> (db_cookies w)) w))
    (fun error =>
       console_error [VStr ("Failed to save cookies: " +:+ message error)] ;;;
       throw error).

Definition saveClientAndReturn (user : string) (client : Handle) : M Handle :=
  modify (fun w => set_instances (<[user := client]> (st_instances w)) w) ;;;
  ret client.

Definition tryExistingClient (user : string) : M bool :=
  registered <- gets (fun w => st_instances w !! user) ;;
  match registered with
  | Some client =>
      try_catch (isLoggedIn client)
        (fun error =>
           console_error [VStr "Error checking existing client login status:"; VStr (message error)] ;;;
           ret false)
  | None => ret false
  end.

Definition tryPassedCookies (client : Handle) (user : string) (jar : CookieJar) : M bool :=
  try_catch
    (setCookiesOnClient client jar ;;;
     logged <- isLoggedIn client ;;
     if logged : bool then
       saveCookies user jar ;;;
       modify (fun w => set_cookies (<[user := jar]> (st_cookies w)) w) ;;;
       ret true
     else ret false)
    (fun error =>
       console_error [VStr "Failed to use passed cookies:"; VStr (message error)] ;;;
       ret false).

Definition tryInMemoryCookies (client : Handle) (user : string) : M bool :=
  remembered <- gets (fun w => st_cookies w !! user) ;;
  match remembered with
  | Some jar =>
      try_catch
        (setCookiesOnClient client jar ;;;
         isLoggedIn client)
        (fun error =>
           console_error [VStr "Failed to use in-memory cookies:"; VStr (message error)] ;;;
           ret false)
  | None => ret false
  end.

Definition tryMongoCookies (client : Handle) (user : string) : M bool :=
  try_catch
    (initMongoClient ;;;
     call (EvFindOne collectionName user) (mongo_findOne env) ;;;
     document <- gets (fun w => db_cookies w !! user) ;;
     match document with
     | Some doc =>
         setCookiesOnClient client (rec_cookies doc) ;;;
         logged <- isLoggedIn client ;;
         if logged : bool then
           modify (fun w => set_cookies (<[user := rec_cookies doc]> (st_cookies w)) w) ;;;
           ret true
         else ret false
     | None => ret false
     end)
    (fun error =>
       console_error [VStr "Failed to use MongoDB cookies:"; VStr (message error)] ;;;
       ret false).

Definition tryFreshLogin (client : Handle) (user pass : string)
    (mail secret : option string) : M bool :=
  try_catch
    (call (EvLogin client user pass mail secret)
          (fun h => scraper_login env h client user pass mail secret) ;;;
     logged <- isLoggedIn client ;;
     if logged : bool then
       newCookies <- call (EvGetCookies client) (fun h => scraper_getCookies env h client) ;;
       saveCookies user newCookies ;;;
       modify (fun w => set_cookies (<[user := newCookies]> (st_cookies w)) w) ;;;
       ret true
     else ret false)
    (fun error =>
       console_error [VStr "Failed to login:"; VStr (message error)] ;;;
       throw error).

(** The "Extract meaningful error message" block of [getClient]:
    [lastError] is the error Fresh Login threw, if it threw. *)
Definition errorMessage (lastError : option JsError) : JsVal :=
  match lastError with
  | Some err =>
      if negb (String.eqb (message err) "") then
        let parsed :=
          obind (JSON_parse env (message err)) (fun errorObj =>
          obind (get_prop errorObj "errors") (fun errors =>
          if truthy errors then
            obind (get_prop errors "length") (fun len =>
            if gt_zero len then
              obind (get_prop errors "0") (fun first => get_prop first "message")
            else Ok (VStr (message err)))
          else Ok (VStr (message err)))) in
        match parsed with
        | Ok v => v
        | Throw _ => VStr (message err)
        end
      else VStr "All authentication methods failed"
  | None => VStr "All authentication methods failed"
  end.

Definition authenticationError (lastError : option JsError) : JsError :=
  mkError ("Failed to authenticate: " +:+ toString (errorMessage lastError)).

(** [new Scraper()] *)
Definition newScraper : M Handle :=
  h <- gets next_handle ;;
  modify (fun w => record_event (EvNewScraper h) (set_next_handle (S h) w)) ;;;
  ret h.

(** [getClient]: [None] stands for the [undefined] that reading a missing
    registry entry yields. *)
Definition getClient (credentials : Credentials) : M (option Handle) :=
  let user := username credentials in
  try_catch
    (existing <- tryExistingClient user ;;
     if existing : bool then gets (fun w => st_instances w !! user)
     else
       client <- newScraper ;;
       passed <- match cookies credentials with
                 | Some jar => tryPassedCookies client user jar
                 | None => ret false
                 end ;;
       if passed : bool then (c <- saveClientAndReturn user client ;; ret (Some c))
       else
         remembered <- tryInMemoryCookies client user ;;
         if remembered : bool then (c <- saveClientAndReturn user client ;; ret (Some c))
         else
           stored <- tryMongoCookies client user ;;
           if stored : bool then (c <- saveClientAndReturn user client ;; ret (Some c))
           else
             attempt <- try_catch
                          (fresh <- tryFreshLogin client user (password credentials)
                                      (email credentials) (twoFactorSecret credentials) ;;
                           if fresh : bool
                           then (c <- saveClientAndReturn user client ;; ret (inl (Some c)))
                           else ret (inl None))
                          (fun loginError => ret (inr loginError)) ;;
             match attempt with
             | inl (Some c) => ret (Some c)
             | inl None => throw (authenticationError None)
             | inr lastError => throw (authenticationError (Some lastError))
             end)
    (fun error =>
       console_error [VStr "Error in getClient:"; VStr (message error)] ;;;
       throw error).

Definition cacheId (type key : string) : string := type +:+ "_" +:+ key.

Definition defaultCacheDurationMs : Z := 43200000.

(** [getCachedData(key, type, cacheDurationMs = 43200000)]: [None] for the
    third argument is a call that leaves it out. *)
Definition getCachedData (k type : string) (cacheDurationMs : option Z) : M JsVal :=
  let cacheDurationMs := default defaultCacheDurationMs cacheDurationMs in
  try_catch
    (initMongoClient ;;;
     call (EvFindOne "twitter_cache" (cacheId type k)) (mongo_findOne env) ;;;
     cacheEntry <- gets (fun w => db_twitter_cache w !! cacheId type k) ;;
     match cacheEntry with
     | None => ret VNull
     | Some entry =>
         current <- now ;;
         let cacheAge := current - timestamp entry in
         if Z.ltb cacheDurationMs cacheAge then ret VNull
         else ret (data entry)
     end)
    (fun error =>
       console_error [VStr "Error getting cached data:"; VStr (message error)] ;;;
       ret VNull).

Definition setCachedData (k type : string) (payload : JsVal)
    (cacheDurationMs : option Z) : M unit :=
  let cacheDurationMs := default defaultCacheDurationMs cacheDurationMs in
  try_catch
    (initMongoClient ;;;
     stamp <- now ;;
     current <- now ;;
     call (EvUpdateOne "twitter_cache" (cacheId type k)) (mongo_updateOne env) ;;;
     modify (fun w =>
       set_db_twitter_cache
         (<[cacheId type k := mkCacheEntry payload stamp (current + cacheDurationMs)]>
            (db_twitter_cache w)) w))
    (fun error =>
       console_error [VStr "Error setting cached data:"; VStr (message error)] ;;;
       ret tt).

End WithEnv.
End TwitterClient.

(* ===================================================================== *)
(** ** twitter_helper.js: class TwitterHelper *)
(* ===================================================================== *)

Module TwitterHelper.
Section WithEnv.

Variable env : Env.

Definition THIRTY_MINUTES_MS : Z := 30 * 60 * 1000.

(** The budget of the timer that [searchTweets] races the search against. *)
Definition SEARCH_TIMEOUT_MS : Z := 15000.

(** twitter_helper.js imports [TwitterClient] from ./client.js and nothing
    else, so the identifier [SearchMode] in the default value of the
    [searchMode] parameter is unbound: evaluating it throws. *)
Definition SearchMode : outcome JsVal :=
  Throw (mkError "SearchMode is not defined").

(** [{ status: 500, error: text }] *)
Definition failure (detail : JsVal) : JsVal :=
  VObj [("status", VNum 500); ("error", detail)].

Definition emptyResult : JsVal := VObj [("tweets", VArr [])].

(** [v?.name] *)
Definition opt_prop (v : JsVal) (name : string) : outcome JsVal :=
  match v with
  | VUndefined | VNull => Ok VUndefined
  | _ => get_prop v name
  end.

(** [a ?? b] *)
Definition nullish_or (a b : JsVal) : JsVal :=
  match a with
  | VUndefined | VNull => b
  | _ => a
  end.

(** [v && v.length > 0]: reading [length] of a truthy value never throws. *)
Definition nonEmpty (v : JsVal) : bool :=
  truthy v
  && match get_prop v "length" with
     | Ok len => gt_zero len
     | Throw _ => false
     end.

(** A parameter with a default value: the default replaces [undefined]. *)
Definition with_default (v dflt : JsVal) : JsVal :=
  match v with
  | VUndefined => dflt
  | _ => v
  end.

(** [client.method(...args)] on what [getClient] returned. *)
Definition invoke (client : option Handle) (method : string) (args : list JsVal) : M JsVal :=
  match client with
  | Some h => call (EvScraper h method args) (fun hist => scraper_call env hist h method args)
  | None =>
      throw (TypeError ("Cannot read properties of undefined (reading '" +:+ method +:+ "')"))
  end.

(** [client.method(...args)] where evaluating the arguments may throw: the
    method is read from the client first, then the arguments are
    evaluated. *)
Definition invoke_with (client : option Handle) (method : string)
    (args : outcome (list JsVal)) : M JsVal :=
  match client with
  | Some h => evaluated <- lift args ;; invoke client method evaluated
  | None => invoke client method []
  end.

Definition cookieValue (c : Cookie) : JsVal :=
  VObj [("key", VStr (key c)); ("value", VStr (value c));
        ("domain", match domain c with Some d => VStr d | None => VUndefined end);
        ("path", VStr (path c)); ("secure", VBool (secure c));
        ("httpOnly", VBool (httpOnly c));
        ("sameSite", match sameSite c with Some s => VStr s | None => VUndefined end)].

Definition getCookies (client : option Handle) : M JsVal :=
  match client with
  | Some h =>
      jar <- call (EvGetCookies h) (fun hist => scraper_getCookies env hist h) ;;
      ret (VArr (map cookieValue jar))
  | None =>
      throw (TypeError "Cannot read properties of undefined (reading 'getCookies')")
  end.

Definition getProfile (credentials : Credentials) : M JsVal :=
  let user := username credentials in
  try_catch
    (known <- gets (fun w => default VUndefined (st_profiles w !! user)) ;;
     if truthy known then ret known
     else
       cachedProfile <- TwitterClient.getCachedData env user "profile" None ;;
       if truthy cachedProfile then
         modify (fun w => set_profiles (<[user := cachedProfile]> (st_profiles w)) w) ;;;
         ret cachedProfile
       else
         client <- TwitterClient.getClient env credentials ;;
         userProfile <- invoke client "getProfile" [VStr user] ;;
         id <- lift (get_prop userProfile "userId") ;;
         name <- lift (get_prop userProfile "name") ;;
         biography <- lift (get_prop userProfile "biography") ;;
         jar <- getCookies client ;;
         let profile :=
           VObj [("id", id); ("username", VStr user);
                 ("screenName", js_or name (VStr user));
                 ("bio", js_or biography (VStr ""));
                 ("cookies", jar)] in
         modify (fun w => set_profiles (<[user := profile]> (st_profiles w)) w) ;;;
         TwitterClient.setCachedData env user "profile" profile None ;;;
         ret profile)
    (fun error =>
       console_error [VStr "Error getting profile:"; VStr (message error)] ;;;
       ret (failure (VStr ("Failed to fetch profile: " +:+ message error)))).

(** [s.replace('@', '')]: the first at-sign is removed. *)
Fixpoint remove_first_at (s : string) : string :=
  match s with
  | EmptyString => EmptyString
  | String c rest => if Ascii.eqb c "@" then rest else String c (remove_first_at rest)
  end.

Definition replace_at (v : JsVal) : outcome JsVal :=
  match v with
  | VStr s => Ok (VStr (remove_first_at s))
  | VUndefined | VNull => get_prop v "replace"
  | _ => Throw (TypeError "targetUsername.replace is not a function")
  end.

Definition getTargetProfile (credentials : Credentials) (targetUsername : JsVal) : M JsVal :=
  try_catch
    (cachedProfile <- TwitterClient.getCachedData env (toString targetUsername)
                        "target_profile" None ;;
     if truthy cachedProfile then ret cachedProfile
     else
       client <- TwitterClient.getClient env credentials ;;
       userProfile <- invoke_with client "getProfile"
                        (obind (replace_at targetUsername) (fun bare => Ok [bare])) ;;
       id <- lift (get_prop userProfile "userId") ;;
       name <- lift (get_prop userProfile "name") ;;
       biography <- lift (get_prop userProfile "biography") ;;
       followersCount <- lift (get_prop userProfile "followersCount") ;;
       followingCount <- lift (get_prop userProfile "followingCount") ;;
       tweetsCount <- lift (get_prop userProfile "tweetsCount") ;;
       isVerified <- lift (get_prop userProfile "isVerified") ;;
       isPrivate <- lift (get_prop userProfile "isPrivate") ;;
       joined <- lift (get_prop userProfile "joined") ;;
       location <- lift (get_prop userProfile "location") ;;
       website <- lift (get_prop userProfile "website") ;;
       let profile :=
         VObj [("id", id); ("username", targetUsername);
               ("screenName", js_or name targetUsername);
               ("bio", js_or biography (VStr ""));
               ("followersCount", followersCount);
               ("followingCount", followingCount);
               ("tweetsCount", tweetsCount);
               ("isVerified", isVerified);
               ("isPrivate", isPrivate);
               ("joined", joined);
               ("location", js_or location (VStr ""));
               ("website", js_or website (VStr ""))] in
       TwitterClient.setCachedData env (toString targetUsername) "target_profile" profile None ;;;
       ret profile)
    (fun error =>
       console_error [VStr "Error getting target profile:"; VStr (message error)] ;;;
       ret (failure (VStr ("Failed to fetch target profile: " +:+ message error)))).

Definition getTweet (credentials : Credentials) (tweetId : JsVal) : M JsVal :=
  try_catch
    (client <- TwitterClient.getClient env credentials ;;
     tweet <- invoke client "getTweet" [tweetId] ;;
     lift (JSON_strip env tweet))
    (fun error =>
       console_error [VStr "Error getting tweet:"; VStr (message error)] ;;;
       ret (failure (VStr ("Failed to fetch tweet: " +:+ message error)))).

Definition getUserTweets (credentials : Credentials) (userId count useCache : JsVal) : M JsVal :=
  let useCache := with_default useCache (VBool true) in
  try_catch
    (hit <- (if truthy useCache then
               cachedTweets <- TwitterClient.getCachedData env (toString userId) "user_tweets"
                                 (Some THIRTY_MINUTES_MS) ;;
               ret (if truthy cachedTweets then Some cachedTweets else None)
             else ret None) ;;
     match hit with
     | Some cachedTweets => ret cachedTweets
     | None =>
         client <- TwitterClient.getClient env credentials ;;
         response <- invoke client "getUserTweets" [userId; count] ;;
         tweets <- lift (get_prop response "tweets") ;;
         (if truthy useCache && nonEmpty tweets then
            TwitterClient.setCachedData env (toString userId) "user_tweets" tweets
              (Some THIRTY_MINUTES_MS)
          else ret tt) ;;;
         ret tweets
     end)
    (fun error =>
       console_error [VStr "Error getting user tweets:"; VStr (message error)] ;;;
       ret (failure (VStr ("Failed to fetch user tweets: " +:+ message error)))).

Definition fetchHomeTimeline (credentials : Credentials) (count following useCache : JsVal)
    : M JsVal :=
  let following := with_default following (VBool false) in
  let useCache := with_default useCache (VBool true) in
  try_catch
    (let cacheKey := username credentials +:+ "_"
                     +:+ (if truthy following then "following" else "home")
                     +:+ "_timeline" in
     hit <- (if truthy useCache then
               cachedTimeline <- TwitterClient.getCachedData env cacheKey "timeline"
                                   (Some THIRTY_MINUTES_MS) ;;
               ret (if truthy cachedTimeline then Some cachedTimeline else None)
             else ret None) ;;
     match hit with
     | Some cachedTimeline => ret cachedTimeline
     | None =>
         client <- TwitterClient.getClient env credentials ;;
         timeline <- (if truthy following
                      then invoke client "fetchFollowingTimeline" [count; VArr []]
                      else invoke client "fetchHomeTimeline" [count; VArr []]) ;;
         formattedTimeline <- lift (formatTimeline env timeline) ;;
         (if truthy useCache && nonEmpty formattedTimeline then
            TwitterClient.setCachedData env cacheKey "timeline" formattedTimeline
              (Some THIRTY_MINUTES_MS)
          else ret tt) ;;;
         ret formattedTimeline
     end)
    (fun error =>
       console_error [VStr "Error fetching home timeline:"; VStr (message error)] ;;;
       ret (failure (VStr ("Failed to fetch home timeline: " +:+ message error)))).

(** [Promise.race([search, timer])]: the search wins when it settles
    before the timer of [budget] milliseconds fires; otherwise the race
    resolves with the timer's value. *)
Definition race (search : Settle) (budget : Z) (timerValue : JsVal) : outcome JsVal :=
  match search with
  | Some (after, result) => if Z.ltb after budget then result else Ok timerValue
  | None => Ok timerValue
  end.

Definition fetchSearchTweets (client : option Handle) (args : list JsVal) : M Settle :=
  match client with
  | Some h =>
      call (EvFetchSearchTweets h args)
           (fun hist => Ok (scraper_fetchSearchTweets env hist h args))
  | None =>
      throw (TypeError "Cannot read properties of undefined (reading 'fetchSearchTweets')")
  end.

Definition searchTweets (credentials : Credentials)
    (query maxTweets searchMode cursor useCache : JsVal) : M JsVal :=
  searchMode <- (match searchMode with
                 | VUndefined => lift (obind SearchMode (fun m => get_prop m "Latest"))
                 | _ => ret searchMode
                 end) ;;
  let useCache := with_default useCache (VBool true) in
  try_catch
    (let cacheKey := toString query +:+ "_" +:+ toString searchMode
                     +:+ "_" +:+ toString maxTweets in
     hit <- (if truthy useCache && negb (truthy cursor) then
               cachedResults <- TwitterClient.getCachedData env cacheKey "search"
                                  (Some THIRTY_MINUTES_MS) ;;
               ret (if truthy cachedResults then Some cachedResults else None)
             else ret None) ;;
     match hit with
     | Some cachedResults => ret cachedResults
     | None =>
         client <- TwitterClient.getClient env credentials ;;
         search <- fetchSearchTweets client [query; maxTweets; searchMode; cursor] ;;
         result <- lift (race search SEARCH_TIMEOUT_MS emptyResult) ;;
         tweets <- lift (opt_prop result "tweets") ;;
         (if truthy useCache && negb (truthy cursor) && nonEmpty tweets then
            TwitterClient.setCachedData env cacheKey "search" result (Some THIRTY_MINUTES_MS)
          else ret tt) ;;;
         ret (nullish_or result emptyResult)
     end)
    (fun error =>
       console_error [VStr "Error searching tweets:"; VStr (message error)] ;;;
       ret (failure (VStr ("Failed to search tweets: " +:+ message error)))).

(** [standardTweetResult.json()] *)
Definition responseJson (response : JsVal) : M JsVal :=
  match response with
  | VUndefined | VNull => lift (get_prop response "json")
  | _ => call (EvResponseJson response) (fun hist => response_json env hist response)
  end.

Definition sendTweet (credentials : Credentials) : M JsVal :=
  try_catch
    (client <- TwitterClient.getClient env credentials ;;
     let text := text credentials in
     let reply_to_id := reply_to_id credentials in
     let quote_tweet_id := quote_tweet_id credentials in
     let mediaData := mediaData credentials in
     if truthy quote_tweet_id && negb (truthy text) then
       invoke client "retweet" [quote_tweet_id] ;;;
       ret (VObj [("retweet", VBool true)])
     else
       standardTweetResult <-
         (if truthy quote_tweet_id then
            invoke client "sendQuoteTweet"
              [text; quote_tweet_id; VObj [("mediaData", js_or mediaData (VArr []))]]
          else invoke client "sendTweet" [text; reply_to_id; mediaData]) ;;
       body <- responseJson standardTweetResult ;;
       result <- lift (obind (opt_prop body "data") (fun d =>
                       obind (opt_prop d "create_tweet") (fun c =>
                       obind (opt_prop c "tweet_results") (fun t =>
                       opt_prop t "result")))) ;;
       if negb (truthy result) then
         console_error [VStr "Error sending tweet; Bad response:"; body] ;;;
         detail <- lift (obind (get_prop body "errors") (fun errors =>
                         obind (get_prop errors "0") (fun first =>
                         get_prop first "message"))) ;;
         ret (failure detail)
       else ret result)
    (fun error =>
       console_error [VStr "Error sending tweet:"; VStr (message error)] ;;;
       ret (failure (VStr (message error)))).

(** [options.map(label => ({ label }))] *)
Definition pollOptions (options : JsVal) : outcome JsVal :=
  match options with
  | VArr labels => Ok (VArr (map (fun label => VObj [("label", label)]) labels))
  | VUndefined | VNull => get_prop options "map"
  | _ => Throw (TypeError "options.map is not a function")
  end.

Definition sendTweetWithPoll (credentials : Credentials)
    (text options durationMinutes : JsVal) : M JsVal :=
  let durationMinutes := with_default durationMinutes (VNum 120) in
  try_catch
    (client <- TwitterClient.getClient env credentials ;;
     invoke_with client "sendTweetV2"
       (obind (pollOptions options) (fun labels =>
        Ok [text; VUndefined;
            VObj [("poll", VObj [("options", labels);
                                 ("durationMinutes", durationMinutes)])]])))
    (fun error =>
       console_error [VStr "Error sending tweet with poll:"; VStr (message error)] ;;;
       ret (failure (VStr ("Failed to send tweet with poll: " +:+ message error)))).

(** The object pushed for one profile the generator yields. *)
Definition followingEntry (profile : JsVal) : outcome JsVal :=
  obind (get_prop profile "userId") (fun userId =>
  obind (get_prop profile "username") (fun uname =>
  obind (get_prop profile "name") (fun name =>
  obind (get_prop profile "biography") (fun biography =>
  obind (get_prop profile "followersCount") (fun followersCount =>
  obind (get_prop profile "followingCount") (fun followingCount =>
  obind (get_prop profile "isVerified") (fun isVerified =>
  obind (get_prop profile "avatar") (fun avatar =>
  Ok (VObj [("id", userId); ("username", uname); ("name", name);
            ("bio", js_or biography (VStr ""));
            ("followersCount", js_or followersCount (VNum 0));
            ("followingCount", js_or followingCount (VNum 0));
            ("isVerified", js_or isVerified (VBool false));
            ("profileImageUrl", avatar)]))))))))).

(** The [for await] loop over what the generator yields before it ends
    (or throws, [failed]). *)
Fixpoint collectFollowing (yielded : list JsVal) (failed : option JsError)
    (following : list JsVal) : outcome (list JsVal) :=
  match yielded with
  | [] =>
      match failed with
      | Some e => Throw e
      | None => Ok following
      end
  | profile :: rest =>
      obind (followingEntry profile) (fun entry =>
      collectFollowing rest failed (following ++ [entry]))
  end.

Definition getFollowing (credentials : Credentials) (userId count : JsVal) : M JsVal :=
  let count := with_default count (VNum 100) in
  try_catch
    (cachedFollowing <- TwitterClient.getCachedData env (toString userId) "following" None ;;
     if truthy cachedFollowing then ret cachedFollowing
     else
       client <- TwitterClient.getClient env credentials ;;
       generated <-
         match client with
         | Some h =>
             call (EvScraper h "getFollowing" [userId; count])
                  (fun hist => Ok (scraper_getFollowing env hist h [userId; count]))
         | None =>
             throw (TypeError "Cannot read properties of undefined (reading 'getFollowing')")
         end ;;
       following <- lift (collectFollowing (fst generated) (snd generated) []) ;;
       TwitterClient.setCachedData env (toString userId) "following" (VArr following) None ;;;
       ret (VArr following))
    (fun error =>
       console_error [VStr "Error getting following:"; VStr (message error)] ;;;
       ret (failure (VStr ("Failed to fetch following users: " +:+ message error)))).

End WithEnv.
End TwitterHelper.

(* ===================================================================== *)
(** ** index.js: the routes *)
(* ===================================================================== *)

Module Routes.

(** What a handler reads from a request whose JSON body is an object (a
    request without one makes [validateCredentials] itself throw, and is
    not a [Request]): the body, whose credential
    fields are the ones of [Credentials] (an absent [username] or
    [password] and an empty one are both falsy and both held as the empty
    string), the other body fields a route destructures ([undefined] when
    absent), and the route parameter. *)
Record Request : Type := mkRequest {
  req_body : Credentials;
  req_count : JsVal;
  req_following : JsVal;
  req_query : JsVal;
  req_maxTweets : JsVal;
  req_mode : JsVal;
  req_cursor : JsVal;
  req_options : JsVal;
  req_durationMinutes : JsVal;
  req_param : string
}.

(** What a handler sends: [res.status(code).json(payload)]; a bare
    [res.json(payload)] sends status 200. *)
Record Response : Type := mkResponse {
  res_status : Z;
  res_payload : JsVal
}.

Section WithEnv.

Variable env : Env.

(** [SearchMode[key]], the enumeration object index.js imports from
    agent-twitter-client. *)
Variable SearchMode : string -> JsVal.

(** [JSON.stringify(payload)] as [res.json] calls it: it returns (the text
    is not modelled) or it throws, on a value it cannot serialise (a
    cycle, as platform tweets carry them).  A [JsVal] does not show which
    values those are, so this is a collaborator. *)
Variable JSON_stringify : JsVal -> outcome unit.

(** [res.json(payload)]: the payload is serialised, then sent with status
    200. *)
Definition send (payload : JsVal) : M Response :=
  lift (JSON_stringify payload) ;;;
  ret (mkResponse 200 payload).

(** [res.status(code).json({ error: detail })]: an object holding one
    string always serialises. *)
Definition sendError (code : Z) (detail : string) : M Response :=
  ret (mkResponse code (VObj [("error", VStr detail)])).

(** The middleware [validateCredentials], placed before every handler. *)
Definition validateCredentials (req : Request) (next : M Response) : M Response :=
  if negb (truthy (VStr (username (req_body req))))
     || negb (truthy (VStr (password (req_body req))))
  then sendError 400 "Username and password are required"
  else next.

(** [POST /api/login] *)
Definition login (req : Request) : M Response :=
  validateCredentials req
    (try_catch
       (profile <- TwitterHelper.getProfile env (req_body req) ;;
        send profile)
       (fun error => sendError 401 (message error))).

(** [POST /api/profile/:user] *)
Definition profile (req : Request) : M Response :=
  validateCredentials req
    (try_catch
       (found <- TwitterHelper.getTargetProfile env (req_body req) (VStr (req_param req)) ;;
        send found)
       (fun error => sendError 500 (message error))).

(** [POST /api/tweets/:userId] *)
Definition tweets (req : Request) : M Response :=
  validateCredentials req
    (try_catch
       (let count := TwitterHelper.with_default (req_count req) (VNum 10) in
        found <- TwitterHelper.getUserTweets env (req_body req) (VStr (req_param req))
                   count VUndefined ;;
        send found)
       (fun error => sendError 500 (message error))).

(** [POST /api/timeline] *)
Definition timeline (req : Request) : M Response :=
  validateCredentials req
    (try_catch
       (let count := TwitterHelper.with_default (req_count req) (VNum 10) in
        let following := TwitterHelper.with_default (req_following req) (VBool false) in
        found <- TwitterHelper.fetchHomeTimeline env (req_body req) count following
                   VUndefined ;;
        send found)
       (fun error => sendError 500 (message error))).

(** [POST /api/search] *)
Definition search (req : Request) : M Response :=
  validateCredentials req
    (try_catch
       (let query := req_query req in
        let maxTweets := TwitterHelper.with_default (req_maxTweets req) (VNum 10) in
        let mode := TwitterHelper.with_default (req_mode req) (VStr "Latest") in
        let cursor := req_cursor req in
        if negb (truthy query) then sendError 400 "Query parameter is required"
        else
          found <- TwitterHelper.searchTweets env (req_body req) query maxTweets
                     (SearchMode (toString mode)) cursor VUndefined ;;
          send found)
       (fun error => sendError 500 (message error))).

(** [POST /api/tweet] *)
Definition tweet (req : Request) : M Response :=
  validateCredentials req
    (try_catch
       (if negb (truthy (text (req_body req)))
           && negb (truthy (quote_tweet_id (req_body req)))
        then sendError 400 "Text is required"
        else
          sent <- TwitterHelper.sendTweet env (req_body req) ;;
          send sent)
       (fun error => sendError 500 (message error))).

(** [Array.isArray(v)] *)
Definition isArray (v : JsVal) : bool :=
  match v with
  | VArr _ => true
  | _ => false
  end.

(** [options.length < 2 || options.length > 4], for an array. *)
Definition badOptionCount (options : JsVal) : bool :=
  match options with
  | VArr labels => Nat.ltb (List.length labels) 2 || Nat.ltb 4 (List.length labels)
  | _ => false
  end.

(** [POST /api/tweet/poll] *)
Definition poll (req : Request) : M Response :=
  validateCredentials req
    (try_catch
       (let text := text (req_body req) in
        let options := req_options req in
        let durationMinutes :=
          TwitterHelper.with_default (req_durationMinutes req) (VNum 120) in
        if negb (truthy text) || negb (truthy options) || negb (isArray options)
        then sendError 400 "Text and options array are required"
        else if badOptionCount options
        then sendError 400 "Poll must have between 2 and 4 options"
        else
          sent <- TwitterHelper.sendTweetWithPoll env (req_body req) text options
                    durationMinutes ;;
          send sent)
       (fun error => sendError 500 (message error))).


(** [POST /api/following/:userId] *)
Definition following (req : Request) : M Response :=
  validateCredentials req
    (try_catch
       (let count := TwitterHelper.with_default (req_count req) (VNum 100) in
        found <- TwitterHelper.getFollowing env (req_body req) (VStr (req_param req)) count ;;
        send found)
       (fun error => sendError 500 (message error))).

End WithEnv.
End Routes.

(* ===================================================================== *)
(** ** A concrete runtime for running the model *)
(* ===================================================================== *)

(** A JSON reader for the values [JsVal] can hold (integers for numbers,
    the short escapes in strings), used as [JSON.parse] when the model is
    run on concrete inputs. *)
Module Json.

Definition dquote : ascii := "034"%char.
Definition backslash : ascii := "092"%char.

Definition is_space (c : ascii) : bool :=
  let n := nat_of_ascii c in
  Nat.eqb n 32 || Nat.eqb n 9 || Nat.eqb n 10 || Nat.eqb n 13.

Fixpoint skip_space (s : string) : string :=
  match s with
  | String c rest => if is_space c then skip_space rest else s
  | EmptyString => s
  end.

Definition unescape (c : ascii) : option ascii :=
  if Ascii.eqb c dquote then Some dquote
  else if Ascii.eqb c backslash then Some backslash
  else if Ascii.eqb c "/" then Some "/"%char
  else if Ascii.eqb c "n" then Some "010"%char
  else if Ascii.eqb c "t" then Some "009"%char
  else if Ascii.eqb c "r" then Some "013"%char
  else if Ascii.eqb c "b" then Some "008"%char
  else if Ascii.eqb c "f" then Some "012"%char
  else None.

(** The characters of a string literal after its opening quote. *)
Fixpoint read_chars (s : string) : option (string * string) :=
  match s with
  | EmptyString => None
  | String c rest =>
      if Ascii.eqb c dquote then Some (EmptyString, rest)
      else if Ascii.eqb c backslash then
        match rest with
        | String e rest' =>
            match unescape e, read_chars rest' with
            | Some c', Some (body, after) => Some (String c' body, after)
            | _, _ => None
            end
        | EmptyString => None
        end
      else if Nat.ltb (nat_of_ascii c) 32 then None
      else
        match read_chars rest with
        | Some (body, after) => Some (String c body, after)
        | None => None
        end
  end.

Fixpoint read_digits (acc : Z) (s : string) : Z * string :=
  match s with
  | String c rest =>
      if is_digit c
      then read_digits (10 * acc + Z.of_nat (nat_of_ascii c - 48)) rest
      else (acc, s)
  | EmptyString => (acc, s)
  end.

(** An integer literal: no leading zeros, no fraction, no exponent. *)
Definition read_number (s : string) : option (JsVal * string) :=
  let '(negative, s) := match s with
                        | String "-" rest => (true, rest)
                        | _ => (false, s)
                        end in
  match s with
  | String c rest =>
      if is_digit c then
        let '(n, after) := if Ascii.eqb c "0" then (0, rest) else read_digits 0 s in
        match after with
        | String d _ =>
            if is_digit d || Ascii.eqb d "." || Ascii.eqb d "e" || Ascii.eqb d "E"
            then None
            else Some (VNum (if negative : bool then - n else n), after)
        | EmptyString => Some (VNum (if negative : bool then - n else n), after)
        end
      else None
  | EmptyString => None
  end.

Definition read_word (word : string) (v : JsVal) (s : string) : option (JsVal * string) :=
  if String.prefix word s
  then Some (v, String.substring (String.length word) (String.length s - String.length word) s)
  else None.

Fixpoint read_value (fuel : nat) (s : string) : option (JsVal * string) :=
  match fuel with
  | O => None
  | S fuel' =>
      match skip_space s with
      | String c rest =>
          if Ascii.eqb c dquote then
            match read_chars rest with
            | Some (body, after) => Some (VStr body, after)
            | None => None
            end
          else if Ascii.eqb c "[" then
            match skip_space rest with
            | String "]" after => Some (VArr [], after)
            | _ =>
                match read_items fuel' rest with
                | Some (items, after) => Some (VArr items, after)
                | None => None
                end
            end
          else if Ascii.eqb c "{" then
            match skip_space rest with
            | String "}" after => Some (VObj [], after)
            | _ =>
                match read_fields fuel' rest with
                | Some (fields, after) => Some (VObj fields, after)
                | None => None
                end
            end
          else if Ascii.eqb c "n" then read_word "null" VNull (String c rest)
          else if Ascii.eqb c "t" then read_word "true" (VBool true) (String c rest)
          else if Ascii.eqb c "f" then read_word "false" (VBool false) (String c rest)
          else read_number (String c rest)
      | EmptyString => None
      end
  end
with read_items (fuel : nat) (s : string) : option (list JsVal * string) :=
  match fuel with
  | O => None
  | S fuel' =>
      match read_value fuel' s with
      | Some (v, after) =>
          match skip_space after with
          | String "," more =>
              match read_items fuel' more with
              | Some (items, rest) => Some (v :: items, rest)
              | None => None
              end
          | String "]" rest => Some ([v], rest)
          | _ => None
          end
      | None => None
      end
  end
with read_fields (fuel : nat) (s : string) : option (list (string * JsVal) * string) :=
  match fuel with
  | O => None
  | S fuel' =>
      match skip_space s with
      | String c rest =>
          if Ascii.eqb c dquote then
            match read_chars rest with
            | Some (name, after) =>
                match skip_space after with
                | String ":" more =>
                    match read_value fuel' more with
                    | Some (v, after') =>
                        match skip_space after' with
                        | String "," more' =>
                            match read_fields fuel' more' with
                            | Some (fields, rest') => Some ((name, v) :: fields, rest')
                            | None => None
                            end
                        | String "}" rest' => Some ([(name, v)], rest')
                        | _ => None
                        end
                    | None => None
                    end
                | _ => None
                end
            | None => None
            end
          else None
      | EmptyString => None
      end
  end.

Definition SyntaxError : JsError := mkError "Unexpected token in JSON".

Definition parse (s : string) : outcome JsVal :=
  match read_value (2 * String.length s + 2) s with
  | Some (v, after) =>
      match skip_space after with
      | EmptyString => Ok v
      | _ => Throw SyntaxError
      end
  | None => Throw SyntaxError
  end.

(** JSON text is written here with apostrophes for its double quotes. *)
Fixpoint text (s : string) : string :=
  match s with
  | String c rest => String (if Ascii.eqb c "'" then dquote else c) (text rest)
  | EmptyString => EmptyString
  end.

End Json.

(** Concrete collaborators and worlds on which the model is run. *)
Module Example.

Definition session_cookie : Cookie :=
  mkCookie "auth_token" "a1b2c3" (Some ".x.com") "/" true true (Some "None").

Definition legacy_cookie : Cookie :=
  mkCookie "ct0" "d4e5f6" (Some ".twitter.com") "/" true false None.

Definition supplied_jar : CookieJar := [session_cookie; legacy_cookie].

Definition login_jar : CookieJar := [legacy_cookie].

Definition alice (jar : option CookieJar) : Credentials :=
  mkCredentials "alice" "hunter2" None None jar VUndefined VUndefined VUndefined VUndefined.

(** A clock that advances one second per recorded event. *)
Definition clock (hist : History) : Z := 1000 * Z.of_nat (List.length hist).

Definition refused : JsError := mkError "connect ECONNREFUSED 127.0.0.1:27017".

(** The collaborators, from: the answer of the login-state probe, the
    outcome of a login, whether the store can be reached, and when the
    platform search settles.  A client fetched after a login holds
    [login_jar]. *)
Definition runtime (probe : History -> Handle -> outcome bool) (login : outcome unit)
    (storeUp : bool) (search : Settle) : Env :=
  mkEnv probe
        (fun _ _ _ => Ok tt)
        (fun _ _ _ _ _ _ => login)
        (fun _ _ => Ok login_jar)
        (fun _ _ _ _ => Ok VUndefined)
        (fun _ _ _ => search)
        (fun _ _ _ => ([], None))
        (fun _ _ => Ok VUndefined)
        (fun _ => Ok tt)
        (fun _ => false)
        (fun _ => if storeUp then Ok tt else Throw refused)
        (fun _ => Ok tt)
        (fun _ => Ok tt)
        clock
        Json.parse
        (fun v => Ok v)
        (fun v => Ok v).

Definition always (b : bool) : History -> Handle -> outcome bool := fun _ _ => Ok b.

(** A process that has just started: nothing registered, nothing stored. *)
Definition fresh_world : World := mkWorld ∅ ∅ ∅ false ∅ ∅ 0%nat [].

(** A process in which a session of alice is registered as client 7. *)
Definition registered_world : World :=
  set_instances (<["alice" := 7%nat]> ∅) (set_next_handle 8%nat fresh_world).

(** A restarted process: the Session Store holds a jar of alice, written at
    time 5; nothing is in memory. *)
Definition restarted_world : World :=
  set_db_cookies (<["alice" := mkSessionRecord login_jar 5]> ∅) fresh_world.

(** The Cache Store holds a profile of alice written at time 0. *)
Definition cached_world : World :=
  set_db_twitter_cache
    (<["profile_alice" := mkCacheEntry (VObj [("bio", VStr "x")]) 0 1000]> ∅) fresh_world.

(** The body of a platform error. *)
Definition bad_credentials : string :=
  Json.text "{'errors':[{'message':'Bad credentials'}]}".

End Example.

(* ===================================================================== *)
(** ** Reasoning about runs *)
(* ===================================================================== *)

Open Scope list_scope.

(** [m] always resolves. *)
Definition resolves {A} (m : M A) : Prop :=
  forall w, exists a w', m w = (Ok a, w').

(** Whatever [m] throws satisfies [P]. *)
Definition throws_only {A} (P : JsError -> Prop) (m : M A) : Prop :=
  forall w e w', m w = (Throw e, w') -> P e.

(** Every run of [m] relates the world before to the world after by [R]. *)
Definition preserves {A} (R : World -> World -> Prop) (m : M A) : Prop :=
  forall w r w', m w = (r, w') -> R w w'.

(** The events recorded between [w] and [w'] all satisfy [P]. *)
Definition quiet (P : Event -> bool) (w w' : World) : Prop :=
  exists evs, trace w' = evs ++ trace w /\ forallb P evs = true.

(** The events recorded between [w] and [w']. *)
Definition recorded (evs : list Event) (w w' : World) : Prop :=
  trace w' = evs ++ trace w.

Definition is_login (ev : Event) : bool :=
  match ev with
  | EvLogin _ _ _ _ _ => true
  | _ => false
  end.

Definition is_new_scraper (ev : Event) : bool :=
  match ev with
  | EvNewScraper _ => true
  | _ => false
  end.

(** A write to the Session Store. *)
Definition is_session_write (ev : Event) : bool :=
  match ev with
  | EvUpdateOne c _ => String.eqb c "cookies"
  | _ => false
  end.

(** A read of the Cache Store (collection [twitter_cache]). *)
Definition is_cache_read (ev : Event) : bool :=
  match ev with
  | EvFindOne c _ => String.eqb c "twitter_cache"
  | _ => false
  end.

(** A write to the Cache Store. *)
Definition is_cache_write (ev : Event) : bool :=
  match ev with
  | EvUpdateOne c _ => String.eqb c "twitter_cache"
  | _ => false
  end.

Definition is_search (ev : Event) : bool :=
  match ev with
  | EvFetchSearchTweets _ _ => true
  | _ => false
  end.

Definition non (P : Event -> bool) (ev : Event) : bool := negb (P ev).

(** Between [w] and [w'] the login-state probe of client [h] was asked and
    answered [true]. *)
Definition probe_passed (env : Env) (h : Handle) (w w' : World) : Prop :=
  exists later hist earlier,
    trace w' = later ++ EvIsLoggedIn h :: hist
    /\ hist = earlier ++ trace w
    /\ scraper_isLoggedIn env hist h = Ok true.

(** Between [w] and [w'] the jar was applied to client [h] and the
    login-state probe asked right after it answered [true]: the jar was
    validated. *)
Definition validated (env : Env) (h : Handle) (jar : CookieJar) (w w' : World) : Prop :=
  exists later hist earlier,
    trace w' = later ++ EvIsLoggedIn h
                 :: EvSetCookies h (map TwitterClient.cookieString jar) :: hist
    /\ hist = earlier ++ trace w
    /\ scraper_isLoggedIn env
         (EvSetCookies h (map TwitterClient.cookieString jar) :: hist) h = Ok true.

(** [t] is a reading of the clock taken between [w] and [w']. *)
Definition read_clock (env : Env) (t : Z) (w w' : World) : Prop :=
  exists later hist earlier,
    trace w' = later ++ EvDateNow :: hist
    /\ hist = earlier ++ trace w
    /\ t = Date_now env hist.


(** The failure [getClient] ends with when no tier produced a session. *)
Definition is_authentication_error (env : Env) (e : JsError) : Prop :=
  exists lastError,
    e = mkError ("Failed to authenticate: "
                 +:+ toString (TwitterClient.errorMessage env lastError)).

(** Creating and connecting the Mongo client, and logging. *)
Definition is_connection_event (ev : Event) : bool :=
  match ev with
  | EvNewMongoClient | EvIsConnected | EvConnect | EvConsoleError _ => true
  | _ => false
  end.

(** What [saveCookies] does to the outside. *)
Definition is_save_event (ev : Event) : bool :=
  is_connection_event ev
  || match ev with
     | EvDateNow => true
     | EvUpdateOne c _ => String.eqb c "cookies"
     | _ => false
     end.


(** What the tiers before Fresh Login do to the outside. *)
Definition is_tier_event (ev : Event) : bool :=
  is_save_event ev
  || match ev with
     | EvNewScraper _ | EvIsLoggedIn _ | EvSetCookies _ _ => true
     | EvFindOne c _ => String.eqb c "cookies"
     | _ => false
     end.

(** What [getClient] does to the outside. *)
Definition is_resolution_event (ev : Event) : bool :=
  is_tier_event ev
  || match ev with
     | EvLogin _ _ _ _ _ | EvGetCookies _ => true
     | _ => false
     end.

(** What [getCachedData] does to the outside. *)
Definition is_cache_get_event (ev : Event) : bool :=
  is_connection_event ev
  || match ev with
     | EvDateNow => true
     | EvFindOne c _ => String.eqb c "twitter_cache"
     | _ => false
     end.

(** What [setCachedData] does to the outside. *)
Definition is_cache_set_event (ev : Event) : bool :=
  is_connection_event ev
  || match ev with
     | EvDateNow => true
     | EvUpdateOne c _ => String.eqb c "twitter_cache"
     | _ => false
     end.

(** What [searchTweets] does to the outside before it starts the search;
    it reads the Cache Store only when [cacheOn]. *)
Definition is_before_search (cacheOn : bool) (ev : Event) : bool :=
  (cacheOn && is_cache_get_event ev) || is_resolution_event ev.

(** [result?.tweets] *)
Definition resultTweets (result : JsVal) : JsVal :=
  match TwitterHelper.opt_prop result "tweets" with
  | Ok tweets => tweets
  | Throw _ => VUndefined
  end.

(** The platform search is still pending when the timer of the budget
    fires. *)
Definition pending_at (budget : Z) (search : Settle) : Prop :=
  match search with
  | Some (after, _) => budget < after
  | None => True
  end.

(** The world after [w] differs from it at most in the history and in the
    Mongo client having been created. *)
Definition same_data (w w' : World) : Prop :=
  st_instances w' = st_instances w
  /\ st_cookies w' = st_cookies w
  /\ st_profiles w' = st_profiles w
  /\ db_cookies w' = db_cookies w
  /\ db_twitter_cache w' = db_twitter_cache w
  /\ next_handle w' = next_handle w.

(** The history of [w'] continues the one of [w]. *)
Definition extends (w w' : World) : Prop :=
  exists evs, trace w' = evs ++ trace w.

(** The jar was remembered in memory and upserted into the Session Store
    with a reading of the clock. *)
Definition written (env : Env) (user : string) (jar : CookieJar) (w w' : World) : Prop :=
  st_cookies w' = <[user := jar]> (st_cookies w)
  /\ exists t, read_clock env t w w'
       /\ db_cookies w' = <[user := mkSessionRecord jar t]> (db_cookies w).

(** Tier 1 answered: the registered client passed its probe. *)
Definition via_existing (env : Env) (user : string) (r : outcome (option Handle))
    (w w' : World) : Prop :=
  exists client,
    r = Ok (Some client)
    /\ st_instances w !! user = Some client
    /\ probe_passed env client w w'
    /\ same_data w w'.

(** Tier 2 answered: the supplied jar was validated and written. *)
Definition via_supplied (env : Env) (credentials : Credentials) (h : Handle)
    (w w' : World) : Prop :=
  exists jar,
    cookies credentials = Some jar
    /\ validated env h jar w w'
    /\ written env (username credentials) jar w w'.

(** Tier 3 answered: the remembered jar was validated; nothing is written. *)
Definition via_memory (env : Env) (user : string) (h : Handle) (w w' : World) : Prop :=
  exists jar,
    st_cookies w !! user = Some jar
    /\ validated env h jar w w'
    /\ st_cookies w' = st_cookies w
    /\ db_cookies w' = db_cookies w.

(** Tier 4 answered: the jar of the Session Record was validated and is now
    remembered; the Session Store is as it was. *)
Definition via_store (env : Env) (user : string) (h : Handle) (w w' : World) : Prop :=
  exists doc,
    db_cookies w !! user = Some doc
    /\ validated env h (rec_cookies doc) w w'
    /\ st_cookies w' = <[user := rec_cookies doc]> (st_cookies w)
    /\ db_cookies w' = db_cookies w.

(** Between [w] and [w'] the login-state probe of client [h] answered
    [true] and the client, asked for its cookies right after it, handed
    over [jar]. *)
Definition fetched (env : Env) (h : Handle) (jar : CookieJar) (w w' : World) : Prop :=
  exists later hist earlier,
    trace w' = later ++ EvGetCookies h :: EvIsLoggedIn h :: hist
    /\ hist = earlier ++ trace w
    /\ scraper_isLoggedIn env hist h = Ok true
    /\ scraper_getCookies env (EvIsLoggedIn h :: hist) h = Ok jar.

(** Tier 5 answered: after the login the probe passed, and the jar the
    client handed over after it was written. *)
Definition via_login (env : Env) (user : string) (h : Handle) (w w' : World) : Prop :=
  probe_passed env h w w'
  /\ exists jar, fetched env h jar w w' /\ written env user jar w w'.

(** Fresh Login was attempted between [w] and [w'], on the client
    constructed for this resolution. *)
Definition login_attempted (credentials : Credentials) (w w' : World) : Prop :=
  exists later earlier,
    trace w' = later
               ++ EvLogin (next_handle w) (username credentials) (password credentials)
                    (email credentials) (twoFactorSecret credentials)
               :: earlier ++ trace w.

(** No tier answered: Fresh Login was attempted, the Authentication Error
    is thrown, and the registries and the Session Store are as they were. *)
Definition resolution_failed (env : Env) (credentials : Credentials)
    (r : outcome (option Handle)) (w w' : World) : Prop :=
  (exists e, r = Throw e /\ is_authentication_error env e)
  /\ login_attempted credentials w w'
  /\ st_instances w' = st_instances w
  /\ st_cookies w' = st_cookies w
  /\ db_cookies w' = db_cookies w.

(** Tiers 1 to 4 all miss: from [w] the cascade reaches Fresh Login in
    [w5], with the client it constructed on the way. *)
Definition tiers_miss (env : Env) (credentials : Credentials) (w w5 : World) : Prop :=
  exists w1 w3 w4,
    let user := username credentials in
    let client := next_handle w1 in
    TwitterClient.tryExistingClient env user w = (Ok false, w1)
    /\ match cookies credentials with
       | Some jar => TwitterClient.tryPassedCookies env client user jar
       | None => ret false
       end (snd (TwitterClient.newScraper w1)) = (Ok false, w3)
    /\ TwitterClient.tryInMemoryCookies env client user w3 = (Ok false, w4)
    /\ TwitterClient.tryMongoCookies env client user w4 = (Ok false, w5).

(** [w] with [client] registered for [user]. *)
Definition registered_as (user : string) (client : Handle) (w : World) : World :=
  set_instances (<[user := client]> (st_instances w)) w.

(** [getClient] rejecting with [e], logged by its outer [catch]. *)
Definition rejected (e : JsError) (w : World) : outcome (option Handle) * World :=
  (Throw e, record_event (EvConsoleError [VStr "Error in getClient:"; VStr (message e)]) w).

(** The last tier of the cascade, run on [client] in [w]: Fresh Login
    answers, or the resolution ends with the Authentication Error. *)
Definition fresh_login_tier (env : Env) (credentials : Credentials) (client : Handle)
    (w : World) : outcome (option Handle) * World :=
  let user := username credentials in
  match TwitterClient.tryFreshLogin env client user (password credentials)
          (email credentials) (twoFactorSecret credentials) w with
  | (Ok true, w') => (Ok (Some client), registered_as user client w')
  | (Ok false, w') => rejected (TwitterClient.authenticationError env None) w'
  | (Throw lastError, w') =>
      rejected (TwitterClient.authenticationError env (Some lastError)) w'
  end.

(** The cascade from the Persisted Cookies tier on: the tier answers, or
    the cascade continues with Fresh Login in the world the tier left. *)
Definition persisted_tier (env : Env) (credentials : Credentials) (client : Handle)
    (w : World) : outcome (option Handle) * World :=
  let user := username credentials in
  match TwitterClient.tryMongoCookies env client user w with
  | (Ok true, w') => (Ok (Some client), registered_as user client w')
  | (Ok false, w') => fresh_login_tier env credentials client w'
  | (Throw e, w') => rejected e w'
  end.

(** The cascade from the In-memory Cookies tier on: the tier answers, or
    the cascade continues with the Persisted Cookies tier in the world the
    tier left. *)
Definition later_tiers (env : Env) (credentials : Credentials) (client : Handle)
    (w : World) : outcome (option Handle) * World :=
  let user := username credentials in
  match TwitterClient.tryInMemoryCookies env client user w with
  | (Ok true, w') => (Ok (Some client), registered_as user client w')
  | (Ok false, w') => persisted_tier env credentials client w'
  | (Throw e, w') => rejected e w'
  end.

(** The cascade after the Existing Instance tier missed: a client is
    constructed, the Supplied Cookies tier answers if the credentials
    carry a jar, or the cascade continues with the later tiers. *)
Definition supplied_tier (env : Env) (credentials : Credentials) (w : World)
    : outcome (option Handle) * World :=
  let user := username credentials in
  let client := next_handle w in
  let w2 := record_event (EvNewScraper client) (set_next_handle (S client) w) in
  match cookies credentials with
  | Some jar =>
      match TwitterClient.tryPassedCookies env client user jar w2 with
      | (Ok true, w') => (Ok (Some client), registered_as user client w')
      | (Ok false, w') => later_tiers env credentials client w'
      | (Throw e, w') => rejected e w'
      end
  | None => later_tiers env credentials client w2
  end.

(** The cascade as the order of its tiers: each tier answers, or hands
    over to the next one in the world it left. *)
Definition cascade (env : Env) (credentials : Credentials) (w : World)
    : outcome (option Handle) * World :=
  let user := username credentials in
  match TwitterClient.tryExistingClient env user w with
  | (Ok true, w') => (Ok (st_instances w' !! user), w')
  | (Ok false, w') => supplied_tier env credentials w'
  | (Throw e, w') => rejected e w'
  end.

(** The text has no semicolon. *)
Fixpoint no_semicolon (s : string) : bool :=
  match s with
  | EmptyString => true
  | String c rest => negb (Ascii.eqb c ";") && no_semicolon rest
  end.

(** The fields of a cookie string: the texts between its semicolons. *)
Fixpoint fields (s : string) : list string :=
  match s with
  | EmptyString => [EmptyString]
  | String c rest =>
      if Ascii.eqb c ";" then EmptyString :: fields rest
      else match fields rest with
           | first :: others => String c first :: others
           | [] => [String c EmptyString]
           end
  end.

(** [s] without the prefix [p], when it starts with it. *)
Fixpoint strip_prefix (p s : string) : option string :=
  match p, s with
  | EmptyString, _ => Some s
  | String a p', String b s' => if Ascii.eqb a b then strip_prefix p' s' else None
  | String _ _, EmptyString => None
  end.

(** The first of the fields that reads [prefix] followed by a value. *)
Fixpoint first_with (prefix : string) (attributes : list string) : option string :=
  match attributes with
  | [] => None
  | field :: rest =>
      match strip_prefix prefix field with
      | Some v => Some v
      | None => first_with prefix rest
      end
  end.

(** The value of the attribute [name] of a cookie string
    [key=value; Name=v; ...], as whoever receives the string reads it: the
    first field after the key-value pair that reads [ Name=v]. *)
Definition attribute (name s : string) : option string :=
  match fields s with
  | _ :: attributes => first_with (" " +:+ name +:+ "=") attributes
  | [] => None
  end.

(** The domain under which [setCookiesOnClient] is to submit a cookie:
    [.twitter.com] in place of any domain that contains [x.com], the
    cookie's own domain otherwise. *)
Definition submittedDomain (c : Cookie) : string :=
  match domain c with
  | Some d => if includes "x.com" d then ".twitter.com" else d
  | None => "undefined"
  end.

(** A cookie whose key, value and domain hold no semicolon. *)
Definition well_formed (c : Cookie) : bool :=
  no_semicolon (key c) && no_semicolon (value c)
  && match domain c with
     | Some d => no_semicolon d
     | None => true
     end.


(** [c] with its domain replaced. *)
Definition with_domain (d : option string) (c : Cookie) : Cookie :=
  mkCookie (key c) (value c) d (path c) (secure c) (httpOnly c) (sameSite c).

(** [c] with the domain that [setCookiesOnClient] submits for it. *)
Definition rewritten (c : Cookie) : Cookie :=
  with_domain (TwitterClient.cookieDomain c) c.

(** A projection of the world that a run leaves as it was. *)
Definition keeps {X} (f : World -> X) (w w' : World) : Prop := f w' = f w.

(** Any use of the MongoDB driver. *)
Definition is_store_event (ev : Event) : bool :=
  match ev with
  | EvNewMongoClient | EvIsConnected | EvConnect | EvFindOne _ _ | EvUpdateOne _ _ => true
  | _ => false
  end.

(** What the Existing Instance tier does to the outside. *)
Definition is_probe_event (ev : Event) : bool :=
  match ev with
  | EvIsLoggedIn _ | EvConsoleError _ => true
  | _ => false
  end.

(** [new MongoClient(...)] *)
Definition is_new_mongo_client (ev : Event) : bool :=
  match ev with
  | EvNewMongoClient => true
  | _ => false
  end.

(** Once the Mongo client exists it stays, and is not constructed again. *)
Definition client_reused (w w' : World) : Prop :=
  this_mongoClient w = true ->
  this_mongoClient w' = true /\ quiet (non is_new_mongo_client) w w'.

(** The [type] arguments with which twitter_helper.js calls the cache. *)
Definition helper_types : list string :=
  ["profile"; "target_profile"; "user_tweets"; "timeline"; "search"; "following"].

(** The Cache Store of [w'] is the one of [w] with the entry of [payload]
    under [id], stamped with a reading of the clock and expiring [ttl]
    after another. *)
Definition cache_stored (env : Env) (id : string) (payload : JsVal) (ttl : Z)
    (w w' : World) : Prop :=
  exists stamp later,
    read_clock env stamp w w' /\ read_clock env later w w'
    /\ db_twitter_cache w'
       = <[id := mkCacheEntry payload stamp (later + ttl)]> (db_twitter_cache w).


(** The call [sendTweet] makes on the platform client for a request: the
    method and its arguments. *)
Definition postingCall (credentials : Credentials) : string * list JsVal :=
  let text := text credentials in
  let quote_tweet_id := quote_tweet_id credentials in
  if truthy quote_tweet_id && negb (truthy text) then ("retweet", [quote_tweet_id])
  else if truthy quote_tweet_id then
    ("sendQuoteTweet",
     [text; quote_tweet_id;
      VObj [("mediaData", js_or (mediaData credentials) (VArr []))]])
  else ("sendTweet", [text; reply_to_id credentials; mediaData credentials]).

(** The arguments of [sendTweetV2] for a poll. *)
Definition pollCall (text : JsVal) (labels : list JsVal) (durationMinutes : JsVal)
    : string * list JsVal :=
  ("sendTweetV2",
   [text; VUndefined;
    VObj [("poll", VObj [("options", VArr (map (fun label => VObj [("label", label)]) labels));
                         ("durationMinutes", durationMinutes)])]]).

(** The events recorded between [w] and [w'] all satisfy [P]. *)
Definition only (P : Event -> Prop) (w w' : World) : Prop :=
  exists evs, trace w' = evs ++ trace w /\ Forall P evs.

(** A call of a platform method is the call [c], and no search is started. *)
Definition platform_call_is (c : string * list JsVal) (ev : Event) : Prop :=
  match ev with
  | EvScraper _ method args => (method, args) = c
  | EvFetchSearchTweets _ _ => False
  | _ => True
  end.

(** [v == null]: reading a property of [v] throws. *)
Definition is_nullish (v : JsVal) : bool :=
  match v with
  | VUndefined | VNull => true
  | _ => false
  end.

(** A run of [op] that finds a live entry under [k] answers with it, in
    the world the cache read left. *)
Definition answers_from_cache (env : Env) (k type : string) (ttl : option Z)
    (op : M JsVal) : Prop :=
  forall w w1 v,
    TwitterClient.getCachedData env k type ttl w = (Ok v, w1) ->
    truthy v = true ->
    op w = (Ok v, w1).

(** The request carries a username and a password. *)
Definition has_credentials (req : Routes.Request) : bool :=
  truthy (VStr (username (Routes.req_body req)))
  && truthy (VStr (password (Routes.req_body req))).

(** What [validateCredentials] sends for a request without them. *)
Definition credentialsRequired : Routes.Response :=
  Routes.mkResponse 400 (VObj [("error", VStr "Username and password are required")]).





(** Worlds and requests on which the properties of the helper and of the
    routes are run. *)
Module Sample.

(** A tweet as the platform's timeline calls return it. *)
Definition tweet : JsVal :=
  VObj [("rest_id", VStr "1001");
        ("core", VObj [("user_results", VObj [("result", VObj [("legacy",
           VObj [("name", VStr "Bob"); ("screen_name", VStr "bob")])])])]);
        ("legacy", VObj [("full_text", VStr "hello");
                         ("created_at", VStr "Thu, 01 Jan 1970 00:00:10 GMT");
                         ("user_id_str", VStr "42");
                         ("conversation_id_str", VStr "1001")])].

(** What the [map] callback of [fetchHomeTimeline] makes of [tweet]. *)
Definition formatted : JsVal :=
  VObj [("id", VStr "1001"); ("name", VStr "Bob"); ("username", VStr "bob");
        ("text", VStr "hello"); ("inReplyToStatusId", VUndefined);
        ("timestamp", VNum 10); ("userId", VStr "42");
        ("conversationId", VStr "1001");
        ("permanentUrl", VStr "https://twitter.com/bob/status/1001");
        ("hashtags", VArr []); ("mentions", VArr []); ("photos", VArr []);
        ("urls", VArr []); ("videos", VArr [])].

(** [timeline.map(...)] on what this platform returns: its timelines hold
    copies of [tweet]; there is nothing to map when the platform returned
    no array. *)
Definition formatTimeline (timeline : JsVal) : outcome JsVal :=
  match timeline with
  | VUndefined | VNull => get_prop timeline "map"
  | VArr tweets => Ok (VArr (map (fun _ => formatted) tweets))
  | _ => Throw (TypeError "timeline.map is not a function")
  end.

(** Two profiles as the generator of [client.getFollowing] yields them. *)
Definition carol : JsVal :=
  VObj [("userId", VStr "7"); ("username", VStr "carol"); ("name", VStr "Carol");
        ("biography", VStr "gardener"); ("followersCount", VNum 12);
        ("followingCount", VNum 3); ("isVerified", VBool false);
        ("avatar", VStr "https://pbs.twimg.com/carol.jpg")].

Definition dave : JsVal :=
  VObj [("userId", VStr "8"); ("username", VStr "dave"); ("name", VStr "Dave");
        ("avatar", VStr "https://pbs.twimg.com/dave.jpg")].

Definition rate_limited : JsError := mkError "Rate limit exceeded".

(** A platform that accepts every probe and login, answers
    [getUserTweets] and the two timeline calls with [tweet], runs the
    generator of [getFollowing] as given, and whose store can be
    reached. *)
Definition platform (generator : list JsVal * option JsError) : Env :=
  mkEnv (Example.always true)
        (fun _ _ _ => Ok tt)
        (fun _ _ _ _ _ _ => Ok tt)
        (fun _ _ => Ok Example.login_jar)
        (fun _ _ method _ =>
           if String.eqb method "getUserTweets"
           then Ok (VObj [("tweets", VArr [tweet]); ("next", VStr "cursor-2")])
           else if String.eqb method "fetchHomeTimeline"
                   || String.eqb method "fetchFollowingTimeline"
           then Ok (VArr [tweet])
           else Ok VUndefined)
        (fun _ _ _ => None)
        (fun _ _ _ => generator)
        (fun _ _ => Ok VUndefined)
        (fun _ => Ok tt)
        (fun _ => false)
        (fun _ => Ok tt)
        (fun _ => Ok tt)
        (fun _ => Ok tt)
        Example.clock
        Json.parse
        (fun v => Ok v)
        formatTimeline.

Definition env : Env := platform ([carol; dave], None).

(** The generator throws after its first profile. *)
Definition failing_env : Env := platform ([carol], Some rate_limited).

(** The value a run resolved with. *)
Definition fst_value (r : outcome JsVal) : option JsVal :=
  match r with
  | Ok v => Some v
  | Throw _ => None
  end.

(** [JSON.stringify] on the values of the sample, which are trees. *)
Definition serialises (v : JsVal) : outcome unit := Ok tt.

(** A jar of alice is remembered in memory; no client is registered. *)
Definition remembered_world : World :=
  set_cookies (<["alice" := Example.login_jar]> ∅) Example.fresh_world.

(** A session of bob is registered, remembered and stored. *)
Definition shared_world : World :=
  set_instances (<["bob" := 3%nat]> ∅)
    (set_cookies (<["bob" := Example.supplied_jar]> ∅)
       (set_db_cookies (<["bob" := mkSessionRecord Example.supplied_jar 5]> ∅)
          (set_next_handle 4%nat Example.fresh_world))).

(** The Cache Store holds a profile of bob as a target. *)
Definition target_cached_world : World :=
  set_db_twitter_cache
    (<["target_profile_bob" := mkCacheEntry (VObj [("id", VStr "42")]) 0 1000]> ∅)
    Example.fresh_world.

Definition posting (text quote : JsVal) : Credentials :=
  mkCredentials "alice" "hunter2" None None None text VUndefined quote VUndefined.

Definition request (body : Credentials) (options : JsVal) : Routes.Request :=
  Routes.mkRequest body VUndefined VUndefined VUndefined VUndefined VUndefined VUndefined
    options VUndefined "42".

End Sample.

(* ===================================================================== *)
(** ** The model at work *)
(* ===================================================================== *)

Lemma prefix_iff (sub s : string) :
  String.prefix sub s = true <-> exists after, s = sub +:+ after.
Proof.
  revert s. induction sub as [|c sub IH]; intros s.
  - split; [intros _; exists s; reflexivity | intros _; destruct s; reflexivity].
  - destruct s as [|d s]; simpl.
    + split; [discriminate | intros (after & H); discriminate H].
    + destruct (Ascii.ascii_dec c d) as [->|Hne].
      * rewrite IH. split; intros (after & H); exists after.
        -- rewrite H. reflexivity.
        -- inversion H. reflexivity.
      * split; [discriminate|]. intros (after & H). inversion H. congruence.
Qed.

(** [includes] is the substring test of JavaScript's [String.prototype.includes]. *)
Lemma includes_iff (sub s : string) :
  includes sub s = true <-> exists before after, s = before +:+ sub +:+ after.
Proof.
  induction s as [|d s IH].
  - unfold includes. rewrite orb_false_r, prefix_iff. split.
    + intros (after & H). exists "", after. exact H.
    + intros (before & after & H). destruct before; simpl in H.
      * exists after. exact H.
      * discriminate H.
  - change (includes sub (String d s))
      with (String.prefix sub (String d s) || includes sub s).
    rewrite orb_true_iff, IH, prefix_iff. split.
    + intros [(after & H)|(before & after & H)].
      * exists "", after. exact H.
      * exists (String d before), after. simpl. rewrite H. reflexivity.
    + intros (before & after & H). destruct before as [|b before]; simpl in H.
      * left. exists after. exact H.
      * right. inversion H. exists before, after. reflexivity.
Qed.

Example cookieString_session :
  TwitterClient.cookieString Example.session_cookie
  = "auth_token=a1b2c3; Domain=.twitter.com; Path=/; Secure; HttpOnly; SameSite=None".
Proof. reflexivity. Qed.

Example cookieString_legacy :
  TwitterClient.cookieString Example.legacy_cookie
  = "ct0=d4e5f6; Domain=.twitter.com; Path=/; Secure; SameSite=Lax".
Proof. reflexivity. Qed.

Example cookieDomain_lookalike :
  TwitterClient.cookieDomain (with_domain (Some "fax.computer.example") Example.legacy_cookie)
  = Some ".twitter.com".
Proof. reflexivity. Qed.

Example parse_bad_credentials :
  Json.parse Example.bad_credentials
  = Ok (VObj [("errors", VArr [VObj [("message", VStr "Bad credentials")]])]).
Proof. vm_compute. reflexivity. Qed.

Example parse_plain_text : Json.parse "Bad credentials" = Throw Json.SyntaxError.
Proof. vm_compute. reflexivity. Qed.

(** A record read 8 seconds after it was written is a miss under a ttl of
    1 second, and is still in the collection afterwards. *)
Example stale_read_is_a_miss :
  let env := Example.runtime (Example.always true) (Ok tt) true None in
  let written := snd (TwitterClient.setCachedData env "alice" "profile"
                        (VObj [("bio", VStr "x")]) (Some 1000) Example.fresh_world) in
  let read := TwitterClient.getCachedData env "alice" "profile" (Some 1000) written in
  fst read = Ok VNull
  /\ db_twitter_cache (snd read) !! "profile_alice"
     = Some (mkCacheEntry (VObj [("bio", VStr "x")]) 3000 5000).
Proof. vm_compute. split; reflexivity. Qed.

(** A login rejected with plain text, and a login that goes through
    without the session passing its probe. *)
Example plain_login_error :
  fst (TwitterClient.getClient
         (Example.runtime (Example.always false) (Throw (mkError "Incorrect password"))
            true None)
         (Example.alice None) Example.fresh_world)
  = Throw (mkError "Failed to authenticate: Incorrect password").
Proof. vm_compute. reflexivity. Qed.

Example login_without_session :
  fst (TwitterClient.getClient
         (Example.runtime (Example.always false) (Ok tt) true None)
         (Example.alice None) Example.fresh_world)
  = Throw (mkError "Failed to authenticate: All authentication methods failed").
Proof. vm_compute. reflexivity. Qed.

(** A first-page search that settles in time is returned and cached under
    the key of its query, mode and size; the same search asked again is
    answered from the cache without a second platform search. *)
Example first_page_search_is_cached :
  let env := Example.runtime (Example.always true) (Ok tt) true
               (Some (200, Ok (VObj [("tweets", VArr [VStr "hit"])]))) in
  let first := TwitterHelper.searchTweets env (Example.alice None) (VStr "rocq") (VNum 10)
                 (VNum 1) VUndefined VUndefined Example.fresh_world in
  let second := TwitterHelper.searchTweets env (Example.alice None) (VStr "rocq") (VNum 10)
                  (VNum 1) VUndefined VUndefined (snd first) in
  fst first = Ok (VObj [("tweets", VArr [VStr "hit"])])
  /\ data <$> db_twitter_cache (snd first) !! "search_rocq_1_10"
     = Some (VObj [("tweets", VArr [VStr "hit"])])
  /\ fst second = Ok (VObj [("tweets", VArr [VStr "hit"])])
  /\ List.length (filter (fun ev => is_search ev = true) (trace (snd second))) = 1%nat.
Proof. vm_compute. repeat split; reflexivity. Qed.

(* ===================================================================== *)
(** ** General facts about the monad *)
(* ===================================================================== *)

Section Resolves.

Context {A B : Type}.

Lemma resolves_ret (a : A) : resolves (ret a).
Proof. intros w. exists a, w. reflexivity. Qed.

Lemma resolves_gets (f : World -> A) : resolves (gets f).
Proof. intros w. exists (f w), w. reflexivity. Qed.

Lemma resolves_bind (m : M A) (k : A -> M B) :
  resolves m -> (forall a, resolves (k a)) -> resolves (bind m k).
Proof.
  intros Hm Hk w. destruct (Hm w) as (a & w1 & E1).
  destruct (Hk a w1) as (b & w2 & E2).
  exists b, w2. unfold bind. rewrite E1. exact E2.
Qed.

Lemma resolves_try_catch (body : M A) (handler : JsError -> M A) :
  (forall e, resolves (handler e)) -> resolves (try_catch body handler).
Proof.
  intros Hh w. unfold try_catch.
  destruct (body w) as [[a|e] w1] eqn:E.
  - exists a, w1. reflexivity.
  - apply Hh.
Qed.

End Resolves.

Lemma resolves_modify (f : World -> World) : resolves (modify f).
Proof. intros w. exists tt, (f w). reflexivity. Qed.

Lemma resolves_console_error (args : list JsVal) : resolves (console_error args).
Proof. apply resolves_modify. Qed.

(** A handler that logs and then returns a value. *)
Lemma resolves_log_ret {A} (args : list JsVal) (a : A) :
  resolves (console_error args ;;; ret a).
Proof. apply resolves_bind; [apply resolves_console_error | intros; apply resolves_ret]. Qed.

Section ThrowsOnly.

Context {A B : Type} (P : JsError -> Prop).

Lemma resolves_throws_only (m : M A) : resolves m -> throws_only P m.
Proof.
  intros Hm w e w' E. destruct (Hm w) as (a & w1 & E1). congruence.
Qed.

Lemma throws_only_throw (e : JsError) : P e -> throws_only P (@throw A e).
Proof. intros He w e' w' E. unfold throw in E. congruence. Qed.

Lemma throws_only_bind (m : M A) (k : A -> M B) :
  throws_only P m -> (forall a, throws_only P (k a)) -> throws_only P (bind m k).
Proof.
  intros Hm Hk w e w' E. unfold bind in E.
  destruct (m w) as [[a|e1] w1] eqn:E1.
  - eapply Hk; eauto.
  - inversion E; subst. eapply Hm; eauto.
Qed.

(** [catch (error) { ...; throw error }] lets through what the body threw. *)
Lemma throws_only_rethrow (body : M A) (handler : JsError -> M A) :
  throws_only P body ->
  (forall e, P e -> throws_only P (handler e)) ->
  throws_only P (try_catch body handler).
Proof.
  intros Hb Hh w e w' E. unfold try_catch in E.
  destruct (body w) as [[a|e1] w1] eqn:E1.
  - congruence.
  - eapply Hh; eauto.
Qed.

End ThrowsOnly.

Section Preserves.

Variable R : World -> World -> Prop.
Hypothesis R_refl : forall w, R w w.
Hypothesis R_trans : forall w1 w2 w3, R w1 w2 -> R w2 w3 -> R w1 w3.

Lemma preserves_ret {A} (a : A) : preserves R (ret a).
Proof. intros w r w' E. unfold ret in E. inversion E; subst. apply R_refl. Qed.

Lemma preserves_throw {A} (e : JsError) : preserves R (@throw A e).
Proof. intros w r w' E. unfold throw in E. inversion E; subst. apply R_refl. Qed.

Lemma preserves_lift {A} (o : outcome A) : preserves R (lift o).
Proof. intros w r w' E. unfold lift in E. inversion E; subst. apply R_refl. Qed.

Lemma preserves_gets {A} (f : World -> A) : preserves R (gets f).
Proof. intros w r w' E. unfold gets in E. inversion E; subst. apply R_refl. Qed.

Lemma preserves_modify (f : World -> World) :
  (forall w, R w (f w)) -> preserves R (modify f).
Proof. intros Hf w r w' E. unfold modify in E. inversion E; subst. apply Hf. Qed.

Lemma preserves_call {A} (ev : Event) (answer : History -> outcome A) :
  (forall w, R w (record_event ev w)) -> preserves R (call ev answer).
Proof. intros Hf w r w' E. unfold call in E. inversion E; subst. apply Hf. Qed.

Lemma preserves_bind {A B} (m : M A) (k : A -> M B) :
  preserves R m -> (forall a, preserves R (k a)) -> preserves R (bind m k).
Proof.
  intros Hm Hk w r w' E. unfold bind in E.
  destruct (m w) as [[a|e] w1] eqn:E1.
  - eapply R_trans; [eapply Hm | eapply Hk]; eauto.
  - inversion E; subst. eapply Hm; eauto.
Qed.

Lemma preserves_try_catch {A} (body : M A) (handler : JsError -> M A) :
  preserves R body -> (forall e, preserves R (handler e)) ->
  preserves R (try_catch body handler).
Proof.
  intros Hb Hh w r w' E. unfold try_catch in E.
  destruct (body w) as [[a|e] w1] eqn:E1.
  - inversion E; subst. eapply Hb; eauto.
  - eapply R_trans; [eapply Hb | eapply Hh]; eauto.
Qed.

End Preserves.

Lemma quiet_refl (P : Event -> bool) (w : World) : quiet P w w.
Proof. exists []. split; reflexivity. Qed.

Lemma quiet_trans (P : Event -> bool) (w1 w2 w3 : World) :
  quiet P w1 w2 -> quiet P w2 w3 -> quiet P w1 w3.
Proof.
  intros (e1 & H1 & F1) (e2 & H2 & F2). exists (e2 ++ e1). split.
  - rewrite H2, H1. apply app_assoc.
  - rewrite forallb_app, F1, F2. reflexivity.
Qed.

Lemma quiet_record (P : Event -> bool) (ev : Event) (w : World) :
  P ev = true -> quiet P w (record_event ev w).
Proof. intros H. exists [ev]. split; [reflexivity | simpl; rewrite H; reflexivity]. Qed.

Lemma quiet_same_trace (P : Event -> bool) (w w' : World) :
  trace w' = trace w -> quiet P w w'.
Proof. intros H. exists []. split; [exact H | reflexivity]. Qed.

(** What a quiet run recorded holds no event outside [P]. *)
Lemma quiet_recorded (P : Event -> bool) (evs : list Event) (w w' : World) :
  quiet P w w' -> recorded evs w w' -> forallb P evs = true.
Proof.
  intros (evs' & H & F) He. unfold recorded in He. rewrite H in He.
  apply app_inv_tail in He. subst. exact F.
Qed.

Lemma keeps_refl {X} (f : World -> X) (w : World) : keeps f w w.
Proof. reflexivity. Qed.

Lemma keeps_trans {X} (f : World -> X) (w1 w2 w3 : World) :
  keeps f w1 w2 -> keeps f w2 w3 -> keeps f w1 w3.
Proof. unfold keeps. congruence. Qed.

(** Proves [preserves R m] by following the structure of [m]; [side]
    closes the goals [R w (f w)] left by the primitive steps. *)
Ltac preserve_with Rrefl Rtrans side :=
  repeat first
    [ apply (preserves_ret _ Rrefl)
    | apply (preserves_throw _ Rrefl)
    | apply (preserves_lift _ Rrefl)
    | apply (preserves_gets _ Rrefl)
    | apply (preserves_bind _ Rtrans); [ | intros ? ]
    | apply (preserves_try_catch _ Rtrans); [ | intros ? ]
    | apply preserves_modify; intros ?; side
    | apply preserves_call; intros ?; side
    | assumption
    | match goal with
      | |- preserves _ (if ?b then _ else _) => destruct b
      | |- preserves _ (match ?x with _ => _ end) => destruct x
      end ].

Ltac quiet_side :=
  first [ apply quiet_same_trace; reflexivity
        | eexists [_]; split; reflexivity ].

Ltac keep_quiet P :=
  unfold console_error;
  preserve_with (quiet_refl P) (quiet_trans P) quiet_side.

Ltac keep_field f :=
  unfold console_error;
  preserve_with (keeps_refl f) (keeps_trans f) ltac:(reflexivity).

(* ===================================================================== *)
(** ** Frame properties of client.js *)
(* ===================================================================== *)


Lemma quiet_weaken (P Q : Event -> bool) (w w' : World) :
  (forall ev, P ev = true -> Q ev = true) -> quiet P w w' -> quiet Q w w'.
Proof.
  intros HPQ (evs & H & F). exists evs. split; [exact H|].
  rewrite forallb_forall in *. auto.
Qed.

Lemma quiet_extends (P : Event -> bool) (w w' : World) : quiet P w w' -> extends w w'.
Proof. intros (evs & H & _). exists evs. exact H. Qed.

Lemma extends_refl (w : World) : extends w w.
Proof. exists []. reflexivity. Qed.

Lemma extends_trans (w1 w2 w3 : World) : extends w1 w2 -> extends w2 w3 -> extends w1 w3.
Proof.
  intros (e1 & H1) (e2 & H2). exists (e2 ++ e1). rewrite H2, H1. apply app_assoc.
Qed.

Lemma extends_record (ev : Event) (w : World) : extends w (record_event ev w).
Proof. exists [ev]. reflexivity. Qed.

Lemma same_data_refl (w : World) : same_data w w.
Proof. repeat split. Qed.

Lemma same_data_trans (w1 w2 w3 : World) :
  same_data w1 w2 -> same_data w2 w3 -> same_data w1 w3.
Proof. unfold same_data. intuition congruence. Qed.

Ltac keep_data :=
  unfold console_error;
  preserve_with same_data_refl same_data_trans ltac:(repeat split).

Lemma tier_event_no_login (ev : Event) : is_tier_event ev = true -> non is_login ev = true.
Proof. destruct ev; simpl; intros H; solve [reflexivity | discriminate]. Qed.

Lemma resolution_event_no_cache (ev : Event) :
  is_resolution_event ev = true ->
  non is_cache_read ev && non is_cache_write ev && non is_search ev = true.
Proof.
  destruct ev; try solve [reflexivity | discriminate];
    unfold is_resolution_event, is_tier_event, is_save_event; simpl;
    destruct (String.eqb_spec collection "cookies") as [->|Hne];
    solve [reflexivity | discriminate].
Qed.


Lemma cache_get_event_no_write (ev : Event) :
  is_cache_get_event ev = true ->
  non is_cache_write ev && non is_search ev && non is_login ev = true.
Proof. destruct ev; simpl; intros H; solve [reflexivity | discriminate]. Qed.

Lemma cache_set_event_no_search (ev : Event) :
  is_cache_set_event ev = true -> non is_search ev && non is_login ev = true.
Proof. destruct ev; simpl; intros H; solve [reflexivity | discriminate]. Qed.

Section ClientFrames.

Variable env : Env.

Import TwitterClient.

Ltac open_client :=
  unfold getClient, tryExistingClient, tryPassedCookies, tryInMemoryCookies,
    tryMongoCookies, tryFreshLogin, saveCookies, saveClientAndReturn, newScraper,
    setCookiesOnClient, isLoggedIn, getCachedData, setCachedData, now, initMongoClient.

Lemma initMongoClient_events :
  preserves (quiet is_connection_event) (initMongoClient env).
Proof. open_client. keep_quiet is_connection_event. Qed.

Lemma initMongoClient_same_data : preserves same_data (initMongoClient env).
Proof. open_client. keep_data. Qed.

Lemma saveCookies_events (user : string) (jar : CookieJar) :
  preserves (quiet is_save_event) (saveCookies env user jar).
Proof. open_client. keep_quiet is_save_event. Qed.

Lemma tryExistingClient_events (user : string) :
  preserves (quiet is_tier_event) (tryExistingClient env user).
Proof. open_client. keep_quiet is_tier_event. Qed.

Lemma tryExistingClient_same_data (user : string) :
  preserves same_data (tryExistingClient env user).
Proof. open_client. keep_data. Qed.

Lemma tryPassedCookies_events (client : Handle) (user : string) (jar : CookieJar) :
  preserves (quiet is_tier_event) (tryPassedCookies env client user jar).
Proof. open_client. keep_quiet is_tier_event. Qed.

Lemma tryInMemoryCookies_events (client : Handle) (user : string) :
  preserves (quiet is_tier_event) (tryInMemoryCookies env client user).
Proof. open_client. keep_quiet is_tier_event. Qed.

Lemma tryInMemoryCookies_same_data (client : Handle) (user : string) :
  preserves same_data (tryInMemoryCookies env client user).
Proof. open_client. keep_data. Qed.

Lemma tryMongoCookies_events (client : Handle) (user : string) :
  preserves (quiet is_tier_event) (tryMongoCookies env client user).
Proof. open_client. keep_quiet is_tier_event. Qed.




Lemma getClient_events (credentials : Credentials) :
  preserves (quiet is_resolution_event) (getClient env credentials).
Proof. open_client. keep_quiet is_resolution_event. Qed.

Lemma getClient_keeps_cache (credentials : Credentials) :
  preserves (keeps db_twitter_cache) (getClient env credentials).
Proof. open_client. keep_field db_twitter_cache. Qed.

Lemma getCachedData_events (k type : string) (ttl : option Z) :
  preserves (quiet is_cache_get_event) (getCachedData env k type ttl).
Proof. open_client. keep_quiet is_cache_get_event. Qed.

Lemma getCachedData_same_data (k type : string) (ttl : option Z) :
  preserves same_data (getCachedData env k type ttl).
Proof. open_client. keep_data. Qed.

Lemma setCachedData_events (k type : string) (payload : JsVal) (ttl : option Z) :
  preserves (quiet is_cache_set_event) (setCachedData env k type payload ttl).
Proof. open_client. keep_quiet is_cache_set_event. Qed.

End ClientFrames.

(* ===================================================================== *)
(** ** The resolution cascade *)
(* ===================================================================== *)

Ltac run :=
  unfold bind, try_catch, call, gets, modify, ret, throw, lift, console_error in *;
  simpl in *.

Section Cascade.

Variable env : Env.

Import TwitterClient.

Lemma tryExistingClient_resolves (user : string) : resolves (tryExistingClient env user).
Proof.
  unfold tryExistingClient. apply resolves_bind; [apply resolves_gets | intros [client|]].
  - apply resolves_try_catch. intros e. apply resolves_log_ret.
  - apply resolves_ret.
Qed.

Lemma tryPassedCookies_resolves (client : Handle) (user : string) (jar : CookieJar) :
  resolves (tryPassedCookies env client user jar).
Proof. apply resolves_try_catch. intros e. apply resolves_log_ret. Qed.

Lemma tryInMemoryCookies_resolves (client : Handle) (user : string) :
  resolves (tryInMemoryCookies env client user).
Proof.
  unfold tryInMemoryCookies. apply resolves_bind; [apply resolves_gets | intros [jar|]].
  - apply resolves_try_catch. intros e. apply resolves_log_ret.
  - apply resolves_ret.
Qed.

Lemma tryMongoCookies_resolves (client : Handle) (user : string) :
  resolves (tryMongoCookies env client user).
Proof. apply resolves_try_catch. intros e. apply resolves_log_ret. Qed.

Lemma saveClientAndReturn_resolves (user : string) (client : Handle) :
  resolves (saveClientAndReturn user client).
Proof.
  apply resolves_bind; [apply resolves_modify | intros; apply resolves_ret].
Qed.

Lemma newScraper_resolves : resolves newScraper.
Proof.
  apply resolves_bind; [apply resolves_gets | intros h].
  apply resolves_bind; [apply resolves_modify | intros; apply resolves_ret].
Qed.

Lemma getClient_throws_authentication_error (credentials : Credentials) :
  throws_only (is_authentication_error env) (getClient env credentials).
Proof.
  set (P := is_authentication_error env).
  assert (Hsave : forall user client,
             throws_only P (c <- saveClientAndReturn user client ;; ret (Some c))).
  { intros. apply resolves_throws_only. apply resolves_bind.
    - apply saveClientAndReturn_resolves.
    - intros; apply resolves_ret. }
  unfold getClient. apply throws_only_rethrow.
  - apply throws_only_bind.
    { apply resolves_throws_only, tryExistingClient_resolves. }
    intros [|]. { apply resolves_throws_only, resolves_gets. }
    apply throws_only_bind. { apply resolves_throws_only, newScraper_resolves. }
    intros client. apply throws_only_bind.
    { apply resolves_throws_only. destruct (cookies credentials).
      - apply tryPassedCookies_resolves.
      - apply resolves_ret. }
    intros [|]. { apply Hsave. }
    apply throws_only_bind. { apply resolves_throws_only, tryInMemoryCookies_resolves. }
    intros [|]. { apply Hsave. }
    apply throws_only_bind. { apply resolves_throws_only, tryMongoCookies_resolves. }
    intros [|]. { apply Hsave. }
    apply throws_only_bind.
    { apply resolves_throws_only, resolves_try_catch. intros e. apply resolves_ret. }
    intros [[c|]|lastError].
    + apply resolves_throws_only, resolves_ret.
    + apply throws_only_throw. exists None. reflexivity.
    + apply throws_only_throw. exists (Some lastError). reflexivity.
  - intros e He. apply throws_only_bind.
    + apply resolves_throws_only, resolves_console_error.
    + intros _. apply throws_only_throw. exact He.
Qed.

End Cascade.

Section Tiers.

Variable env : Env.

Import TwitterClient.

Lemma extends_probe_passed (h : Handle) (w0 w w' w1 : World) :
  extends w0 w -> probe_passed env h w w' -> extends w' w1 -> probe_passed env h w0 w1.
Proof.
  intros (e0 & H0) (later & hist & earlier & Ht & Hh & Hp) (e1 & H1).
  exists (e1 ++ later), hist, (earlier ++ e0). repeat split.
  - rewrite H1, Ht. apply app_assoc.
  - rewrite Hh, H0. apply app_assoc.
  - exact Hp.
Qed.

Lemma extends_validated (h : Handle) (jar : CookieJar) (w0 w w' w1 : World) :
  extends w0 w -> validated env h jar w w' -> extends w' w1 -> validated env h jar w0 w1.
Proof.
  intros (e0 & H0) (later & hist & earlier & Ht & Hh & Hp) (e1 & H1).
  exists (e1 ++ later), hist, (earlier ++ e0). repeat split.
  - rewrite H1, Ht. apply app_assoc.
  - rewrite Hh, H0. apply app_assoc.
  - exact Hp.
Qed.

Lemma extends_fetched (h : Handle) (jar : CookieJar) (w0 w w' w1 : World) :
  extends w0 w -> fetched env h jar w w' -> extends w' w1 -> fetched env h jar w0 w1.
Proof.
  intros (e0 & H0) (later & hist & earlier & Ht & Hh & Hp & Hg) (e1 & H1).
  exists (e1 ++ later), hist, (earlier ++ e0). repeat split.
  - rewrite H1, Ht. apply app_assoc.
  - rewrite Hh, H0. apply app_assoc.
  - exact Hp.
  - exact Hg.
Qed.

Lemma validated_probe_passed (h : Handle) (jar : CookieJar) (w w' : World) :
  validated env h jar w w' -> probe_passed env h w w'.
Proof.
  intros (later & hist & earlier & Ht & Hh & Hp).
  exists later, (EvSetCookies h (map cookieString jar) :: hist),
    (EvSetCookies h (map cookieString jar) :: earlier).
  repeat split; [exact Ht | rewrite Hh; reflexivity | exact Hp].
Qed.

Lemma extends_read_clock (t : Z) (w0 w w' w1 : World) :
  extends w0 w -> read_clock env t w w' -> extends w' w1 -> read_clock env t w0 w1.
Proof.
  intros (e0 & H0) (later & hist & earlier & Ht & Hh & Hp) (e1 & H1).
  exists (e1 ++ later), hist, (earlier ++ e0). repeat split.
  - rewrite H1, Ht. apply app_assoc.
  - rewrite Hh, H0. apply app_assoc.
  - exact Hp.
Qed.

Lemma initMongoClient_extends (w w' : World) (r : outcome unit) :
  initMongoClient env w = (r, w') -> extends w w'.
Proof. intros H. eapply quiet_extends, initMongoClient_events; eauto. Qed.

(** A successful [saveCookies]: the client was there, the update went
    through, and the record holds the jar and the clock reading. *)
Lemma saveCookies_ok (user : string) (jar : CookieJar) (w w' : World) :
  saveCookies env user jar w = (Ok tt, w') ->
  exists w1,
    initMongoClient env w = (Ok tt, w1)
    /\ mongo_updateOne env (EvDateNow :: trace w1) = Ok tt
    /\ w' = set_db_cookies
              (<[user := mkSessionRecord jar (Date_now env (trace w1))]> (db_cookies w1))
              (record_event (EvUpdateOne collectionName user) (record_event EvDateNow w1)).
Proof.
  unfold saveCookies. intros H. run.
  destruct (initMongoClient env w) as [[[]|e] w1] eqn:E1; simpl in H.
  - destruct (mongo_updateOne env (EvDateNow :: trace w1)) as [[]|e] eqn:E2; simpl in H.
    + inversion H; subst. exists w1. auto.
    + discriminate.
  - discriminate.
Qed.

(** What [saveCookies] does to the data, by outcome. *)
Lemma saveCookies_cases (user : string) (jar : CookieJar) (w w' : World) (r : outcome unit) :
  saveCookies env user jar w = (r, w') ->
  st_instances w' = st_instances w /\ st_cookies w' = st_cookies w
  /\ ((r = Ok tt
       /\ exists t, read_clock env t w w'
            /\ db_cookies w' = <[user := mkSessionRecord jar t]> (db_cookies w))
      \/ ((exists e, r = Throw e) /\ db_cookies w' = db_cookies w)).
Proof.
  intros H. destruct r as [[]|e].
  - destruct (saveCookies_ok _ _ _ _ H) as (w1 & Hi & Hu & ->).
    pose proof (initMongoClient_same_data env _ _ _ Hi) as (Hs1 & Hs2 & _ & Hs4 & _).
    destruct (initMongoClient_extends _ _ _ Hi) as (evs & Hevs).
    simpl. repeat split; try assumption. left. split; [reflexivity|].
    exists (Date_now env (trace w1)). split.
    + exists [EvUpdateOne collectionName user], (trace w1), evs. simpl. auto.
    + rewrite Hs4. reflexivity.
  - unfold saveCookies in H. run.
    destruct (initMongoClient env w) as [[[]|e1] w1] eqn:E1; simpl in H.
    + pose proof (initMongoClient_same_data env _ _ _ E1) as (Hs1 & Hs2 & _ & Hs4 & _).
      destruct (mongo_updateOne env (EvDateNow :: trace w1)) as [[]|e2]; simpl in H;
        inversion H; subst; simpl. repeat split; eauto.
    + pose proof (initMongoClient_same_data env _ _ _ E1) as (Hs1 & Hs2 & _ & Hs4 & _).
      inversion H; subst; simpl. repeat split; eauto.
Qed.

Lemma tryExistingClient_cases (user : string) (w w' : World) (r : outcome bool) :
  tryExistingClient env user w = (r, w') ->
  same_data w w'
  /\ exists b, r = Ok b
       /\ (b = true ->
           exists client, st_instances w !! user = Some client
                          /\ probe_passed env client w w').
Proof.
  intros H. split; [eapply tryExistingClient_same_data; eauto|].
  unfold tryExistingClient, isLoggedIn in H. run.
  destruct (st_instances w !! user) as [client|] eqn:E.
  2:{ inversion H; subst. exists false. split; [reflexivity | discriminate]. }
  destruct (scraper_isLoggedIn env (trace w) client) as [b|e] eqn:P; simpl in H;
    inversion H; subst.
  - exists b. split; [reflexivity|]. intros ->. exists client. split; [reflexivity|].
    exists [], (trace w), []. repeat split. exact P.
  - exists false. split; [reflexivity | discriminate].
Qed.

Lemma tryPassedCookies_cases (client : Handle) (user : string) (jar : CookieJar)
    (w w' : World) (r : outcome bool) :
  tryPassedCookies env client user jar w = (r, w') ->
  st_instances w' = st_instances w
  /\ ((r = Ok true
       /\ validated env client jar w w'
       /\ st_cookies w' = <[user := jar]> (st_cookies w)
       /\ exists t, read_clock env t w w'
            /\ db_cookies w' = <[user := mkSessionRecord jar t]> (db_cookies w))
      \/ (r = Ok false /\ st_cookies w' = st_cookies w /\ db_cookies w' = db_cookies w)).
Proof.
  unfold tryPassedCookies, setCookiesOnClient, isLoggedIn. intros H. run.
  set (applied := EvSetCookies client (map cookieString jar)) in *.
  destruct (scraper_setCookies env (trace w) client (map cookieString jar)) as [[]|e];
    simpl in H.
  2:{ inversion H; subst; simpl. auto. }
  destruct (scraper_isLoggedIn env (applied :: trace w) client) as [[|]|e] eqn:P; simpl in H.
  2:{ inversion H; subst; simpl. auto. }
  2:{ inversion H; subst; simpl. auto. }
  match type of H with context [saveCookies env user jar ?w1] =>
    destruct (saveCookies env user jar w1) as [r2 w2] eqn:S end.
  pose proof (saveCookies_events env _ _ _ _ _ S) as Q. apply quiet_extends in Q.
  destruct (saveCookies_cases _ _ _ _ _ S) as (Hi & Hc & [(-> & t & Ht & Hd)|((e & ->) & Hd)]);
    simpl in *; inversion H; subst; simpl; split; try assumption.
  - left. split; [reflexivity|]. split; [|split].
    + destruct Q as (evs & Hevs). exists evs, (trace w), []. simpl in Hevs.
      repeat split; [exact Hevs | exact P].
    + rewrite Hc. reflexivity.
    + exists t. split; [|exact Hd].
      eapply extends_read_clock; [| exact Ht | exists []; reflexivity].
      exists [EvIsLoggedIn client; applied]. reflexivity.
  - right. auto.
Qed.

Lemma tryInMemoryCookies_cases (client : Handle) (user : string)
    (w w' : World) (r : outcome bool) :
  tryInMemoryCookies env client user w = (r, w') ->
  same_data w w'
  /\ exists b, r = Ok b
       /\ (b = true ->
           exists jar, st_cookies w !! user = Some jar /\ validated env client jar w w').
Proof.
  intros H. split; [eapply tryInMemoryCookies_same_data; eauto|].
  unfold tryInMemoryCookies, setCookiesOnClient, isLoggedIn in H. run.
  destruct (st_cookies w !! user) as [jar|] eqn:E.
  2:{ inversion H; subst. exists false. split; [reflexivity | discriminate]. }
  set (applied := EvSetCookies client (map cookieString jar)) in *.
  destruct (scraper_setCookies env (trace w) client (map cookieString jar)) as [[]|e];
    simpl in H.
  2:{ inversion H; subst. exists false. split; [reflexivity | discriminate]. }
  destruct (scraper_isLoggedIn env (applied :: trace w) client) as [b|e] eqn:P; simpl in H;
    inversion H; subst.
  - exists b. split; [reflexivity|]. intros ->. exists jar. split; [reflexivity|].
    exists [], (trace w), []. repeat split. exact P.
  - exists false. split; [reflexivity | discriminate].
Qed.

Lemma tryMongoCookies_cases (client : Handle) (user : string)
    (w w' : World) (r : outcome bool) :
  tryMongoCookies env client user w = (r, w') ->
  st_instances w' = st_instances w /\ db_cookies w' = db_cookies w
  /\ ((r = Ok true
       /\ exists doc, db_cookies w !! user = Some doc
            /\ validated env client (rec_cookies doc) w w'
            /\ st_cookies w' = <[user := rec_cookies doc]> (st_cookies w))
      \/ (r = Ok false /\ st_cookies w' = st_cookies w)).
Proof.
  unfold tryMongoCookies, setCookiesOnClient, isLoggedIn. intros H. run.
  destruct (initMongoClient env w) as [[[]|e1] w1] eqn:E1; simpl in H.
  2:{ pose proof (initMongoClient_same_data env _ _ _ E1) as (Hs1 & Hs2 & _ & Hs4 & _).
      inversion H; subst; simpl. auto. }
  pose proof (initMongoClient_same_data env _ _ _ E1) as (Hs1 & Hs2 & _ & Hs4 & _).
  destruct (initMongoClient_extends _ _ _ E1) as (evs & Hevs).
  destruct (mongo_findOne env (trace w1)) as [[]|e2]; simpl in H.
  2:{ inversion H; subst; simpl. auto. }
  rewrite Hs4 in H.
  destruct (db_cookies w !! user) as [doc|] eqn:D; simpl in H.
  2:{ inversion H; subst; simpl. auto. }
  set (applied := EvSetCookies client (map cookieString (rec_cookies doc))) in *.
  destruct (scraper_setCookies env _ client _) as [[]|e3]; simpl in H.
  2:{ inversion H; subst; simpl. auto. }
  destruct (scraper_isLoggedIn env _ client) as [[|]|e4] eqn:P; simpl in H;
    inversion H; subst; simpl; repeat split; auto.
  left. split; [reflexivity|]. exists doc. split; [reflexivity|]. split.
  - exists [], (EvFindOne collectionName user :: trace w1),
      (EvFindOne collectionName user :: evs).
    simpl. repeat split; [rewrite Hevs; reflexivity | exact P].
  - rewrite Hs2. reflexivity.
Qed.

Lemma tryFreshLogin_cases (client : Handle) (user pass : string) (mail secret : option string)
    (w w' : World) (r : outcome bool) :
  tryFreshLogin env client user pass mail secret w = (r, w') ->
  st_instances w' = st_instances w
  /\ (exists later, trace w' = later ++ EvLogin client user pass mail secret :: trace w)
  /\ ((r = Ok true
       /\ probe_passed env client w w'
       /\ exists jar t,
            fetched env client jar w w'
            /\ st_cookies w' = <[user := jar]> (st_cookies w)
            /\ read_clock env t w w'
            /\ db_cookies w' = <[user := mkSessionRecord jar t]> (db_cookies w))
      \/ (r <> Ok true /\ st_cookies w' = st_cookies w /\ db_cookies w' = db_cookies w)).
Proof.
  unfold tryFreshLogin, isLoggedIn. intros H. run.
  set (login := EvLogin client user pass mail secret) in *.
  destruct (scraper_login env (trace w) client user pass mail secret) as [[]|e1]; simpl in H.
  2:{ inversion H; subst; simpl. split; [reflexivity|]. split; [eexists [_]; reflexivity|].
      right. repeat split. discriminate. }
  destruct (scraper_isLoggedIn env (login :: trace w) client) as [[|]|e2] eqn:P; simpl in H.
  2:{ inversion H; subst; simpl. split; [reflexivity|]. split; [eexists [_]; reflexivity|].
      right. repeat split. discriminate. }
  2:{ inversion H; subst; simpl. split; [reflexivity|]. split; [eexists [_; _]; reflexivity|].
      right. repeat split. discriminate. }
  destruct (scraper_getCookies env _ client) as [jar|e3] eqn:G; simpl in H.
  2:{ inversion H; subst; simpl. split; [reflexivity|].
      split; [eexists [_; _; _]; reflexivity|]. right. repeat split. discriminate. }
  match type of H with context [saveCookies env user jar ?w1] =>
    destruct (saveCookies env user jar w1) as [r2 w2] eqn:S end.
  pose proof (saveCookies_events env _ _ _ _ _ S) as Q. apply quiet_extends in Q.
  destruct Q as (evs & Hevs). simpl in Hevs.
  destruct (saveCookies_cases _ _ _ _ _ S) as (Hi & Hc & [(-> & t & Ht & Hd)|((e & ->) & Hd)]);
    simpl in *; inversion H; subst; simpl; (split; [assumption|]); split.
  - exists (evs ++ [EvGetCookies client; EvIsLoggedIn client]).
    rewrite Hevs, <- app_assoc. reflexivity.
  - left. split; [reflexivity|]. split; [|exists jar, t; split; [|split; [|split]]].
    + exists (evs ++ [EvGetCookies client]), (login :: trace w), [login].
      repeat split; [simpl; rewrite Hevs, <- app_assoc; reflexivity | exact P].
    + exists evs, (login :: trace w), [login].
      split; [simpl; exact Hevs|]. split; [reflexivity|]. split; [exact P | exact G].
    + rewrite Hc. reflexivity.
    + eapply extends_read_clock; [| exact Ht | exists []; reflexivity].
      exists [EvGetCookies client; EvIsLoggedIn client; login]. reflexivity.
    + exact Hd.
  - eexists (_ :: evs ++ [EvGetCookies client; EvIsLoggedIn client]).
    rewrite Hevs. simpl. rewrite <- app_assoc. reflexivity.
  - right. repeat split; auto; discriminate.
Qed.

Lemma newScraper_run (w : World) :
  newScraper w = (Ok (next_handle w),
                  record_event (EvNewScraper (next_handle w))
                    (set_next_handle (S (next_handle w)) w)).
Proof. reflexivity. Qed.

Lemma saveClientAndReturn_run (user : string) (client : Handle) (w : World) :
  saveClientAndReturn user client w
  = (Ok client, set_instances (<[user := client]> (st_instances w)) w).
Proof. reflexivity. Qed.

Lemma written_frame (user : string) (jar : CookieJar) (w0 w w' w1 : World) :
  extends w0 w -> st_cookies w = st_cookies w0 -> db_cookies w = db_cookies w0 ->
  written env user jar w w' ->
  extends w' w1 -> st_cookies w1 = st_cookies w' -> db_cookies w1 = db_cookies w' ->
  written env user jar w0 w1.
Proof.
  intros E0 C0 D0 (Hc & t & Ht & Hd) E1 C1 D1. split; [congruence|].
  exists t. split; [eapply extends_read_clock; eauto | congruence].
Qed.

Lemma getClient_cases (credentials : Credentials) (w w' : World)
    (r : outcome (option Handle)) :
  getClient env credentials w = (r, w') ->
  let user := username credentials in
  let h := next_handle w in
  via_existing env user r w w'
  \/ (r = Ok (Some h)
      /\ st_instances w' = <[user := h]> (st_instances w)
      /\ (via_supplied env credentials h w w' \/ via_memory env user h w w'
          \/ via_store env user h w w' \/ via_login env user h w w'))
  \/ resolution_failed env credentials r w w'.
Proof.
  intros H user h. unfold getClient in H. fold user in H.
  unfold try_catch at 1, bind at 1 in H.
  destruct (tryExistingClient env user w) as [r1 w1] eqn:T1.
  pose proof (tryExistingClient_events env _ _ _ _ T1) as X1. apply quiet_extends in X1.
  destruct (tryExistingClient_cases _ _ _ _ T1) as (D1 & b1 & -> & B1).
  destruct b1.
  { (* tier 1 *)
    destruct (B1 eq_refl) as (client & Hc & Hp).
    destruct D1 as (D1i & D1r). unfold gets in H. rewrite D1i, Hc in H.
    inversion H; subst. left. exists client. unfold same_data. intuition. }
  clear B1.
  unfold bind at 1 in H. rewrite newScraper_run in H.
  destruct D1 as (Di1 & Dc1 & _ & Dd1 & _ & Dn1). rewrite Dn1 in H. fold h in H.
  set (w2 := record_event (EvNewScraper h) (set_next_handle (S h) w1)) in *.
  assert (X2 : extends w w2).
  { eapply extends_trans; [exact X1|]. exists [EvNewScraper h]. reflexivity. }
  unfold bind at 1 in H.
  destruct (match cookies credentials with
            | Some jar => tryPassedCookies env h user jar
            | None => ret false
            end w2) as [r3 w3] eqn:T3.
  assert (S3 : st_instances w3 = st_instances w
               /\ extends w2 w3
               /\ ((r3 = Ok true /\ via_supplied env credentials h w w3)
                   \/ (r3 = Ok false /\ st_cookies w3 = st_cookies w
                       /\ db_cookies w3 = db_cookies w))).
  { destruct (cookies credentials) as [jar|] eqn:Cj.
    - pose proof (tryPassedCookies_events env _ _ _ _ _ _ T3) as Q. apply quiet_extends in Q.
      destruct (tryPassedCookies_cases _ _ _ _ _ _ T3)
        as (Hi & [(-> & Hv & Hw)|(-> & Hc & Hd)]).
      + split; [simpl in Hi; congruence|]. split; [exact Q|]. left. split; [reflexivity|].
        exists jar. split; [exact Cj|]. split.
        * eapply extends_validated; [exact X2 | exact Hv | apply extends_refl].
        * eapply written_frame with (w := w2) (w' := w3); eauto using extends_refl.
      + split; [simpl in Hi; congruence|]. split; [exact Q|]. right.
        simpl in *. repeat split; congruence.
    - unfold ret in T3. inversion T3; subst. split; [exact Di1|].
      split; [apply extends_refl|]. right. simpl. auto. }
  destruct S3 as (Hi3 & X3 & [(-> & V3)|(-> & Hc3 & Hd3)]).
  { (* tier 2 *)
    simpl in H. inversion H; subst. right. left. split; [reflexivity|].
    split; [simpl; rewrite Hi3; reflexivity|]. left.
    destruct V3 as (jar & Cj & Hv & Hw). exists jar. split; [exact Cj|]. split.
    - eapply extends_validated; [apply extends_refl | exact Hv | exists []; reflexivity].
    - eapply written_frame with (w := w) (w' := w3); eauto using extends_refl.
      exists []; reflexivity. }
  unfold bind at 1 in H.
  destruct (tryInMemoryCookies env h user w3) as [r4 w4] eqn:T4.
  pose proof (tryInMemoryCookies_events env _ _ _ _ _ T4) as X4. apply quiet_extends in X4.
  destruct (tryInMemoryCookies_cases _ _ _ _ _ T4) as (D4 & b4 & -> & B4).
  destruct D4 as (Di4 & Dc4 & _ & Dd4 & _).
  assert (X03 : extends w w3) by (eapply extends_trans; eauto).
  destruct b4.
  { (* tier 3 *)
    destruct (B4 eq_refl) as (jar & Hj & Hv).
    simpl in H. inversion H; subst. right. left. split; [reflexivity|].
    split; [simpl; congruence|]. right. left.
    exists jar. split; [congruence|]. split.
    - eapply extends_validated; [exact X03 | exact Hv | exists []; reflexivity].
    - simpl. split; congruence. }
  clear B4.
  unfold bind at 1 in H.
  destruct (tryMongoCookies env h user w4) as [r5 w5] eqn:T5.
  pose proof (tryMongoCookies_events env _ _ _ _ _ T5) as X5. apply quiet_extends in X5.
  assert (X04 : extends w w4) by (eapply extends_trans; eauto).
  destruct (tryMongoCookies_cases _ _ _ _ _ T5)
    as (Hi5 & Hd5 & [(-> & doc & Hdoc & Hv & Hc5)|(-> & Hc5)]).
  { (* tier 4 *)
    simpl in H. inversion H; subst. right. left. split; [reflexivity|].
    split; [simpl; congruence|]. right. right. left.
    exists doc. split; [congruence|]. split.
    - eapply extends_validated; [exact X04 | exact Hv | exists []; reflexivity].
    - simpl. split; congruence. }
  assert (X05 : extends w w5) by (eapply extends_trans; eauto).
  unfold bind at 1, try_catch at 1, bind at 1 in H.
  destruct (tryFreshLogin env h user (password credentials) (email credentials)
              (twoFactorSecret credentials) w5) as [r6 w6] eqn:T6.
  destruct (tryFreshLogin_cases _ _ _ _ _ _ _ _ T6)
    as (Hi6 & (later & Hl) & [(-> & Hp & jar & t & Hf & Hc6 & Ht & Hd6)|(Hn & Hc6 & Hd6)]).
  { (* tier 5 *)
    simpl in H. inversion H; subst. right. left. split; [reflexivity|].
    split; [simpl; congruence|]. right. right. right. split.
    - eapply extends_probe_passed; [exact X05 | exact Hp | exists []; reflexivity].
    - exists jar.
      split; [eapply extends_fetched; [exact X05 | exact Hf | exists []; reflexivity]|].
      split; [simpl; congruence|]. exists t. split.
      + eapply extends_read_clock; [exact X05 | exact Ht | exists []; reflexivity].
      + simpl. congruence. }
  (* no tier answered *)
  right. right. destruct X05 as (e5 & He5).
  destruct r6 as [[|]|e6]; [congruence| |]; simpl in H; inversion H; subst; simpl;
    (split; [eexists; split; [reflexivity | eexists; reflexivity] | ]);
    (split; [ eexists (_ :: later), e5; simpl; rewrite Hl, He5; reflexivity
            | repeat split; simpl; congruence ]).
Qed.
End Tiers.



(* ===================================================================== *)
(** ** The terminal failure and the helper layer *)
(* ===================================================================== *)

Lemma getClient_after_misses (env : Env) (credentials : Credentials) (w w5 : World) :
  tiers_miss env credentials w w5 ->
  TwitterClient.getClient env credentials w
  = let client := next_handle w in
    let user := username credentials in
    match TwitterClient.tryFreshLogin env client user (password credentials)
            (email credentials) (twoFactorSecret credentials) w5 with
    | (Ok true, w6) =>
        (Ok (Some client), set_instances (<[user := client]> (st_instances w6)) w6)
    | (Ok false, w6) =>
        (Throw (TwitterClient.authenticationError env None),
         record_event
           (EvConsoleError
              [VStr "Error in getClient:";
               VStr (message (TwitterClient.authenticationError env None))]) w6)
    | (Throw lastError, w6) =>
        (Throw (TwitterClient.authenticationError env (Some lastError)),
         record_event
           (EvConsoleError
              [VStr "Error in getClient:";
               VStr (message (TwitterClient.authenticationError env (Some lastError)))]) w6)
    end.
Proof.
  intros (w1 & w3 & w4 & T1 & T2 & T3 & T4).
  pose proof (tryExistingClient_same_data env _ _ _ _ T1) as (_ & _ & _ & _ & _ & Hn).
  rewrite Hn in *. simpl.
  unfold TwitterClient.getClient.
  unfold try_catch at 1, bind at 1. rewrite T1.
  unfold bind at 1. rewrite newScraper_run, Hn.
  rewrite newScraper_run, Hn in T2. simpl snd in T2.
  unfold bind at 1. rewrite T2.
  unfold bind at 1. rewrite T3.
  unfold bind at 1. rewrite T4.
  unfold bind at 1, try_catch at 1, bind at 1.
  destruct (TwitterClient.tryFreshLogin env (next_handle w) (username credentials)
              (password credentials) (email credentials) (twoFactorSecret credentials) w5)
    as [[[|]|e] w6]; reflexivity.
Qed.

(** [getClient] runs the tiers in their order. *)
Lemma getClient_is_cascade (env : Env) (credentials : Credentials) (w : World) :
  TwitterClient.getClient env credentials w = cascade env credentials w.
Proof.
  unfold TwitterClient.getClient, cascade.
  unfold try_catch at 1, bind at 1.
  destruct (TwitterClient.tryExistingClient env (username credentials) w)
    as [[[|]|e] w1]; [reflexivity | | reflexivity].
  unfold supplied_tier.
  unfold bind at 1. rewrite newScraper_run. cbv zeta.
  set (client := next_handle w1).
  set (w2 := record_event (EvNewScraper client) (set_next_handle (S client) w1)).
  assert (Hlater : forall w3,
    (let (o, w') :=
       (remembered <- TwitterClient.tryInMemoryCookies env client (username credentials) ;;
        if remembered : bool
        then (c <- TwitterClient.saveClientAndReturn (username credentials) client ;;
              ret (Some c))
        else
          stored <- TwitterClient.tryMongoCookies env client (username credentials) ;;
          if stored : bool
          then (c <- TwitterClient.saveClientAndReturn (username credentials) client ;;
                ret (Some c))
          else
            attempt <- try_catch
                         (fresh <- TwitterClient.tryFreshLogin env client
                                     (username credentials) (password credentials)
                                     (email credentials) (twoFactorSecret credentials) ;;
                          if fresh : bool
                          then (c <- TwitterClient.saveClientAndReturn
                                       (username credentials) client ;;
                                ret (inl (Some c)))
                          else ret (inl None))
                         (fun loginError => ret (inr loginError)) ;;
            match attempt with
            | inl (Some c) => ret (Some c)
            | inl None => throw (TwitterClient.authenticationError env None)
            | inr lastError =>
                throw (TwitterClient.authenticationError env (Some lastError))
            end) w3 in
     match o with
     | Ok a => (Ok a, w')
     | Throw e =>
         (console_error [VStr "Error in getClient:"; VStr (message e)] ;;; throw e) w'
     end)
    = later_tiers env credentials client w3).
  { intros w3. unfold later_tiers, persisted_tier, fresh_login_tier.
    unfold bind at 1.
    destruct (TwitterClient.tryInMemoryCookies env client (username credentials) w3)
      as [[[|]|e] w4]; [reflexivity | | reflexivity].
    unfold bind at 1.
    destruct (TwitterClient.tryMongoCookies env client (username credentials) w4)
      as [[[|]|e] w5]; [reflexivity | | reflexivity].
    unfold bind at 1, try_catch at 1, bind at 1.
    destruct (TwitterClient.tryFreshLogin env client (username credentials)
                (password credentials) (email credentials) (twoFactorSecret credentials) w5)
      as [[[|]|e] w6]; reflexivity. }
  destruct (cookies credentials) as [jar|].
  - unfold bind at 1.
    destruct (TwitterClient.tryPassedCookies env client (username credentials) jar w2)
      as [[[|]|e] w3]; [reflexivity | apply Hlater | reflexivity].
  - unfold bind at 1, ret at 1. apply Hlater.
Qed.



Lemma opt_prop_tweets (v : JsVal) :
  TwitterHelper.opt_prop v "tweets" = Ok (resultTweets v).
Proof.
  unfold resultTweets. destruct (TwitterHelper.opt_prop v "tweets") eqn:E; [reflexivity|].
  destruct v; simpl in E; try discriminate.
  destruct (lookup_field _ _); discriminate.
Qed.

Lemma before_search_resolution (cacheOn : bool) (ev : Event) :
  is_resolution_event ev = true -> is_before_search cacheOn ev = true.
Proof. intros H. unfold is_before_search. rewrite H. apply orb_true_r. Qed.

Lemma before_search_cache_get (ev : Event) :
  is_cache_get_event ev = true -> is_before_search true ev = true.
Proof. intros H. unfold is_before_search. rewrite H. reflexivity. Qed.


Lemma split_at_unique (P : Event -> bool) (a c b d : list Event) (x y : Event) :
  forallb (non P) a = true -> forallb (non P) c = true ->
  P x = true -> P y = true ->
  a ++ x :: c = b ++ y :: d ->
  a = b /\ x = y /\ c = d.
Proof.
  intros Ha Hc Hx Hy. revert b. induction a as [|a0 a IH]; intros b H.
  - destruct b as [|b0 b]; simpl in H.
    + inversion H; subst. auto.
    + inversion H; subst. rewrite forallb_app in Hc. simpl in Hc.
      unfold non at 2 in Hc. rewrite Hy in Hc. simpl in Hc.
      rewrite andb_false_r in Hc. discriminate.
  - simpl in Ha. apply andb_true_iff in Ha. destruct Ha as (Ha0 & Ha).
    destruct b as [|b0 b]; simpl in H.
    + inversion H; subst. unfold non in Ha0. rewrite Hy in Ha0. discriminate.
    + inversion H; subst. destruct (IH Ha b H2) as (-> & -> & ->). auto.
Qed.

Lemma forallb_non_existsb (P : Event -> bool) (evs : list Event) :
  forallb (non P) evs = true -> existsb P evs = false.
Proof.
  induction evs as [|ev evs IH]; [reflexivity|].
  simpl. intros F. apply andb_true_iff in F. destruct F as (F0 & F).
  unfold non in F0. apply negb_true_iff in F0. rewrite F0. simpl.
  apply IH. exact F.
Qed.

Lemma quiet_no_event (P : Event -> bool) (evs : list Event) (w w' : World) :
  quiet (non P) w w' -> recorded evs w w' -> existsb P evs = false.
Proof.
  intros Q R. apply forallb_non_existsb. eapply quiet_recorded; eauto.
Qed.

Lemma before_search_off (ev : Event) :
  is_before_search false ev = true ->
  non is_cache_read ev && non is_cache_write ev && non is_search ev = true.
Proof. unfold is_before_search. simpl. apply resolution_event_no_cache. Qed.

Lemma before_search_no_write (cacheOn : bool) (ev : Event) :
  is_before_search cacheOn ev = true ->
  non is_cache_write ev && non is_search ev = true.
Proof.
  unfold is_before_search. intros H. apply orb_true_iff in H. destruct H as [H|H].
  - apply andb_true_iff in H. destruct H as (_ & H).
    apply cache_get_event_no_write in H.
    apply andb_true_iff in H. destruct H as (H & _). exact H.
  - apply resolution_event_no_cache in H.
    apply andb_true_iff in H. destruct H as (H & Hs).
    apply andb_true_iff in H. destruct H as (_ & Hw). rewrite Hw, Hs. reflexivity.
Qed.


Lemma race_pending (search : Settle) (timerValue : JsVal) :
  pending_at TwitterHelper.SEARCH_TIMEOUT_MS search ->
  TwitterHelper.race search TwitterHelper.SEARCH_TIMEOUT_MS timerValue = Ok timerValue.
Proof.
  unfold pending_at, TwitterHelper.race. destruct search as [[after result]|]; [|reflexivity].
  intros H. destruct (Z.ltb_spec after TwitterHelper.SEARCH_TIMEOUT_MS); [lia | reflexivity].
Qed.

Section Helper.

Variable env : Env.

Lemma getCachedData_resolves (k type : string) (ttl : option Z) :
  resolves (TwitterClient.getCachedData env k type ttl).
Proof. apply resolves_try_catch. intros e. apply resolves_log_ret. Qed.

Lemma setCachedData_resolves (k type : string) (payload : JsVal) (ttl : option Z) :
  resolves (TwitterClient.setCachedData env k type payload ttl).
Proof. apply resolves_try_catch. intros e. apply resolves_log_ret. Qed.

Lemma searchTweets_cases (credentials : Credentials)
    (query maxTweets searchMode cursor useCache : JsVal) (w w' : World) (r : outcome JsVal) :
  TwitterHelper.searchTweets env credentials query maxTweets searchMode cursor useCache w
  = (r, w') ->
  let cacheOn := truthy (TwitterHelper.with_default useCache (VBool true))
                 && negb (truthy cursor) in
  (searchMode = VUndefined /\ r = Throw (mkError "SearchMode is not defined") /\ w' = w)
  \/ (searchMode <> VUndefined
      /\ exists v, r = Ok v
         /\ (quiet (is_before_search cacheOn) w w'
             \/ exists w2 h args,
                  quiet (is_before_search cacheOn) w w2
                  /\ let w3 := record_event (EvFetchSearchTweets h args) w2 in
                     match TwitterHelper.race (scraper_fetchSearchTweets env (trace w2) h args)
                             TwitterHelper.SEARCH_TIMEOUT_MS TwitterHelper.emptyResult with
                     | Throw e =>
                         w' = record_event
                                (EvConsoleError [VStr "Error searching tweets:";
                                                 VStr (message e)]) w3
                     | Ok result =>
                         v = TwitterHelper.nullish_or result TwitterHelper.emptyResult
                         /\ ((cacheOn = true /\ TwitterHelper.nonEmpty (resultTweets result) = true
                              /\ quiet is_cache_set_event w3 w')
                             \/ w' = w3)
                     end)).
Proof.
  intros H cacheOn.
  assert (Hmode : searchMode = VUndefined
                  \/ (searchMode <> VUndefined
                      /\ match searchMode with
                         | VUndefined =>
                             lift (obind TwitterHelper.SearchMode (fun m => get_prop m "Latest"))
                         | _ => ret searchMode
                         end = ret searchMode)).
  { destruct searchMode; [left; reflexivity | right; split; [discriminate | reflexivity] ..]. }
  destruct Hmode as [-> | (Hdef & Hret)].
  { left. unfold TwitterHelper.searchTweets in H. simpl in H. unfold bind, lift in H.
    simpl in H. inversion H; subst. auto. }
  right. split; [exact Hdef|].
  unfold TwitterHelper.searchTweets in H. rewrite Hret in H.
  unfold bind at 1, ret at 1 in H. fold cacheOn in H.
  set (useCache' := TwitterHelper.with_default useCache (VBool true)) in *.
  set (cacheKey := toString query +:+ "_" +:+ toString searchMode +:+ "_" +:+ toString maxTweets)
    in *.
  unfold try_catch at 1, bind at 1 in H.
  match type of H with
  | context [(if cacheOn then ?a else ?b) w] => set (hitm := if cacheOn then a else b) in *
  end.
  assert (Hhit : exists hit wh, hitm w = (Ok hit, wh)
                                /\ quiet (is_before_search cacheOn) w wh).
  { subst hitm. destruct cacheOn.
    - unfold bind.
      destruct (TwitterClient.getCachedData env cacheKey "search"
                  (Some TwitterHelper.THIRTY_MINUTES_MS) w) as [rc wc] eqn:G.
      destruct (getCachedData_resolves cacheKey "search" (Some TwitterHelper.THIRTY_MINUTES_MS) w)
        as (cached & wc' & G').
      rewrite G in G'. inversion G'; subst. eexists _, wc'. split; [reflexivity|].
      eapply quiet_weaken; [apply before_search_cache_get|].
      eapply getCachedData_events; eauto.
    - exists None, w. split; [reflexivity | apply quiet_refl]. }
  destruct Hhit as (hit & wh & Hh & Qh). rewrite Hh in H. clear Hh. clearbody hitm.
  assert (Hfail : forall e wf,
             quiet (is_before_search cacheOn) w wf ->
             (console_error [VStr "Error searching tweets:"; VStr (message e)] ;;;
              ret (TwitterHelper.failure (VStr ("Failed to search tweets: " +:+ message e)))) wf
             = (r, w') ->
             exists v, r = Ok v /\ quiet (is_before_search cacheOn) w w').
  { intros e wf Qf Hf. unfold bind, console_error, modify, ret in Hf. inversion Hf; subst.
    eexists. split; [reflexivity|]. eapply quiet_trans; [exact Qf|].
    apply quiet_record. apply before_search_resolution. reflexivity. }
  destruct hit as [cached|].
  { unfold ret in H. inversion H; subst. exists cached. split; [reflexivity|]. left. exact Qh. }
  unfold bind at 1 in H.
  destruct (TwitterClient.getClient env credentials wh) as [rc wc] eqn:G.
  assert (Qc : quiet (is_before_search cacheOn) w wc).
  { eapply quiet_trans; [exact Qh|]. eapply quiet_weaken; [apply before_search_resolution|].
    eapply getClient_events; eauto. }
  destruct rc as [client|e].
  2:{ destruct (Hfail _ _ Qc H) as (v & Hv & Qv). exists v. auto. }
  unfold bind at 1 in H. unfold TwitterHelper.fetchSearchTweets in H.
  destruct client as [h|].
  2:{ unfold throw in H. destruct (Hfail _ _ Qc H) as (v & Hv & Qv). exists v. auto. }
  unfold call at 1 in H.
  set (args := [query; maxTweets; searchMode; cursor]) in *.
  set (w3 := record_event (EvFetchSearchTweets h args) wc) in *.
  unfold bind at 1, lift at 1 in H.
  destruct (TwitterHelper.race (scraper_fetchSearchTweets env (trace wc) h args)
              TwitterHelper.SEARCH_TIMEOUT_MS TwitterHelper.emptyResult) as [result|e] eqn:R.
  2:{ unfold bind, console_error, modify, ret in H. inversion H; subst.
      eexists. split; [reflexivity|]. right. exists wc, h, args. split; [exact Qc|].
      simpl. fold args. rewrite R. reflexivity. }
  unfold bind at 1, lift at 1 in H. rewrite opt_prop_tweets in H.
  unfold bind at 1 in H.
  destruct (cacheOn && TwitterHelper.nonEmpty (resultTweets result)) eqn:Hw.
  - destruct (setCachedData_resolves cacheKey "search" result
                (Some TwitterHelper.THIRTY_MINUTES_MS) w3) as ([] & ws & Hs).
    rewrite Hs in H. unfold ret in H. inversion H; subst.
    eexists. split; [reflexivity|]. right. exists wc, h, args. split; [exact Qc|].
    simpl. fold args. rewrite R. split; [reflexivity|]. left.
    apply andb_true_iff in Hw. destruct Hw as (Hon & Hne). repeat split; auto.
    eapply setCachedData_events; eauto.
  - unfold ret in H. inversion H; subst.
    eexists. split; [reflexivity|]. right. exists wc, h, args. split; [exact Qc|].
    simpl. fold args. rewrite R. split; [reflexivity|]. right. reflexivity.
Qed.

Lemma searchTweets_keeps_cache (credentials : Credentials)
    (query maxTweets searchMode cursor useCache : JsVal) :
  truthy cursor = true ->
  preserves (keeps db_twitter_cache)
    (TwitterHelper.searchTweets env credentials query maxTweets searchMode cursor useCache).
Proof.
  intros Hc. unfold TwitterHelper.searchTweets, TwitterHelper.fetchSearchTweets.
  rewrite Hc. pose proof (getClient_keeps_cache env credentials).
  destruct (truthy (TwitterHelper.with_default useCache (VBool true))); simpl;
    keep_field db_twitter_cache.
Qed.

Lemma searchTweets_cache_off (credentials : Credentials)
    (query maxTweets searchMode cursor useCache : JsVal) (w w' : World) (r : outcome JsVal) :
  TwitterHelper.searchTweets env credentials query maxTweets searchMode cursor useCache w
  = (r, w') ->
  truthy (TwitterHelper.with_default useCache (VBool true)) && negb (truthy cursor) = false ->
  quiet (fun ev => non is_cache_read ev && non is_cache_write ev) w w'.
Proof.
  intros H Hoff.
  assert (Hweak : forall w1 w2, quiet (is_before_search false) w1 w2 ->
                    quiet (fun ev => non is_cache_read ev && non is_cache_write ev) w1 w2).
  { intros w1 w2. apply quiet_weaken. intros ev Hev. apply before_search_off in Hev.
    apply andb_true_iff in Hev. destruct Hev as (Hev & _). exact Hev. }
  destruct (searchTweets_cases _ _ _ _ _ _ _ _ _ H)
    as [(_ & _ & ->)|(_ & v & _ & [Q|(w2 & h & args & Q & Hrun)])];
    rewrite ?Hoff in *.
  - apply quiet_refl.
  - apply Hweak. exact Q.
  - simpl in Hrun. apply Hweak in Q.
    destruct (TwitterHelper.race _ _ _) as [result|e].
    + destruct Hrun as (_ & [(Hon & _)| ->]); [discriminate|].
      eapply quiet_trans; [exact Q | apply quiet_record; reflexivity].
    + subst w'. eapply quiet_trans; [exact Q|].
      eapply quiet_trans; apply quiet_record; reflexivity.
Qed.

End Helper.

(* ===================================================================== *)
(** ** The claims *)
(* ===================================================================== *)

(** C1. For every identity for which the Instance Registry holds a Session
    Handle whose login-state probe succeeds, [getClient] returns exactly
    that registered handle.  The probe is the only thing the call does:
    Fresh Login ([client.login]) is not invoked, no new session context is
    constructed, and the registries and stores are left as they were. *)
Theorem getClient_returns_registered_handle
    (env : Env) (credentials : Credentials) (w : World) (client : Handle) :
  st_instances w !! username credentials = Some client ->
  scraper_isLoggedIn env (trace w) client = Ok true ->
  exists w',
    TwitterClient.getClient env credentials w = (Ok (Some client), w')
    /\ recorded [EvIsLoggedIn client] w w'
    /\ quiet (fun ev => non is_login ev && non is_new_scraper ev) w w'
    /\ same_data w w'.
Proof.
  intros Hreg Hprobe. exists (record_event (EvIsLoggedIn client) w).
  split; [|split; [reflexivity | split; [apply quiet_record; reflexivity | repeat split]]].
  unfold TwitterClient.getClient, TwitterClient.tryExistingClient, TwitterClient.isLoggedIn.
  run. rewrite Hreg. simpl. rewrite Hprobe. simpl. rewrite Hreg. reflexivity.
Qed.

Lemma getClient_returns_registered_handle_witness :
  exists w',
    TwitterClient.getClient (Example.runtime (Example.always true) (Ok tt) true None)
      (Example.alice None) Example.registered_world = (Ok (Some 7%nat), w')
    /\ recorded [EvIsLoggedIn 7%nat] Example.registered_world w'
    /\ quiet (fun ev => non is_login ev && non is_new_scraper ev) Example.registered_world w'
    /\ same_data Example.registered_world w'.
Proof.
  apply (getClient_returns_registered_handle
           (Example.runtime (Example.always true) (Ok tt) true None)
           (Example.alice None) Example.registered_world 7%nat).
  - reflexivity.
  - reflexivity.
Defined.

(** C7. An exception thrown or a failed probe inside a tier before Fresh
    Login never reaches the caller of [getClient]: each of the four tier
    helpers always returns, and returns [true] only when its login-state
    probe answered [true]; a resolution in which no probe passes goes on to
    attempt Fresh Login and ends with the Authentication Error; whatever
    [getClient] throws is that Authentication Error; and the cascade
    continues from tier to tier: [getClient] is the tiers in their order,
    a tier that returns [true] ending the resolution with its client and a
    tier that returns [false] handing over to the next tier, in the world
    it left. *)
Theorem soft_tier_failures_fall_through (env : Env) :
  (forall user, resolves (TwitterClient.tryExistingClient env user))
  /\ (forall client user jar, resolves (TwitterClient.tryPassedCookies env client user jar))
  /\ (forall client user, resolves (TwitterClient.tryInMemoryCookies env client user))
  /\ (forall client user, resolves (TwitterClient.tryMongoCookies env client user))
  /\ (forall user w w',
        TwitterClient.tryExistingClient env user w = (Ok true, w') ->
        exists client, st_instances w !! user = Some client /\ probe_passed env client w w')
  /\ (forall client user jar w w',
        TwitterClient.tryPassedCookies env client user jar w = (Ok true, w') ->
        probe_passed env client w w')
  /\ (forall client user w w',
        TwitterClient.tryInMemoryCookies env client user w = (Ok true, w') ->
        probe_passed env client w w')
  /\ (forall client user w w',
        TwitterClient.tryMongoCookies env client user w = (Ok true, w') ->
        probe_passed env client w w')
  /\ (forall credentials w r w',
        TwitterClient.getClient env credentials w = (r, w') ->
        (forall client, ~ probe_passed env client w w') ->
        resolution_failed env credentials r w w')
  /\ (forall credentials,
        throws_only (is_authentication_error env) (TwitterClient.getClient env credentials))
  /\ (forall credentials w,
        TwitterClient.getClient env credentials w = cascade env credentials w).
Proof.
  split; [apply tryExistingClient_resolves|].
  split; [apply tryPassedCookies_resolves|].
  split; [apply tryInMemoryCookies_resolves|].
  split; [apply tryMongoCookies_resolves|].
  split.
  { intros user w w' H.
    destruct (tryExistingClient_cases env _ _ _ _ H) as (_ & b & Hb & Hp).
    inversion Hb; subst. auto. }
  split.
  { intros client user jar w w' H.
    destruct (tryPassedCookies_cases env _ _ _ _ _ _ H)
      as (_ & [(_ & Hv & _)|(Hr & _)]); [|discriminate].
    eapply validated_probe_passed; eauto. }
  split.
  { intros client user w w' H.
    destruct (tryInMemoryCookies_cases env _ _ _ _ _ H) as (_ & b & Hb & Hp).
    inversion Hb; subst. destruct (Hp eq_refl) as (jar & _ & Hv).
    eapply validated_probe_passed; eauto. }
  split.
  { intros client user w w' H.
    destruct (tryMongoCookies_cases env _ _ _ _ _ H)
      as (_ & _ & [(_ & doc & _ & Hv & _)|(Hr & _)]); [|discriminate].
    eapply validated_probe_passed; eauto. }
  split; [|split; [apply getClient_throws_authentication_error
                  | apply getClient_is_cascade]].
  intros credentials w r w' H Hnone.
  destruct (getClient_cases env _ _ _ _ H) as [(c & _ & _ & Hp & _)|[(_ & _ & Hv)|Hf]].
  - destruct (Hnone _ Hp).
  - exfalso. destruct Hv as [(jar & _ & Hv & _)|[(jar & _ & Hv & _)|[(doc & _ & Hv & _)|(Hp & _)]]];
      try (apply validated_probe_passed in Hv); eapply Hnone; eauto.
  - exact Hf.
Qed.

Lemma soft_tier_failures_fall_through_witness :
  let env := Example.runtime (Example.always false)
               (Throw (mkError Example.bad_credentials)) false None in
  let run := TwitterClient.getClient env (Example.alice (Some Example.supplied_jar))
               Example.restarted_world in
  resolution_failed env (Example.alice (Some Example.supplied_jar))
    (fst run) Example.restarted_world (snd run).
Proof.
  intros env run.
  apply (proj1 (proj2 (proj2 (proj2 (proj2 (proj2 (proj2 (proj2 (proj2
           (soft_tier_failures_fall_through env)))))))))).
  - apply surjective_pairing.
  - intros client (later & hist & earlier & _ & _ & Hp). discriminate Hp.
Defined.

(** C2 (amended).  When the credentials carry an explicit Cookie Jar, the
    Existing Instance tier missed, the jar is applied and passes the
    login-state probe, and the write to the Session Store succeeds, then
    [getClient] succeeds at the Supplied Cookies tier with the client it
    constructed: the jar is in the Session Store under a reading of the
    clock, it is cached in the in-memory cookie map, the client is
    registered in the Instance Registry, and Fresh Login is not invoked.
    When the write to the Session Store throws, the tier is a soft
    failure: it logs the error and reports a miss, the jar is neither
    stored nor remembered, and the resolution is what the later tiers
    make of it, starting with the In-memory Cookies tier on the same
    client. *)
Theorem getClient_supplied_cookies
    (env : Env) (credentials : Credentials) (jar : CookieJar) (w w1 w4 : World)
    (saved : outcome unit) :
  let user := username credentials in
  let h := next_handle w in
  let strings := map TwitterClient.cookieString jar in
  let w2 := record_event (EvNewScraper h) (set_next_handle (S h) w1) in
  let w3 := record_event (EvIsLoggedIn h) (record_event (EvSetCookies h strings) w2) in
  cookies credentials = Some jar ->
  TwitterClient.tryExistingClient env user w = (Ok false, w1) ->
  scraper_setCookies env (trace w2) h strings = Ok tt ->
  scraper_isLoggedIn env (EvSetCookies h strings :: trace w2) h = Ok true ->
  TwitterClient.saveCookies env user jar w3 = (saved, w4) ->
  match saved with
  | Ok _ =>
      exists w',
        TwitterClient.getClient env credentials w = (Ok (Some h), w')
        /\ (exists t, read_clock env t w w'
                      /\ db_cookies w' !! user = Some (mkSessionRecord jar t))
        /\ st_cookies w' !! user = Some jar
        /\ st_instances w' !! user = Some h
        /\ quiet (non is_login) w w'
  | Throw e =>
      let w5 := record_event
                  (EvConsoleError [VStr "Failed to use passed cookies:"; VStr (message e)])
                  w4 in
      TwitterClient.tryPassedCookies env h user jar w2 = (Ok false, w5)
      /\ st_cookies w5 = st_cookies w
      /\ db_cookies w5 = db_cookies w
      /\ TwitterClient.getClient env credentials w = later_tiers env credentials h w5
  end.
Proof.
  intros user h strings w2 w3 Hjar Htier1 Hset Hprobe Hsave.
  destruct saved as [[]|e].
  2:{ pose proof (tryExistingClient_same_data env _ _ _ _ Htier1)
        as (_ & Hc1 & _ & Hd1 & _ & Hn).
      assert (Htier2 : TwitterClient.tryPassedCookies env h user jar w2
                       = (Ok false,
                          record_event
                            (EvConsoleError [VStr "Failed to use passed cookies:";
                                             VStr (message e)]) w4)).
      { unfold TwitterClient.tryPassedCookies, TwitterClient.setCookiesOnClient,
          TwitterClient.isLoggedIn.
        fold strings. unfold try_catch at 1, bind at 1, call at 1. rewrite Hset.
        unfold bind at 1, call at 1.
        change (trace (record_event (EvSetCookies h strings) w2))
          with (EvSetCookies h strings :: trace w2).
        rewrite Hprobe. unfold bind at 1. fold w3. rewrite Hsave. reflexivity. }
      destruct (saveCookies_cases env _ _ _ _ _ Hsave)
        as (_ & Hc4 & [(Hr & _)|(_ & Hd4)]); [discriminate Hr|].
      cbv zeta. split; [exact Htier2|].
      split; [simpl; rewrite Hc4; simpl; exact Hc1|].
      split; [simpl; rewrite Hd4; simpl; exact Hd1|].
      rewrite getClient_is_cascade. unfold cascade. fold user. rewrite Htier1.
      unfold supplied_tier. rewrite Hn. fold user h. cbv zeta. fold w2.
      rewrite Hjar, Htier2. reflexivity. }
  pose proof (tryExistingClient_same_data env _ _ _ _ Htier1) as (_ & _ & _ & _ & _ & Hn).
  pose proof (tryExistingClient_events env _ _ _ _ Htier1) as Q1.
  pose proof (saveCookies_events env _ _ _ _ _ Hsave) as Q4.
  destruct (saveCookies_cases env _ _ _ _ _ Hsave) as (_ & _ & [(_ & t & Ht & Hd)|((e & He) & _)]);
    [|discriminate].
  exists (set_instances (<[user := h]> (st_instances w4))
            (set_cookies (<[user := jar]> (st_cookies w4)) w4)).
  assert (X13 : quiet (non is_login) w1 w3).
  { exists [EvIsLoggedIn h; EvSetCookies h strings; EvNewScraper h]. split; reflexivity. }
  assert (X14 : quiet (non is_login) w1 w4).
  { eapply quiet_trans; [exact X13|].
    eapply quiet_weaken; [|exact Q4]. intros ev Hev. apply tier_event_no_login.
    unfold is_tier_event. rewrite Hev. reflexivity. }
  assert (X04 : quiet (non is_login) w w4).
  { eapply quiet_trans; [|exact X14].
    eapply quiet_weaken; [apply tier_event_no_login | exact Q1]. }
  split; [|split; [|split; [|split]]].
  - unfold TwitterClient.getClient. fold user.
    unfold try_catch at 1, bind at 1. rewrite Htier1.
    unfold bind at 1. rewrite newScraper_run, Hn. fold h. fold w2.
    unfold bind at 1. rewrite Hjar.
    unfold TwitterClient.tryPassedCookies, TwitterClient.setCookiesOnClient,
      TwitterClient.isLoggedIn.
    fold strings. unfold try_catch at 1, bind at 1, call at 1. rewrite Hset.
    unfold bind at 1, call at 1.
    change (trace (record_event (EvSetCookies h strings) w2))
      with (EvSetCookies h strings :: trace w2).
    rewrite Hprobe.
    unfold bind at 1. fold w3. rewrite Hsave. reflexivity.
  - exists t. split.
    + eapply extends_read_clock; [| exact Ht | exists []; reflexivity].
      eapply quiet_extends, quiet_trans; [exact Q1 | exists [EvIsLoggedIn h; EvSetCookies h strings; EvNewScraper h]; split; reflexivity].
    + simpl. rewrite Hd. apply lookup_insert_eq.
  - simpl. apply lookup_insert_eq.
  - simpl. apply lookup_insert_eq.
  - destruct X04 as (evs & He & Hf). exists evs. split; [exact He | exact Hf].
Qed.

Lemma getClient_supplied_cookies_witness :
  (let env := Example.runtime (Example.always true) (Ok tt) true None in
   exists w',
     TwitterClient.getClient env (Example.alice (Some Example.supplied_jar))
       Example.fresh_world = (Ok (Some 0%nat), w')
     /\ (exists t, read_clock env t Example.fresh_world w'
                   /\ db_cookies w' !! "alice"
                      = Some (mkSessionRecord Example.supplied_jar t))
     /\ st_cookies w' !! "alice" = Some Example.supplied_jar
     /\ st_instances w' !! "alice" = Some 0%nat
     /\ quiet (non is_login) Example.fresh_world w')
  /\ (let env := Example.runtime (Example.always true) (Ok tt) false None in
      let credentials := Example.alice (Some Example.supplied_jar) in
      let w2 := record_event (EvNewScraper 0%nat)
                  (set_next_handle 1%nat Example.fresh_world) in
      let w5 := record_event
                  (EvConsoleError [VStr "Failed to use passed cookies:";
                                   VStr (message Example.refused)])
                  (snd (TwitterClient.saveCookies env "alice" Example.supplied_jar
                          (record_event (EvIsLoggedIn 0%nat)
                             (record_event
                                (EvSetCookies 0%nat
                                   (map TwitterClient.cookieString Example.supplied_jar))
                                w2)))) in
      TwitterClient.tryPassedCookies env 0%nat "alice" Example.supplied_jar w2
      = (Ok false, w5)
      /\ st_cookies w5 = st_cookies Example.fresh_world
      /\ db_cookies w5 = db_cookies Example.fresh_world
      /\ TwitterClient.getClient env credentials Example.fresh_world
         = later_tiers env credentials 0%nat w5).
Proof.
  split.
  - intros env.
    apply (getClient_supplied_cookies env (Example.alice (Some Example.supplied_jar))
             Example.supplied_jar Example.fresh_world Example.fresh_world
             (snd (TwitterClient.saveCookies env "alice" Example.supplied_jar
                     (record_event (EvIsLoggedIn 0%nat)
                        (record_event
                           (EvSetCookies 0%nat
                              (map TwitterClient.cookieString Example.supplied_jar))
                           (record_event (EvNewScraper 0%nat)
                              (set_next_handle 1%nat Example.fresh_world))))))
             (Ok tt)).
    + reflexivity.
    + reflexivity.
    + reflexivity.
    + reflexivity.
    + vm_compute. reflexivity.
  - intros env credentials w2 w5.
    apply (getClient_supplied_cookies env credentials
             Example.supplied_jar Example.fresh_world Example.fresh_world
             (snd (TwitterClient.saveCookies env "alice" Example.supplied_jar
                     (record_event (EvIsLoggedIn 0%nat)
                        (record_event
                           (EvSetCookies 0%nat
                              (map TwitterClient.cookieString Example.supplied_jar))
                           w2))))
             (Throw Example.refused)).
    + reflexivity.
    + reflexivity.
    + reflexivity.
    + reflexivity.
    + vm_compute. reflexivity.
Defined.

(** C2 as stated fails when the Session Store cannot be reached: the
    supplied jar passes the probe, the write throws, the tier reports a
    miss, Fresh Login is invoked and the resolution fails. *)
Lemma getClient_supplied_cookies_counterexample :
  let env := Example.runtime (Example.always true) (Ok tt) false None in
  let run := TwitterClient.getClient env (Example.alice (Some Example.supplied_jar))
               Example.fresh_world in
  validated env 0%nat Example.supplied_jar Example.fresh_world (snd run)
  /\ fst run = Throw (mkError "Failed to authenticate: connect ECONNREFUSED 127.0.0.1:27017")
  /\ existsb is_login (trace (snd run)) = true
  /\ db_cookies (snd run) !! "alice" = None
  /\ st_instances (snd run) !! "alice" = None.
Proof.
  intros env run. split; [|split; [|split; [|split]]].
  - exists (firstn 19 (trace (snd run))), [EvNewScraper 0%nat], [EvNewScraper 0%nat].
    split; [|split]; vm_compute; reflexivity.
  - vm_compute. reflexivity.
  - vm_compute. reflexivity.
  - vm_compute. reflexivity.
  - vm_compute. reflexivity.
Qed.




(** C4 (amended).  When the store can be reached, [getCachedData] returns
    [null] if no record exists for the composite key or if the record's
    age, the clock reading minus the stored timestamp, exceeds the ttl, and
    the record's payload otherwise.  When the store cannot be reached (the
    connection or the lookup throws) it logs the error and returns [null],
    whatever is stored.  In every case it returns [null] or the payload of
    the record under the key, and leaves the records as they were: a stale
    record is a miss, not a deletion.  A [setCachedData] that reaches the store leaves a record
    with the payload and the clock reading, and a [getCachedData] for the
    same key and type that reaches the store no later than ttl after that
    reading returns the payload unchanged. *)
Theorem cache_store_get_set (env : Env) :
  (* reachable store: the record decides *)
  (forall k type ttl w w1,
      TwitterClient.initMongoClient env w = (Ok tt, w1) ->
      mongo_findOne env (trace w1) = Ok tt ->
      let found := record_event (EvFindOne "twitter_cache" (TwitterClient.cacheId type k)) w1 in
      TwitterClient.getCachedData env k type ttl w
      = match db_twitter_cache w !! TwitterClient.cacheId type k with
        | None => (Ok VNull, found)
        | Some entry =>
            (Ok (if Z.ltb (default TwitterClient.defaultCacheDurationMs ttl)
                            (Date_now env (trace found) - timestamp entry)
                 then VNull else data entry),
             record_event EvDateNow found)
        end)
  (* unreachable store: null, whatever is stored *)
  /\ (forall k type ttl w w1 e,
        TwitterClient.initMongoClient env w = (Throw e, w1) ->
        TwitterClient.getCachedData env k type ttl w
        = (Ok VNull,
           record_event
             (EvConsoleError [VStr "Error getting cached data:"; VStr (message e)]) w1))
  /\ (forall k type ttl w w1 e,
        TwitterClient.initMongoClient env w = (Ok tt, w1) ->
        mongo_findOne env (trace w1) = Throw e ->
        TwitterClient.getCachedData env k type ttl w
        = (Ok VNull,
           record_event
             (EvConsoleError [VStr "Error getting cached data:"; VStr (message e)])
             (record_event (EvFindOne "twitter_cache" (TwitterClient.cacheId type k)) w1)))
  (* whatever happens, null or the record's payload is returned and no record
     is deleted or changed *)
  /\ (forall k type ttl w r w',
        TwitterClient.getCachedData env k type ttl w = (r, w') ->
        (r = Ok VNull
         \/ exists entry,
              db_twitter_cache w !! TwitterClient.cacheId type k = Some entry
              /\ r = Ok (data entry))
        /\ db_twitter_cache w' = db_twitter_cache w)
  (* a successful write stores the payload with the clock reading *)
  /\ (forall k type payload ttl w w1,
        TwitterClient.initMongoClient env w = (Ok tt, w1) ->
        mongo_updateOne env (EvDateNow :: EvDateNow :: trace w1) = Ok tt ->
        exists w',
          TwitterClient.setCachedData env k type payload ttl w = (Ok tt, w')
          /\ db_twitter_cache w' !! TwitterClient.cacheId type k
             = Some (mkCacheEntry payload (Date_now env (trace w1))
                       (Date_now env (EvDateNow :: trace w1)
                        + default TwitterClient.defaultCacheDurationMs ttl)))
  (* a read after a write, no later than ttl after it, returns the payload *)
  /\ (forall k type payload ttl0 ttl w w1 w2 w3,
        TwitterClient.initMongoClient env w = (Ok tt, w1) ->
        mongo_updateOne env (EvDateNow :: EvDateNow :: trace w1) = Ok tt ->
        TwitterClient.setCachedData env k type payload ttl0 w = (Ok tt, w2) ->
        TwitterClient.initMongoClient env w2 = (Ok tt, w3) ->
        mongo_findOne env (trace w3) = Ok tt ->
        Date_now env (EvFindOne "twitter_cache" (TwitterClient.cacheId type k) :: trace w3)
          - Date_now env (trace w1)
          <= default TwitterClient.defaultCacheDurationMs ttl ->
        fst (TwitterClient.getCachedData env k type ttl w2) = Ok payload).
Proof.
  assert (Hget : forall k type ttl w w1,
      TwitterClient.initMongoClient env w = (Ok tt, w1) ->
      mongo_findOne env (trace w1) = Ok tt ->
      let found := record_event (EvFindOne "twitter_cache" (TwitterClient.cacheId type k)) w1 in
      TwitterClient.getCachedData env k type ttl w
      = match db_twitter_cache w !! TwitterClient.cacheId type k with
        | None => (Ok VNull, found)
        | Some entry =>
            (Ok (if Z.ltb (default TwitterClient.defaultCacheDurationMs ttl)
                            (Date_now env (trace found) - timestamp entry)
                 then VNull else data entry),
             record_event EvDateNow found)
        end).
  { intros k type ttl w w1 Hinit Hfind found.
    pose proof (initMongoClient_same_data env _ _ _ Hinit) as (_ & _ & _ & _ & Hc & _).
    unfold TwitterClient.getCachedData, TwitterClient.now. unfold try_catch at 1, bind at 1. rewrite Hinit.
    unfold bind at 1, call at 1. rewrite Hfind.
    unfold bind at 1, gets at 1. fold found.
    change (db_twitter_cache found) with (db_twitter_cache w1). rewrite Hc.
    destruct (db_twitter_cache w !! TwitterClient.cacheId type k) as [entry|]; [|reflexivity].
    unfold bind, call. simpl.
    destruct (Z.ltb _ _); reflexivity. }
  assert (Hset : forall k type payload ttl w w1,
        TwitterClient.initMongoClient env w = (Ok tt, w1) ->
        mongo_updateOne env (EvDateNow :: EvDateNow :: trace w1) = Ok tt ->
        exists w',
          TwitterClient.setCachedData env k type payload ttl w = (Ok tt, w')
          /\ db_twitter_cache w' !! TwitterClient.cacheId type k
             = Some (mkCacheEntry payload (Date_now env (trace w1))
                       (Date_now env (EvDateNow :: trace w1)
                        + default TwitterClient.defaultCacheDurationMs ttl))).
  { intros k type payload ttl w w1 Hinit Hupd.
    eexists. split.
    + unfold TwitterClient.setCachedData, TwitterClient.now. unfold try_catch at 1, bind at 1. rewrite Hinit.
      unfold bind at 1, call at 1. unfold bind at 1, call at 1.
      unfold bind at 1, call at 1. simpl trace. rewrite Hupd.
      unfold modify. reflexivity.
    + simpl. apply lookup_insert_eq. }
  assert (Hdown : forall k type ttl w w1 e,
        TwitterClient.initMongoClient env w = (Throw e, w1) ->
        TwitterClient.getCachedData env k type ttl w
        = (Ok VNull,
           record_event
             (EvConsoleError [VStr "Error getting cached data:"; VStr (message e)]) w1)).
  { intros k type ttl w w1 e Hinit.
    unfold TwitterClient.getCachedData. unfold try_catch at 1, bind at 1.
    rewrite Hinit. reflexivity. }
  assert (Hlost : forall k type ttl w w1 e,
        TwitterClient.initMongoClient env w = (Ok tt, w1) ->
        mongo_findOne env (trace w1) = Throw e ->
        TwitterClient.getCachedData env k type ttl w
        = (Ok VNull,
           record_event
             (EvConsoleError [VStr "Error getting cached data:"; VStr (message e)])
             (record_event (EvFindOne "twitter_cache" (TwitterClient.cacheId type k)) w1))).
  { intros k type ttl w w1 e Hinit Hfind.
    unfold TwitterClient.getCachedData. unfold try_catch at 1, bind at 1.
    rewrite Hinit. unfold bind at 1, call at 1. rewrite Hfind. reflexivity. }
  split; [exact Hget|]. split; [exact Hdown|]. split; [exact Hlost|].
  split; [|split; [exact Hset|]].
  - intros k type ttl w r w' H. split.
    + destruct (TwitterClient.initMongoClient env w) as [[[]|e] w1] eqn:Hinit.
      * destruct (mongo_findOne env (trace w1)) as [[]|e] eqn:Hfind.
        -- rewrite (Hget _ _ _ _ _ Hinit Hfind) in H.
           destruct (db_twitter_cache w !! TwitterClient.cacheId type k) as [entry|].
           ++ inversion H; subst. destruct (Z.ltb _ _); [left; reflexivity|].
              right. exists entry. auto.
           ++ inversion H; subst. left. reflexivity.
        -- rewrite (Hlost _ _ _ _ _ _ Hinit Hfind) in H. inversion H. left. reflexivity.
      * rewrite (Hdown _ _ _ _ _ _ Hinit) in H. inversion H. left. reflexivity.
    + apply (getCachedData_same_data env _ _ _ _ _ _ H).
  - intros k type payload ttl0 ttl w w1 w2 w3 Hinit Hupd Hrun Hinit2 Hfind Hage.
    destruct (Hset k type payload ttl0 _ _ Hinit Hupd) as (w2' & Hrun' & Hrec).
    rewrite Hrun in Hrun'. inversion Hrun'; subst w2'.
    rewrite (Hget _ _ _ _ _ Hinit2 Hfind), Hrec. simpl in *.
    destruct (Z.ltb_spec (default TwitterClient.defaultCacheDurationMs ttl)
                (Date_now env (EvFindOne "twitter_cache" (TwitterClient.cacheId type k) :: trace w3)
                 - Date_now env (trace w1)));
      [lia | reflexivity].
Qed.

Lemma cache_store_get_set_witness :
  (let env := Example.runtime (Example.always true) (Ok tt) true None in
   fst (TwitterClient.getCachedData env "alice" "profile" (Some 30000)
          (snd (TwitterClient.setCachedData env "alice" "profile"
                  (VObj [("bio", VStr "x")]) (Some 1000) Example.fresh_world)))
   = Ok (VObj [("bio", VStr "x")]))
  /\ (let env := Example.runtime (Example.always true) (Ok tt) false None in
      TwitterClient.getCachedData env "alice" "profile" None Example.cached_world
      = (Ok VNull,
         record_event
           (EvConsoleError [VStr "Error getting cached data:";
                            VStr (message Example.refused)])
           (snd (TwitterClient.initMongoClient env Example.cached_world)))).
Proof.
  split.
  - intros env.
    apply (proj2 (proj2 (proj2 (proj2 (proj2 (cache_store_get_set env)))))
             "alice" "profile" (VObj [("bio", VStr "x")]) (Some 1000) (Some 30000)
             Example.fresh_world
             (snd (TwitterClient.initMongoClient env Example.fresh_world))
             (snd (TwitterClient.setCachedData env "alice" "profile"
                     (VObj [("bio", VStr "x")]) (Some 1000) Example.fresh_world))
             (snd (TwitterClient.initMongoClient env
                     (snd (TwitterClient.setCachedData env "alice" "profile"
                             (VObj [("bio", VStr "x")]) (Some 1000) Example.fresh_world))))).
    + vm_compute. reflexivity.
    + reflexivity.
    + vm_compute. reflexivity.
    + vm_compute. reflexivity.
    + reflexivity.
    + vm_compute. intros H. discriminate H.
  - intros env.
    apply (proj1 (proj2 (cache_store_get_set env)) "alice" "profile" None
             Example.cached_world
             (snd (TwitterClient.initMongoClient env Example.cached_world))
             Example.refused).
    vm_compute. reflexivity.
Defined.

(** C4 as stated fails when the store cannot be reached: a record exists
    for the key and is well within its ttl, and [getCachedData] returns
    [null]. *)
Lemma cache_store_get_set_counterexample :
  let env := Example.runtime (Example.always true) (Ok tt) false None in
  let run := TwitterClient.getCachedData env "alice" "profile" None Example.cached_world in
  db_twitter_cache Example.cached_world !! TwitterClient.cacheId "profile" "alice"
    = Some (mkCacheEntry (VObj [("bio", VStr "x")]) 0 1000)
  /\ Date_now env (trace (snd run)) - 0 <= TwitterClient.defaultCacheDurationMs
  /\ fst run = Ok VNull.
Proof.
  intros env run. split; [|split].
  - vm_compute. reflexivity.
  - vm_compute. intros H. discriminate H.
  - vm_compute. reflexivity.
Qed.

Lemma string_app_assoc (a b c : string) : (a +:+ b) +:+ c = a +:+ (b +:+ c).
Proof.
  induction a as [|x a IH]; [reflexivity|].
  change (String x ((a +:+ b) +:+ c) = String x (a +:+ (b +:+ c))).
  rewrite IH. reflexivity.
Qed.

Lemma no_semicolon_app (a b : string) :
  no_semicolon (a +:+ b) = no_semicolon a && no_semicolon b.
Proof.
  induction a as [|x a IH]; [reflexivity|].
  change (negb (Ascii.eqb x ";") && no_semicolon (a +:+ b)
          = negb (Ascii.eqb x ";") && no_semicolon a && no_semicolon b).
  rewrite IH. apply andb_assoc.
Qed.

Lemma fields_app (a b : string) :
  no_semicolon a = true -> fields (a +:+ String ";" b) = a :: fields b.
Proof.
  induction a as [|x a IH]; intros H; [reflexivity|].
  simpl in H. apply andb_true_iff in H. destruct H as (Hx & Ha).
  apply negb_true_iff in Hx.
  change (fields (String x (a +:+ String ";" b)) = String x a :: fields b).
  simpl fields. rewrite Hx, (IH Ha). reflexivity.
Qed.

Lemma strip_prefix_app (p x : string) : strip_prefix p (p +:+ x) = Some x.
Proof.
  induction p as [|a p IH]; [destruct x; reflexivity|].
  change (strip_prefix (String a p) (String a (p +:+ x)) = Some x).
  simpl strip_prefix. rewrite Ascii.eqb_refl. exact IH.
Qed.

(** The [Domain] attribute of the string built for a cookie. *)
Lemma cookieString_domain (c : Cookie) :
  well_formed c = true ->
  attribute "Domain" (TwitterClient.cookieString c) = Some (submittedDomain c).
Proof.
  unfold well_formed. intros H.
  apply andb_true_iff in H. destruct H as (H & Hd).
  apply andb_true_iff in H. destruct H as (Hk & Hv).
  assert (Hshown : match TwitterClient.cookieDomain c with
                   | Some d => d
                   | None => "undefined"
                   end = submittedDomain c).
  { unfold TwitterClient.cookieDomain, submittedDomain.
    destruct (domain c) as [d|]; [|reflexivity].
    destruct d as [|a d]; [reflexivity|].
    change (negb (String.eqb (String a d) "")) with true. cbn [andb].
    destruct (includes "x.com" (String a d)); reflexivity. }
  assert (Hclean : no_semicolon (submittedDomain c) = true).
  { unfold submittedDomain. destruct (domain c) as [d|]; [|reflexivity].
    destruct (includes "x.com" d); [reflexivity | exact Hd]. }
  unfold TwitterClient.cookieString. rewrite Hshown.
  set (D := submittedDomain c) in *.
  match goal with
  | |- context [D +:+ "; Path=" +:+ ?rest] => set (R := " Path=" +:+ rest)
  end.
  change (attribute "Domain"
            (key c +:+ "=" +:+ value c +:+ String ";" (" Domain=" +:+ D +:+ String ";" R))
          = Some D).
  rewrite <- (string_app_assoc (key c) "=" (value c +:+ _)).
  rewrite <- (string_app_assoc (key c +:+ "=") (value c)).
  unfold attribute. rewrite fields_app.
  2:{ rewrite !no_semicolon_app, Hk, Hv. reflexivity. }
  rewrite <- (string_app_assoc " Domain=" D).
  rewrite fields_app.
  2:{ rewrite no_semicolon_app, Hclean. reflexivity. }
  change (" " +:+ "Domain" +:+ "=") with " Domain=".
  unfold first_with. rewrite strip_prefix_app. reflexivity.
Qed.

(** C5. Every cookie string that [setCookiesOnClient] submits is built
    from the rewritten domain: a cookie whose domain contains [x.com] is
    submitted with the domain [.twitter.com], a cookie with any other
    domain is submitted with its own, and the rewrite is idempotent:
    rewriting a rewritten cookie changes nothing, and a jar rewritten
    beforehand is submitted as the very same strings.  What is submitted
    carries the rewritten domain: for a jar whose keys, values and domains
    hold no semicolon, the strings handed to [client.setCookies] are one
    per cookie, in order, and the [Domain] attribute read back from each
    is [.twitter.com] when the cookie's domain contains [x.com] and the
    cookie's own domain otherwise. *)
Theorem setCookiesOnClient_rewrites_domains
    (env : Env) (client : Handle) (jar : CookieJar) (w : World) :
  TwitterClient.setCookiesOnClient env client jar w
  = (scraper_setCookies env (trace w) client (map TwitterClient.cookieString jar),
     record_event (EvSetCookies client (map TwitterClient.cookieString jar)) w)
  /\ (forall c d,
        domain c = Some d -> includes "x.com" d = true ->
        TwitterClient.cookieDomain c = Some ".twitter.com"
        /\ TwitterClient.cookieString c
           = TwitterClient.cookieString (with_domain (Some ".twitter.com") c))
  /\ (forall c,
        (forall d, domain c = Some d -> includes "x.com" d = false) ->
        TwitterClient.cookieDomain c = domain c)
  /\ (forall c,
        rewritten (rewritten c) = rewritten c
        /\ TwitterClient.cookieString (rewritten c) = TwitterClient.cookieString c)
  /\ map rewritten (map rewritten jar) = map rewritten jar
  /\ map TwitterClient.cookieString (map rewritten jar)
     = map TwitterClient.cookieString jar
  /\ (forallb well_formed jar = true ->
      exists strings,
        TwitterClient.setCookiesOnClient env client jar w
        = (scraper_setCookies env (trace w) client strings,
           record_event (EvSetCookies client strings) w)
        /\ Forall2 (fun c submitted => attribute "Domain" submitted = Some (submittedDomain c))
             jar strings).
Proof.
  assert (Hidem : forall c, TwitterClient.cookieDomain (rewritten c)
                            = TwitterClient.cookieDomain c).
  { intros c. unfold rewritten, TwitterClient.cookieDomain, with_domain. simpl.
    destruct (domain c) as [d|]; [|reflexivity].
    destruct (negb (String.eqb d "") && includes "x.com" d) eqn:E.
    - reflexivity.
    - rewrite E. reflexivity. }
  assert (Hcookie : forall c,
             rewritten (rewritten c) = rewritten c
             /\ TwitterClient.cookieString (rewritten c) = TwitterClient.cookieString c).
  { intros c. split.
    - unfold rewritten at 1 3. rewrite Hidem. reflexivity.
    - unfold TwitterClient.cookieString. rewrite Hidem. reflexivity. }
  split; [reflexivity|]. split; [|split; [|split; [exact Hcookie|split; [|split]]]].
  5:{ intros Hwf. exists (map TwitterClient.cookieString jar). split; [reflexivity|].
      clear Hidem Hcookie. induction jar as [|c jar IH]; [constructor|].
      simpl in Hwf. apply andb_true_iff in Hwf. destruct Hwf as (Hc & Hjar).
      simpl. constructor; [apply cookieString_domain; exact Hc | apply IH; exact Hjar]. }
  - intros c d Hd Hx. assert (Hdom : TwitterClient.cookieDomain c = Some ".twitter.com").
    { unfold TwitterClient.cookieDomain. rewrite Hd, Hx.
      destruct d; [discriminate Hx | reflexivity]. }
    split; [exact Hdom|].
    unfold TwitterClient.cookieString. rewrite Hdom. reflexivity.
  - intros c Hc. unfold TwitterClient.cookieDomain.
    destruct (domain c) as [d|]; [|reflexivity].
    rewrite (Hc d eq_refl), andb_false_r. reflexivity.
  - rewrite map_map. apply map_ext. intros c. apply Hcookie.
  - rewrite map_map. apply map_ext. intros c. apply Hcookie.
Qed.

Lemma setCookiesOnClient_rewrites_domains_witness :
  let env := Example.runtime (Example.always true) (Ok tt) true None in
  (TwitterClient.cookieDomain Example.session_cookie = Some ".twitter.com"
   /\ TwitterClient.cookieString Example.session_cookie
      = TwitterClient.cookieString
          (with_domain (Some ".twitter.com") Example.session_cookie))
  /\ (exists strings,
        TwitterClient.setCookiesOnClient env 0%nat Example.supplied_jar Example.fresh_world
        = (scraper_setCookies env (trace Example.fresh_world) 0%nat strings,
           record_event (EvSetCookies 0%nat strings) Example.fresh_world)
        /\ Forall2 (fun c submitted =>
                      attribute "Domain" submitted = Some (submittedDomain c))
             Example.supplied_jar strings).
Proof.
  intros env. split.
  - apply (proj1 (proj2 (setCookiesOnClient_rewrites_domains env
                           0%nat Example.supplied_jar Example.fresh_world))
             Example.session_cookie ".x.com").
    + reflexivity.
    + reflexivity.
  - apply (proj2 (proj2 (proj2 (proj2 (proj2 (proj2
             (setCookiesOnClient_rewrites_domains env
                0%nat Example.supplied_jar Example.fresh_world))))))).
    reflexivity.
Defined.




(** C8. A [searchTweets] call with a pagination cursor present (a truthy
    [cursor]) neither reads nor writes the Cache Store, whatever [useCache]
    is: the records are as they were and no read or write of the
    collection is recorded.  In any call, a read of the Cache Store is
    recorded only when the cursor is absent and [useCache] is set, and a
    write only when moreover the call returns a result whose tweet list is
    non-empty. *)
Theorem searchTweets_paginated_bypasses_cache (env : Env) (credentials : Credentials)
    (query maxTweets searchMode cursor useCache : JsVal) (w w' : World) (r : outcome JsVal) :
  TwitterHelper.searchTweets env credentials query maxTweets searchMode cursor useCache w
  = (r, w') ->
  (truthy cursor = true ->
   db_twitter_cache w' = db_twitter_cache w
   /\ quiet (fun ev => non is_cache_read ev && non is_cache_write ev) w w')
  /\ (forall evs,
        recorded evs w w' ->
        (existsb is_cache_read evs = true ->
         truthy (TwitterHelper.with_default useCache (VBool true)) = true
         /\ truthy cursor = false)
        /\ (existsb is_cache_write evs = true ->
            truthy (TwitterHelper.with_default useCache (VBool true)) = true
            /\ truthy cursor = false
            /\ exists result,
                 r = Ok result
                 /\ TwitterHelper.nonEmpty (resultTweets result) = true)).
Proof.
  intros H.
  remember (truthy (TwitterHelper.with_default useCache (VBool true))
            && negb (truthy cursor)) as cacheOn eqn:Ec.
  assert (Hon : cacheOn = true ->
                truthy (TwitterHelper.with_default useCache (VBool true)) = true
                /\ truthy cursor = false).
  { rewrite Ec. intros E. apply andb_true_iff in E. destruct E as (E1 & E2).
    apply negb_true_iff in E2. auto. }
  assert (Hoff : cacheOn = false ->
                 forall evs, recorded evs w w' ->
                   existsb is_cache_read evs = false /\ existsb is_cache_write evs = false).
  { intros E evs R. rewrite Ec in E.
    pose proof (searchTweets_cache_off env _ _ _ _ _ _ _ _ _ H E) as Q. split.
    - eapply quiet_no_event; [|exact R]. eapply quiet_weaken; [|exact Q].
      intros ev Hev. apply andb_true_iff in Hev. apply Hev.
    - eapply quiet_no_event; [|exact R]. eapply quiet_weaken; [|exact Q].
      intros ev Hev. apply andb_true_iff in Hev. apply Hev. }
  split.
  { intros Hc. split.
    - apply (searchTweets_keeps_cache env _ _ _ _ _ _ Hc _ _ _ H).
    - apply (searchTweets_cache_off env _ _ _ _ _ _ _ _ _ H).
      rewrite Hc. apply andb_false_r. }
  intros evs R. destruct cacheOn.
  2:{ destruct (Hoff eq_refl evs R) as (Hr & Hw). split; intros X; congruence. }
  destruct (Hon eq_refl) as (Hu & Hc). split; [auto|].
  intros Hw. split; [exact Hu|]. split; [exact Hc|].
  assert (Hnow : forall w1 w2, quiet (is_before_search true) w1 w2 ->
                   quiet (non is_cache_write) w1 w2).
  { intros w1 w2. apply quiet_weaken. intros ev Hev. apply before_search_no_write in Hev.
    apply andb_true_iff in Hev. apply Hev. }
  destruct (searchTweets_cases env _ _ _ _ _ _ _ _ _ H)
    as [(_ & _ & ->)|(_ & v & -> & [Q|(w2 & h & args & Q & Hrun)])];
    rewrite <- ?Ec in *.
  - exfalso. rewrite (quiet_no_event is_cache_write evs w w (quiet_refl _ _) R) in Hw.
    discriminate.
  - exfalso. rewrite (quiet_no_event is_cache_write evs w w' (Hnow _ _ Q) R) in Hw.
    discriminate.
  - simpl in Hrun. apply Hnow in Q.
    destruct (TwitterHelper.race _ _ _) as [result|e].
    + destruct Hrun as (-> & [(_ & Hne & _)| ->]).
      * exists result. split; [|exact Hne].
        destruct result; try reflexivity; discriminate Hne.
      * exfalso.
        assert (Q' : quiet (non is_cache_write) w
                       (record_event (EvFetchSearchTweets h args) w2)).
        { eapply quiet_trans; [exact Q | apply quiet_record; reflexivity]. }
        rewrite (quiet_no_event is_cache_write evs _ _ Q' R) in Hw. discriminate.
    + exfalso. subst w'.
      assert (Q' : quiet (non is_cache_write) w
                     (record_event
                        (EvConsoleError [VStr "Error searching tweets:"; VStr (message e)])
                        (record_event (EvFetchSearchTweets h args) w2))).
      { eapply quiet_trans; [exact Q|].
        eapply quiet_trans; apply quiet_record; reflexivity. }
      rewrite (quiet_no_event is_cache_write evs _ _ Q' R) in Hw. discriminate.
Qed.

Lemma searchTweets_paginated_bypasses_cache_witness :
  let env := Example.runtime (Example.always true) (Ok tt) true
               (Some (200, Ok (VObj [("tweets", VArr [VStr "hit"])]))) in
  let run := TwitterHelper.searchTweets env (Example.alice None) (VStr "rocq") (VNum 10)
               (VNum 1) (VStr "cursor-2") (VBool true) Example.fresh_world in
  db_twitter_cache (snd run) = db_twitter_cache Example.fresh_world
  /\ quiet (fun ev => non is_cache_read ev && non is_cache_write ev)
       Example.fresh_world (snd run).
Proof.
  intros env run.
  apply (proj1 (searchTweets_paginated_bypasses_cache env (Example.alice None)
                  (VStr "rocq") (VNum 10) (VNum 1) (VStr "cursor-2") (VBool true)
                  Example.fresh_world (snd run) (fst run) (surjective_pairing run))).
  reflexivity.
Defined.

(** C9. The platform search of a [searchTweets] call is raced against a
    timer of 15000 milliseconds: when the search this call started is still
    pending as the timer fires, the call returns the empty result
    [{ tweets: [] }], not an error. *)
Theorem searchTweets_timeout_fallback (env : Env) (credentials : Credentials)
    (query maxTweets searchMode cursor useCache : JsVal) (w w' : World) (r : outcome JsVal)
    (later earlier : list Event) (h : Handle) (args : list JsVal) :
  TwitterHelper.SEARCH_TIMEOUT_MS = 15000
  /\ (TwitterHelper.searchTweets env credentials query maxTweets searchMode cursor useCache w
      = (r, w') ->
      trace w' = later ++ EvFetchSearchTweets h args :: earlier ++ trace w ->
      pending_at TwitterHelper.SEARCH_TIMEOUT_MS
        (scraper_fetchSearchTweets env (earlier ++ trace w) h args) ->
      r = Ok TwitterHelper.emptyResult).
Proof.
  split; [reflexivity|]. intros H Ht Hp.
  assert (Hns : forall on w1 w2, quiet (is_before_search on) w1 w2 ->
                  quiet (non is_search) w1 w2).
  { intros on w1 w2. apply quiet_weaken. intros ev Hev. apply before_search_no_write in Hev.
    apply andb_true_iff in Hev. apply Hev. }
  assert (Hrec : recorded (later ++ EvFetchSearchTweets h args :: earlier) w w').
  { unfold recorded. rewrite Ht, <- app_assoc. reflexivity. }
  assert (Hex : existsb is_search (later ++ EvFetchSearchTweets h args :: earlier) = true).
  { rewrite existsb_app. simpl. apply orb_true_r. }
  destruct (searchTweets_cases env _ _ _ _ _ _ _ _ _ H)
    as [(_ & _ & ->)|(_ & v & -> & [Q|(w2 & h' & args' & Q & Hrun)])].
  - rewrite (quiet_no_event is_search _ w w (quiet_refl _ _) Hrec) in Hex. discriminate.
  - rewrite (quiet_no_event is_search _ w w' (Hns _ _ _ Q) Hrec) in Hex. discriminate.
  - apply Hns in Q. destruct Q as (e2 & He2 & Fe2). simpl in Hrun.
    assert (Hsplit : exists l1, forallb (non is_search) l1 = true
                       /\ trace w' = l1 ++ EvFetchSearchTweets h' args' :: e2 ++ trace w).
    { destruct (TwitterHelper.race _ _ _) as [result|e].
      - destruct Hrun as (_ & [(_ & _ & Qs)| ->]).
        + assert (Qs' : quiet (non is_search)
                          (record_event (EvFetchSearchTweets h' args') w2) w').
          { eapply quiet_weaken; [|exact Qs]. intros ev Hev.
            apply cache_set_event_no_search in Hev.
            apply andb_true_iff in Hev. apply Hev. }
          destruct Qs' as (l1 & Hl1 & Fl1). exists l1. split; [exact Fl1|].
          rewrite Hl1. simpl. rewrite He2. reflexivity.
        + exists []. split; [reflexivity|]. simpl. rewrite He2. reflexivity.
      - subst w'.
        exists [EvConsoleError [VStr "Error searching tweets:"; VStr (message e)]].
        split; [reflexivity|]. simpl. rewrite He2. reflexivity. }
    destruct Hsplit as (l1 & Fl1 & Hl1).
    assert (Heq : l1 ++ EvFetchSearchTweets h' args' :: e2
                  = later ++ EvFetchSearchTweets h args :: earlier).
    { apply (app_inv_tail (trace w)). rewrite <- !app_assoc. simpl.
      rewrite <- Hl1, <- Ht. reflexivity. }
    destruct (split_at_unique is_search l1 e2 later earlier
                (EvFetchSearchTweets h' args') (EvFetchSearchTweets h args)
                Fl1 Fe2 eq_refl eq_refl Heq)
      as (_ & Hev & He).
    inversion Hev; subst h' args' e2. rewrite <- He2 in Hp.
    rewrite (race_pending _ _ Hp) in Hrun. destruct Hrun as (-> & _). reflexivity.
Qed.


Lemma searchTweets_timeout_fallback_witness :
  let env := Example.runtime (Example.always true) (Ok tt) true
               (Some (20000, Ok (VObj [("tweets", VArr [VStr "late"])]))) in
  let run := TwitterHelper.searchTweets env (Example.alice None) (VStr "rocq") (VNum 10)
               (VNum 1) VUndefined VUndefined Example.fresh_world in
  fst run = Ok TwitterHelper.emptyResult.
Proof.
  intros env run.
  apply (proj2 (searchTweets_timeout_fallback env (Example.alice None)
                  (VStr "rocq") (VNum 10) (VNum 1) VUndefined VUndefined
                  Example.fresh_world (snd run) (fst run)
                  [] (tl (trace (snd run))) 0%nat
                  [VStr "rocq"; VNum 10; VNum 1; VUndefined])).
  - apply surjective_pairing.
  - vm_compute. reflexivity.
  - vm_compute. reflexivity.
Defined.

(** C10 at its failing input.  With the [searchMode] argument left out
    ([undefined]) the default value [SearchMode.Latest] is evaluated, and
    [SearchMode] is not bound in twitter_helper.js: [searchTweets] rejects
    with that error before its [try] block is entered, whatever the other
    arguments and the world.  With a [searchMode] given it always returns,
    and so do the eight other operations for every input. *)
Theorem searchTweets_default_searchMode_throws (env : Env) :
  (forall credentials query maxTweets cursor useCache w,
      TwitterHelper.searchTweets env credentials query maxTweets VUndefined cursor useCache w
      = (Throw (mkError "SearchMode is not defined"), w))
  /\ (forall credentials query maxTweets searchMode cursor useCache,
        searchMode = VUndefined
        \/ resolves (TwitterHelper.searchTweets env credentials query maxTweets searchMode
                       cursor useCache))
  /\ (forall credentials, resolves (TwitterHelper.getProfile env credentials))
  /\ (forall credentials target, resolves (TwitterHelper.getTargetProfile env credentials target))
  /\ (forall credentials tweetId, resolves (TwitterHelper.getTweet env credentials tweetId))
  /\ (forall credentials userId count useCache,
        resolves (TwitterHelper.getUserTweets env credentials userId count useCache))
  /\ (forall credentials count following useCache,
        resolves (TwitterHelper.fetchHomeTimeline env credentials count following useCache))
  /\ (forall credentials, resolves (TwitterHelper.sendTweet env credentials))
  /\ (forall credentials text options duration,
        resolves (TwitterHelper.sendTweetWithPoll env credentials text options duration))
  /\ (forall credentials userId count,
        resolves (TwitterHelper.getFollowing env credentials userId count)).
Proof.
  split; [reflexivity|].
  split.
  { intros credentials query maxTweets searchMode cursor useCache.
    destruct searchMode; [left; reflexivity | right ..];
      (unfold TwitterHelper.searchTweets; apply resolves_bind;
       [ apply resolves_ret
       | intros m; apply resolves_try_catch; intros e; apply resolves_log_ret ]). }
  repeat split; intros; apply resolves_try_catch; intros e; apply resolves_log_ret.
Qed.

(* ===================================================================== *)
(** ** Further properties of client.js *)
(* ===================================================================== *)

Lemma written_other (env : Env) (user other : string) (jar : CookieJar) (w w' : World) :
  other <> user -> written env user jar w w' ->
  st_cookies w' !! other = st_cookies w !! other
  /\ db_cookies w' !! other = db_cookies w !! other.
Proof.
  intros Hne (Hm & t & _ & Hd). rewrite Hm, Hd.
  split; apply lookup_insert_ne; congruence.
Qed.

(** X1. A resolution for one identity leaves every other identity alone:
    for a username other than [__proto__] (the one key whose assignment
    on the registries, plain objects, rebinds their prototype instead of
    adding an entry), whatever [getClient] does and however it ends, the
    client registered for another username, the jar remembered for it and
    its Session Record are what they were. *)
Theorem getClient_leaves_other_identities
    (env : Env) (credentials : Credentials) (other : string) (w w' : World)
    (r : outcome (option Handle)) :
  username credentials <> "__proto__" ->
  other <> username credentials ->
  TwitterClient.getClient env credentials w = (r, w') ->
  st_instances w' !! other = st_instances w !! other
  /\ st_cookies w' !! other = st_cookies w !! other
  /\ db_cookies w' !! other = db_cookies w !! other.
Proof.
  intros _ Hne H.
  destruct (getClient_cases env _ _ _ _ H)
    as [(c & _ & _ & _ & D)|[(_ & Hi & Hv)|(_ & _ & Hi & Hm & Hd)]].
  - destruct D as (Di & Dc & _ & Dd & _). rewrite Di, Dc, Dd. auto.
  - split; [rewrite Hi; apply lookup_insert_ne; congruence|].
    destruct Hv as [(jar & _ & _ & Hw)|[(jar & _ & _ & Hm & Hd)
                   |[(doc & _ & _ & Hm & Hd)|(_ & jar & _ & Hw)]]].
    + eapply written_other; eauto.
    + rewrite Hm, Hd. auto.
    + rewrite Hm, Hd. split; [apply lookup_insert_ne; congruence | reflexivity].
    + eapply written_other; eauto.
  - rewrite Hi, Hm, Hd. auto.
Qed.

Lemma getClient_leaves_other_identities_witness :
  let run := TwitterClient.getClient Sample.env (Example.alice None) Sample.shared_world in
  st_instances (snd run) !! "bob" = st_instances Sample.shared_world !! "bob"
  /\ st_cookies (snd run) !! "bob" = st_cookies Sample.shared_world !! "bob"
  /\ db_cookies (snd run) !! "bob" = db_cookies Sample.shared_world !! "bob".
Proof.
  intros run.
  apply (getClient_leaves_other_identities Sample.env (Example.alice None) "bob"
           Sample.shared_world (snd run) (fst run)).
  - simpl. intros H. discriminate H.
  - simpl. intros H. discriminate H.
  - apply surjective_pairing.
Defined.

Lemma getClient_existing_run
    (env : Env) (credentials : Credentials) (w : World) (client : Handle) :
  st_instances w !! username credentials = Some client ->
  scraper_isLoggedIn env (trace w) client = Ok true ->
  TwitterClient.getClient env credentials w
  = (Ok (Some client), record_event (EvIsLoggedIn client) w).
Proof.
  intros Hreg Hprobe.
  unfold TwitterClient.getClient, TwitterClient.tryExistingClient, TwitterClient.isLoggedIn.
  run. rewrite Hreg. simpl. rewrite Hprobe. simpl. rewrite Hreg. reflexivity.
Qed.

(** X2. [getClient] ends in one of two ways.  Either it returns a client,
    and then that client is the one registered for the identity when it
    returns, so that the next resolution for the identity returns the same
    client after the probe alone as long as the probe passes; or it throws
    the Authentication Error after having attempted Fresh Login, and then
    the registries and the Session Store are as they were. *)
Theorem getClient_registers_what_it_returns
    (env : Env) (credentials : Credentials) (w w' : World) (r : outcome (option Handle)) :
  TwitterClient.getClient env credentials w = (r, w') ->
  (exists client,
      r = Ok (Some client)
      /\ st_instances w' !! username credentials = Some client
      /\ (scraper_isLoggedIn env (trace w') client = Ok true ->
          TwitterClient.getClient env credentials w'
          = (Ok (Some client), record_event (EvIsLoggedIn client) w')))
  \/ (exists e,
        r = Throw e
        /\ is_authentication_error env e
        /\ login_attempted credentials w w'
        /\ st_instances w' = st_instances w
        /\ st_cookies w' = st_cookies w
        /\ db_cookies w' = db_cookies w).
Proof.
  intros H.
  destruct (getClient_cases env _ _ _ _ H)
    as [(c & -> & Hreg & _ & D)|[(-> & Hi & _)|((e & -> & He) & Hl & Hi & Hm & Hd)]].
  - left. exists c. destruct D as (Di & _).
    assert (Hreg' : st_instances w' !! username credentials = Some c) by (rewrite Di; exact Hreg).
    split; [reflexivity|]. split; [exact Hreg'|].
    intros Hp. apply getClient_existing_run; assumption.
  - left. exists (next_handle w).
    assert (Hreg' : st_instances w' !! username credentials = Some (next_handle w)).
    { rewrite Hi. apply lookup_insert_eq. }
    split; [reflexivity|]. split; [exact Hreg'|].
    intros Hp. apply getClient_existing_run; assumption.
  - right. exists e. auto 10.
Qed.

Lemma getClient_registers_what_it_returns_witness :
  let credentials := Example.alice None in
  let w := Example.fresh_world in
  let run := TwitterClient.getClient Sample.env credentials w in
  (exists client,
      fst run = Ok (Some client)
      /\ st_instances (snd run) !! username credentials = Some client
      /\ (scraper_isLoggedIn Sample.env (trace (snd run)) client = Ok true ->
          TwitterClient.getClient Sample.env credentials (snd run)
          = (Ok (Some client), record_event (EvIsLoggedIn client) (snd run))))
  \/ (exists e,
        fst run = Throw e
        /\ is_authentication_error Sample.env e
        /\ login_attempted credentials w (snd run)
        /\ st_instances (snd run) = st_instances w
        /\ st_cookies (snd run) = st_cookies w
        /\ db_cookies (snd run) = db_cookies w).
Proof.
  intros credentials w run.
  apply (getClient_registers_what_it_returns Sample.env credentials w (snd run) (fst run)).
  apply surjective_pairing.
Defined.

Lemma tryExistingClient_only_probes (env : Env) (user : string) :
  preserves (quiet is_probe_event) (TwitterClient.tryExistingClient env user).
Proof.
  unfold TwitterClient.tryExistingClient, TwitterClient.isLoggedIn.
  keep_quiet is_probe_event.
Qed.

(** X3. Fresh Login, when it succeeds.  When tiers 1 to 4 all miss, the
    login is accepted, the probe after it passes, the client hands over
    its jar and the write to the Session Store goes through, [getClient]
    returns the client it constructed, registered for the identity, and
    the jar fetched from the client is both remembered in memory and the
    jar of the identity's Session Record, stamped with a reading of the
    clock. *)
Theorem getClient_fresh_login
    (env : Env) (credentials : Credentials) (jar : CookieJar) (w w5 w9 : World) :
  let user := username credentials in
  let h := next_handle w in
  let login := EvLogin h user (password credentials) (email credentials)
                 (twoFactorSecret credentials) in
  let w8 := record_event (EvGetCookies h)
              (record_event (EvIsLoggedIn h) (record_event login w5)) in
  tiers_miss env credentials w w5 ->
  scraper_login env (trace w5) h user (password credentials) (email credentials)
    (twoFactorSecret credentials) = Ok tt ->
  scraper_isLoggedIn env (login :: trace w5) h = Ok true ->
  scraper_getCookies env (EvIsLoggedIn h :: login :: trace w5) h = Ok jar ->
  TwitterClient.saveCookies env user jar w8 = (Ok tt, w9) ->
  exists w',
    TwitterClient.getClient env credentials w = (Ok (Some h), w')
    /\ st_instances w' !! user = Some h
    /\ st_cookies w' !! user = Some jar
    /\ (exists t, read_clock env t w5 w'
                  /\ db_cookies w' !! user = Some (mkSessionRecord jar t)).
Proof.
  intros user h login w8 Hmiss Hlogin Hprobe Hjar Hsave.
  destruct (saveCookies_cases env _ _ _ _ _ Hsave)
    as (_ & _ & [(_ & t & Ht & Hd)|((e & He) & _)]); [|discriminate].
  exists (set_instances (<[user := h]> (st_instances w9))
            (set_cookies (<[user := jar]> (st_cookies w9)) w9)).
  split; [|split; [|split]].
  - rewrite (getClient_after_misses env credentials w w5 Hmiss). simpl.
    fold user h. unfold TwitterClient.tryFreshLogin, TwitterClient.isLoggedIn.
    unfold try_catch at 1, bind at 1, call at 1. fold login. rewrite Hlogin.
    unfold bind at 1, call at 1.
    change (trace (record_event login w5)) with (login :: trace w5). rewrite Hprobe.
    unfold bind at 1, call at 1.
    change (trace (record_event (EvIsLoggedIn h) (record_event login w5)))
      with (EvIsLoggedIn h :: login :: trace w5).
    rewrite Hjar. unfold bind at 1. fold w8. rewrite Hsave. reflexivity.
  - simpl. apply lookup_insert_eq.
  - simpl. apply lookup_insert_eq.
  - exists t. split.
    + eapply extends_read_clock; [| exact Ht | exists []; reflexivity].
      exists [EvGetCookies h; EvIsLoggedIn h; login]. reflexivity.
    + simpl. rewrite Hd. apply lookup_insert_eq.
Qed.

Lemma getClient_fresh_login_witness :
  exists w',
    TwitterClient.getClient Sample.env (Example.alice None) Example.fresh_world
    = (Ok (Some 0%nat), w')
    /\ st_instances w' !! "alice" = Some 0%nat
    /\ st_cookies w' !! "alice" = Some Example.login_jar
    /\ (exists t,
          read_clock Sample.env t
            (snd (TwitterClient.tryMongoCookies Sample.env 0%nat "alice"
                    (snd (TwitterClient.newScraper Example.fresh_world)))) w'
          /\ db_cookies w' !! "alice" = Some (mkSessionRecord Example.login_jar t)).
Proof.
  pose (w3 := snd (TwitterClient.newScraper Example.fresh_world)).
  pose (w5 := snd (TwitterClient.tryMongoCookies Sample.env 0%nat "alice" w3)).
  pose (w8 := record_event (EvGetCookies 0%nat)
                (record_event (EvIsLoggedIn 0%nat)
                   (record_event (EvLogin 0%nat "alice" "hunter2" None None) w5))).
  apply (getClient_fresh_login Sample.env (Example.alice None) Example.login_jar
           Example.fresh_world w5
           (snd (TwitterClient.saveCookies Sample.env "alice" Example.login_jar w8))).
  - exists Example.fresh_world, w3, w3. simpl.
    split; [reflexivity|]. split; [reflexivity|]. split; [reflexivity|].
    vm_compute. reflexivity.
  - reflexivity.
  - reflexivity.
  - reflexivity.
  - vm_compute. reflexivity.
Defined.

(** X4. A session survives a restart.  With nothing registered or
    remembered for the identity and no jar in the credentials, a Session
    Record in the store whose jar the platform still accepts is enough:
    [getClient] returns the new client, registered, with the record's jar
    now remembered in memory; no login is attempted and the Session Store
    is not written. *)
Theorem getClient_after_restart
    (env : Env) (credentials : Credentials) (doc : SessionRecord) (w w3 : World) :
  let user := username credentials in
  let h := next_handle w in
  let strings := map TwitterClient.cookieString (rec_cookies doc) in
  let w2 := record_event (EvNewScraper h) (set_next_handle (S h) w) in
  let found := EvFindOne TwitterClient.collectionName user in
  cookies credentials = None ->
  st_instances w !! user = None ->
  st_cookies w !! user = None ->
  db_cookies w !! user = Some doc ->
  TwitterClient.initMongoClient env w2 = (Ok tt, w3) ->
  mongo_findOne env (trace w3) = Ok tt ->
  scraper_setCookies env (found :: trace w3) h strings = Ok tt ->
  scraper_isLoggedIn env (EvSetCookies h strings :: found :: trace w3) h = Ok true ->
  exists w',
    TwitterClient.getClient env credentials w = (Ok (Some h), w')
    /\ st_instances w' !! user = Some h
    /\ st_cookies w' !! user = Some (rec_cookies doc)
    /\ db_cookies w' = db_cookies w
    /\ quiet (fun ev => non is_login ev && non is_session_write ev) w w'.
Proof.
  intros user h strings w2 found Hnone Hreg Hmem Hdoc Hinit Hfind Hset Hprobe.
  pose proof (initMongoClient_same_data env _ _ _ Hinit) as (Hs1 & Hs2 & _ & Hs4 & _).
  pose proof (initMongoClient_events env _ _ _ Hinit) as Q.
  set (w5 := record_event (EvIsLoggedIn h)
               (record_event (EvSetCookies h strings) (record_event found w3))).
  exists (set_instances (<[user := h]> (st_instances w5))
            (set_cookies (<[user := rec_cookies doc]> (st_cookies w5)) w5)).
  split; [|split; [|split; [|split]]].
  - unfold TwitterClient.getClient. fold user.
    unfold try_catch at 1, bind at 1.
    unfold TwitterClient.tryExistingClient at 1. unfold bind at 1, gets at 1.
    rewrite Hreg. unfold ret at 1.
    unfold bind at 1. rewrite newScraper_run. fold h w2.
    unfold bind at 1. rewrite Hnone. unfold ret at 1.
    unfold bind at 1, TwitterClient.tryInMemoryCookies at 1, bind at 1, gets at 1.
    change (st_cookies w2) with (st_cookies w). rewrite Hmem. unfold ret at 1.
    unfold bind at 1, TwitterClient.tryMongoCookies at 1.
    unfold try_catch at 1, bind at 1. rewrite Hinit.
    unfold bind at 1, call at 1. rewrite Hfind.
    unfold bind at 1, gets at 1. fold found.
    change (db_cookies (record_event found w3)) with (db_cookies w3).
    rewrite Hs4. change (db_cookies w2) with (db_cookies w). rewrite Hdoc.
    unfold TwitterClient.setCookiesOnClient, TwitterClient.isLoggedIn. fold strings.
    unfold bind at 1, call at 1.
    change (trace (record_event found w3)) with (found :: trace w3). rewrite Hset.
    unfold bind at 1, call at 1.
    change (trace (record_event (EvSetCookies h strings) (record_event found w3)))
      with (EvSetCookies h strings :: found :: trace w3).
    rewrite Hprobe. reflexivity.
  - simpl. apply lookup_insert_eq.
  - simpl. apply lookup_insert_eq.
  - simpl. rewrite Hs4. reflexivity.
  - assert (Q2 : quiet (fun ev => non is_login ev && non is_session_write ev) w w2).
    { exists [EvNewScraper h]. split; reflexivity. }
    assert (Q3 : quiet (fun ev => non is_login ev && non is_session_write ev) w2 w3).
    { eapply quiet_weaken; [|exact Q]. intros ev Hev. destruct ev; try discriminate; reflexivity. }
    assert (Q5 : quiet (fun ev => non is_login ev && non is_session_write ev) w3 w5).
    { exists [EvIsLoggedIn h; EvSetCookies h strings; found]. split; reflexivity. }
    destruct (quiet_trans _ _ _ _ Q2 (quiet_trans _ _ _ _ Q3 Q5)) as (evs & He & Hf).
    exists evs. split; [exact He | exact Hf].
Qed.

Lemma getClient_after_restart_witness :
  exists w',
    TwitterClient.getClient Sample.env (Example.alice None) Example.restarted_world
    = (Ok (Some 0%nat), w')
    /\ st_instances w' !! "alice" = Some 0%nat
    /\ st_cookies w' !! "alice" = Some Example.login_jar
    /\ db_cookies w' = db_cookies Example.restarted_world
    /\ quiet (fun ev => non is_login ev && non is_session_write ev)
         Example.restarted_world w'.
Proof.
  apply (getClient_after_restart Sample.env (Example.alice None)
           (mkSessionRecord Example.login_jar 5) Example.restarted_world
           (snd (TwitterClient.initMongoClient Sample.env
                   (snd (TwitterClient.newScraper Example.restarted_world))))).
  - reflexivity.
  - reflexivity.
  - reflexivity.
  - vm_compute. reflexivity.
  - vm_compute. reflexivity.
  - reflexivity.
  - reflexivity.
  - reflexivity.
Defined.

(** X5. The jar remembered in memory needs no store.  When the Existing
    Instance tier misses, the credentials carry no jar and the remembered
    jar passes the probe, [getClient] returns the new client, registered,
    without logging in and without a single call of the MongoDB driver;
    the remembered jars and the Session Store are as they were. *)
Theorem getClient_from_memory
    (env : Env) (credentials : Credentials) (jar : CookieJar) (w w1 : World) :
  let user := username credentials in
  let h := next_handle w in
  let strings := map TwitterClient.cookieString jar in
  let w2 := record_event (EvNewScraper h) (set_next_handle (S h) w1) in
  cookies credentials = None ->
  TwitterClient.tryExistingClient env user w = (Ok false, w1) ->
  st_cookies w !! user = Some jar ->
  scraper_setCookies env (trace w2) h strings = Ok tt ->
  scraper_isLoggedIn env (EvSetCookies h strings :: trace w2) h = Ok true ->
  exists w',
    TwitterClient.getClient env credentials w = (Ok (Some h), w')
    /\ st_instances w' !! user = Some h
    /\ st_cookies w' = st_cookies w
    /\ db_cookies w' = db_cookies w
    /\ quiet (fun ev => non is_login ev && non is_store_event ev) w w'.
Proof.
  intros user h strings w2 Hnone Htier1 Hmem Hset Hprobe.
  pose proof (tryExistingClient_same_data env _ _ _ _ Htier1) as (_ & Hc & _ & Hd & _ & Hn).
  set (w4 := record_event (EvIsLoggedIn h) (record_event (EvSetCookies h strings) w2)).
  exists (set_instances (<[user := h]> (st_instances w4)) w4).
  split; [|split; [|split; [|split]]].
  - unfold TwitterClient.getClient. fold user.
    unfold try_catch at 1, bind at 1. rewrite Htier1.
    unfold bind at 1. rewrite newScraper_run, Hn. fold h w2.
    unfold bind at 1. rewrite Hnone. unfold ret at 1.
    unfold bind at 1, TwitterClient.tryInMemoryCookies at 1, bind at 1, gets at 1.
    change (st_cookies w2) with (st_cookies w1). rewrite Hc, Hmem.
    unfold TwitterClient.setCookiesOnClient, TwitterClient.isLoggedIn. fold strings.
    unfold try_catch at 1, bind at 1, call at 1. rewrite Hset.
    unfold call at 1.
    change (trace (record_event (EvSetCookies h strings) w2))
      with (EvSetCookies h strings :: trace w2).
    rewrite Hprobe. reflexivity.
  - simpl. apply lookup_insert_eq.
  - simpl. exact Hc.
  - simpl. exact Hd.
  - assert (Q1 : quiet (fun ev => non is_login ev && non is_store_event ev) w w1).
    { eapply quiet_weaken; [|eapply tryExistingClient_only_probes; eauto].
      intros ev Hev. destruct ev; try discriminate; reflexivity. }
    assert (Q4 : quiet (fun ev => non is_login ev && non is_store_event ev) w1 w4).
    { exists [EvIsLoggedIn h; EvSetCookies h strings; EvNewScraper h]. split; reflexivity. }
    destruct (quiet_trans _ _ _ _ Q1 Q4) as (evs & He & Hf).
    exists evs. split; [exact He | exact Hf].
Qed.

Lemma getClient_from_memory_witness :
  exists w',
    TwitterClient.getClient Sample.env (Example.alice None) Sample.remembered_world
    = (Ok (Some 0%nat), w')
    /\ st_instances w' !! "alice" = Some 0%nat
    /\ st_cookies w' = st_cookies Sample.remembered_world
    /\ db_cookies w' = db_cookies Sample.remembered_world
    /\ quiet (fun ev => non is_login ev && non is_store_event ev)
         Sample.remembered_world w'.
Proof.
  apply (getClient_from_memory Sample.env (Example.alice None) Example.login_jar
           Sample.remembered_world Sample.remembered_world).
  - reflexivity.
  - reflexivity.
  - vm_compute. reflexivity.
  - reflexivity.
  - reflexivity.
Defined.

Lemma client_reused_refl (w : World) : client_reused w w.
Proof. intros H. split; [exact H | apply quiet_refl]. Qed.

Lemma client_reused_trans (w1 w2 w3 : World) :
  client_reused w1 w2 -> client_reused w2 w3 -> client_reused w1 w3.
Proof.
  intros H12 H23 H1. destruct (H12 H1) as (H2 & Q12). destruct (H23 H2) as (H3 & Q23).
  split; [exact H3 | eapply quiet_trans; eauto].
Qed.

(** As [preserve_with], with the facts at hand tried first. *)
Ltac preserve_from Rrefl Rtrans side :=
  repeat first
    [ assumption
    | apply (preserves_ret _ Rrefl)
    | apply (preserves_throw _ Rrefl)
    | apply (preserves_lift _ Rrefl)
    | apply (preserves_gets _ Rrefl)
    | apply (preserves_bind _ Rtrans); [ | intros ? ]
    | apply (preserves_try_catch _ Rtrans); [ | intros ? ]
    | apply preserves_modify; intros ?; side
    | apply preserves_call; intros ?; side
    | match goal with
      | |- preserves _ (if ?b then _ else _) => destruct b
      | |- preserves _ (match ?x with _ => _ end) => destruct x
      end ].

Ltac keep_client :=
  unfold console_error;
  preserve_from client_reused_refl client_reused_trans
    ltac:(intros Hc; split; [exact Hc | first [ apply quiet_same_trace; reflexivity
                                             | eexists [_]; split; reflexivity ]]).

Section StoreClient.

Variable env : Env.

Lemma initMongoClient_reuses : preserves client_reused (TwitterClient.initMongoClient env).
Proof.
  intros w r w' H Hc. unfold TwitterClient.initMongoClient in H. run.
  rewrite Hc in H. simpl in H.
  destruct (mongo_isConnected env (trace w)); simpl in H.
  - inversion H; subst. split; [exact Hc|]. apply quiet_record. reflexivity.
  - destruct (mongo_connect env _); inversion H; subst; (split; [exact Hc|]).
    + eapply quiet_trans; apply quiet_record; reflexivity.
    + eapply quiet_trans; [|apply quiet_record; reflexivity].
      eapply quiet_trans; apply quiet_record; reflexivity.
Qed.

Lemma initMongoClient_creates (w w' : World) :
  TwitterClient.initMongoClient env w = (Ok tt, w') -> this_mongoClient w' = true.
Proof.
  unfold TwitterClient.initMongoClient. intros H. run.
  destruct (this_mongoClient w) eqn:Hc; simpl in H.
  - destruct (mongo_isConnected env (trace w)); simpl in H.
    + inversion H; subst. exact Hc.
    + destruct (mongo_connect env _); inversion H; subst. exact Hc.
  - destruct (mongo_new env (trace w)) as [[]|e]; simpl in H; [|discriminate].
    destruct (mongo_isConnected env _); simpl in H.
    + inversion H; subst. reflexivity.
    + destruct (mongo_connect env _); inversion H; subst. reflexivity.
Qed.

(** X6. The Mongo client is constructed lazily and at most once.  A
    successful [initMongoClient] leaves a client in place, and from a world
    in which the client exists neither [initMongoClient] nor [getClient]
    nor the two cache operations construct another one, however they end:
    the client stays and no [new MongoClient] is recorded. *)
Theorem mongo_client_constructed_once :
  (forall w w', TwitterClient.initMongoClient env w = (Ok tt, w') ->
                this_mongoClient w' = true)
  /\ preserves client_reused (TwitterClient.initMongoClient env)
  /\ (forall credentials, preserves client_reused (TwitterClient.getClient env credentials))
  /\ (forall k type ttl, preserves client_reused (TwitterClient.getCachedData env k type ttl))
  /\ (forall k type payload ttl,
        preserves client_reused (TwitterClient.setCachedData env k type payload ttl)).
Proof.
  pose proof initMongoClient_reuses as Hinit.
  split; [exact initMongoClient_creates|]. split; [exact Hinit|].
  split; [|split].
  - intros credentials.
    unfold TwitterClient.getClient, TwitterClient.tryExistingClient,
      TwitterClient.tryPassedCookies, TwitterClient.tryInMemoryCookies,
      TwitterClient.tryMongoCookies, TwitterClient.tryFreshLogin, TwitterClient.saveCookies,
      TwitterClient.saveClientAndReturn, TwitterClient.newScraper,
      TwitterClient.setCookiesOnClient, TwitterClient.isLoggedIn, TwitterClient.now.
    keep_client.
  - intros k type ttl. unfold TwitterClient.getCachedData, TwitterClient.now. keep_client.
  - intros k type payload ttl. unfold TwitterClient.setCachedData, TwitterClient.now.
    keep_client.
Qed.

Lemma setCachedData_cases (k type : string) (payload : JsVal) (ttl : option Z) (w : World) :
  exists w',
    TwitterClient.setCachedData env k type payload ttl w = (Ok tt, w')
    /\ st_instances w' = st_instances w
    /\ st_cookies w' = st_cookies w
    /\ st_profiles w' = st_profiles w
    /\ db_cookies w' = db_cookies w
    /\ (db_twitter_cache w' = db_twitter_cache w
        \/ cache_stored env (TwitterClient.cacheId type k) payload
             (default TwitterClient.defaultCacheDurationMs ttl) w w').
Proof.
  unfold TwitterClient.setCachedData, TwitterClient.now.
  unfold try_catch, bind at 1.
  destruct (TwitterClient.initMongoClient env w) as [[[]|e] w1] eqn:Hinit.
  2:{ pose proof (initMongoClient_same_data env _ _ _ Hinit) as (H1 & H2 & H3 & H4 & H5 & _).
      eexists. split; [reflexivity|]. simpl. auto 10. }
  pose proof (initMongoClient_same_data env _ _ _ Hinit) as (H1 & H2 & H3 & H4 & H5 & _).
  destruct (initMongoClient_extends env _ _ _ Hinit) as (evs & Hevs).
  unfold bind, call, modify. simpl.
  destruct (mongo_updateOne env (EvDateNow :: EvDateNow :: trace w1)) as [[]|e].
  - eexists. split; [reflexivity|]. simpl. repeat split; try assumption.
    right. exists (Date_now env (trace w1)), (Date_now env (EvDateNow :: trace w1)).
    split; [|split].
    + exists [EvUpdateOne "twitter_cache" (TwitterClient.cacheId type k); EvDateNow],
        (trace w1), evs. simpl. auto.
    + exists [EvUpdateOne "twitter_cache" (TwitterClient.cacheId type k)],
        (EvDateNow :: trace w1), (EvDateNow :: evs). simpl. rewrite Hevs. auto.
    + simpl. rewrite H5. reflexivity.
  - eexists. split; [reflexivity|]. simpl. auto 10.
Qed.

(** X7. [setCachedData] never fails and writes at most one record.  It
    always resolves; the registries, the profiles and the Session Store are
    untouched; and the Cache Store is either as it was (the store could
    not be reached or refused the update) or differs by exactly the entry
    under [type_key], holding the payload, stamped with a reading of the
    clock and expiring one time-to-live (12 hours unless given) after
    another reading. *)
Theorem setCachedData_writes_one_record (k type : string) (payload : JsVal)
    (ttl : option Z) (w : World) :
  exists w',
    TwitterClient.setCachedData env k type payload ttl w = (Ok tt, w')
    /\ st_instances w' = st_instances w
    /\ st_cookies w' = st_cookies w
    /\ st_profiles w' = st_profiles w
    /\ db_cookies w' = db_cookies w
    /\ (db_twitter_cache w' = db_twitter_cache w
        \/ cache_stored env (TwitterClient.cacheId type k) payload
             (default TwitterClient.defaultCacheDurationMs ttl) w w').
Proof. apply setCachedData_cases. Qed.

End StoreClient.

Lemma mongo_client_constructed_once_witness :
  this_mongoClient (snd (TwitterClient.initMongoClient Sample.env Example.fresh_world)) = true.
Proof.
  apply (proj1 (mongo_client_constructed_once Sample.env) Example.fresh_world).
  vm_compute. reflexivity.
Defined.

(** X8. The cache keys of the helper's six kinds of entry never collide:
    the identifier [type_key] under which an entry is stored determines
    both the kind and the key, so an entry of one kind is never read back
    as an entry of another, whatever the keys are. *)
Theorem cacheId_of_helper_types_injective (type type' k k' : string) :
  In type helper_types -> In type' helper_types ->
  TwitterClient.cacheId type k = TwitterClient.cacheId type' k' ->
  type = type' /\ k = k'.
Proof.
  unfold helper_types, TwitterClient.cacheId. simpl.
  intros Ht Ht' H.
  repeat match goal with
         | H : _ \/ _ |- _ => destruct H
         | H : False |- _ => destruct H
         end; subst; simpl in H; try discriminate H; inversion H; auto.
Qed.

Lemma cacheId_of_helper_types_injective_witness :
  "timeline" = "timeline" /\ "alice_home" = "alice_home".
Proof.
  apply (cacheId_of_helper_types_injective "timeline" "timeline" "alice_home" "alice_home").
  - simpl. do 3 right. left. reflexivity.
  - simpl. do 3 right. left. reflexivity.
  - reflexivity.
Defined.

(* ===================================================================== *)
(** ** Further properties of twitter_helper.js *)
(* ===================================================================== *)

Section HelperStore.

Variable env : Env.

Lemma getProfile_known (credentials : Credentials) (w : World) (p : JsVal) :
  st_profiles w !! username credentials = Some p ->
  truthy p = true ->
  TwitterHelper.getProfile env credentials w = (Ok p, w).
Proof.
  intros Hp Ht. unfold TwitterHelper.getProfile.
  unfold try_catch, bind at 1, gets at 1. rewrite Hp. simpl. rewrite Ht. reflexivity.
Qed.

Lemma setCachedData_keeps_profiles (k type : string) (payload : JsVal) (ttl : option Z) :
  preserves (keeps st_profiles) (TwitterClient.setCachedData env k type payload ttl).
Proof.
  unfold TwitterClient.setCachedData, TwitterClient.now, TwitterClient.initMongoClient.
  keep_field st_profiles.
Qed.

(** X9. [getProfile] memoises per process.  Every call resolves, either
    with the failure object [{ status: 500, error: 'Failed to fetch
    profile: ...' }] or with a truthy profile; and a profile it returns is
    the one held for the username in the helper's [profiles] map when it
    returns, so that the next call for the username returns the same
    profile at once, with no cache read, no session resolution and no
    platform call (the world is left exactly as it is). *)
Theorem getProfile_is_memoized (credentials : Credentials) (w w' : World) (r : outcome JsVal) :
  TwitterHelper.getProfile env credentials w = (r, w') ->
  exists v,
    r = Ok v
    /\ ((exists detail,
           v = TwitterHelper.failure (VStr ("Failed to fetch profile: " +:+ detail)))
        \/ (truthy v = true
            /\ st_profiles w' !! username credentials = Some v
            /\ TwitterHelper.getProfile env credentials w' = (Ok v, w'))).
Proof.
  intros H.
  assert (Hdone : forall v w1,
             truthy v = true -> st_profiles w1 !! username credentials = Some v ->
             r = Ok v -> w' = w1 ->
             exists v0, r = Ok v0
               /\ ((exists detail,
                      v0 = TwitterHelper.failure (VStr ("Failed to fetch profile: " +:+ detail)))
                   \/ (truthy v0 = true
                       /\ st_profiles w' !! username credentials = Some v0
                       /\ TwitterHelper.getProfile env credentials w' = (Ok v0, w')))).
  { intros v w1 Ht Hp -> ->. exists v. split; [reflexivity|]. right.
    split; [exact Ht|]. split; [exact Hp|]. apply getProfile_known; assumption. }
  unfold TwitterHelper.getProfile in H.
  set (user := username credentials) in *.
  unfold try_catch in H.
  match type of H with
  | (let (o, w0) := ?body w in _) = _ => destruct (body w) as [rb wb] eqn:B
  end.
  destruct rb as [v|e].
  2:{ unfold bind, console_error, modify, ret in H. inversion H; subst.
      eexists. split; [reflexivity|]. left. eexists. reflexivity. }
  inversion H; subst r w'. clear H.
  unfold bind at 1, gets at 1 in B.
  destruct (truthy (default VUndefined (st_profiles w !! user))) eqn:Hk.
  { unfold ret in B. inversion B; subst. eapply Hdone; eauto.
    destruct (st_profiles wb !! user); [reflexivity | discriminate Hk]. }
  unfold bind at 1 in B.
  destruct (TwitterClient.getCachedData env user "profile" None w) as [[cached|e] w1] eqn:G;
    [|discriminate B].
  destruct (truthy cached) eqn:Hc.
  { unfold bind, modify, ret in B. inversion B; subst.
    eapply Hdone; eauto. simpl. apply lookup_insert_eq. }
  unfold bind at 1 in B.
  destruct (TwitterClient.getClient env credentials w1) as [[client|e] w2]; [|discriminate B].
  unfold bind at 1 in B.
  destruct (TwitterHelper.invoke env client "getProfile" [VStr user] w2)
    as [[userProfile|e] w3]; [|discriminate B].
  unfold bind at 1, lift at 1 in B.
  destruct (get_prop userProfile "userId") as [id|e]; [|discriminate B].
  unfold bind at 1, lift at 1 in B.
  destruct (get_prop userProfile "name") as [name|e]; [|discriminate B].
  unfold bind at 1, lift at 1 in B.
  destruct (get_prop userProfile "biography") as [biography|e]; [|discriminate B].
  unfold bind at 1 in B.
  destruct (TwitterHelper.getCookies env client w3) as [[jar|e] w4]; [|discriminate B].
  unfold bind at 1, modify at 1 in B. unfold bind at 1 in B.
  match type of B with
  | context [TwitterClient.setCachedData env user "profile" ?p None ?w5] =>
      destruct (TwitterClient.setCachedData env user "profile" p None w5)
        as [[[]|e] w6] eqn:Sc; [|discriminate B];
      pose proof (setCachedData_keeps_profiles _ _ _ _ _ _ _ Sc) as Kp
  end.
  unfold ret in B. inversion B; subst.
  unfold keeps in Kp. eapply Hdone; [ | | reflexivity | reflexivity ].
  - reflexivity.
  - rewrite Kp. simpl. apply lookup_insert_eq.
Qed.
End HelperStore.

Lemma getProfile_is_memoized_witness :
  let run := TwitterHelper.getProfile Sample.env (Example.alice None) Example.cached_world in
  exists v,
    fst run = Ok v
    /\ ((exists detail,
           v = TwitterHelper.failure (VStr ("Failed to fetch profile: " +:+ detail)))
        \/ (truthy v = true
            /\ st_profiles (snd run) !! "alice" = Some v
            /\ TwitterHelper.getProfile Sample.env (Example.alice None) (snd run)
               = (Ok v, snd run))).
Proof.
  intros run.
  apply (getProfile_is_memoized Sample.env (Example.alice None) Example.cached_world
           (snd run) (fst run)).
  apply surjective_pairing.
Defined.

Section HelperCache.

Variable env : Env.




Lemma getCachedData_keeps_cache (k type : string) (ttl : option Z) :
  preserves (keeps db_twitter_cache) (TwitterClient.getCachedData env k type ttl).
Proof.
  intros w r w' H. apply getCachedData_same_data in H.
  destruct H as (_ & _ & _ & _ & H & _). exact H.
Qed.

Lemma read_clock_from (t : Z) (w0 w w' : World) :
  extends w0 w -> read_clock env t w w' -> read_clock env t w0 w'.
Proof.
  intros (evs & He) (later & hist & earlier & Ht & Hh & Hc).
  exists later, hist, (earlier ++ evs). split; [exact Ht|]. split; [|exact Hc].
  rewrite Hh, He. apply app_assoc.
Qed.


End HelperCache.



Lemma only_refl (P : Event -> Prop) (w : World) : only P w w.
Proof. exists []. split; [reflexivity | constructor]. Qed.

Lemma only_trans (P : Event -> Prop) (w1 w2 w3 : World) :
  only P w1 w2 -> only P w2 w3 -> only P w1 w3.
Proof.
  intros (e1 & H1 & F1) (e2 & H2 & F2). exists (e2 ++ e1). split.
  - rewrite H2, H1. apply app_assoc.
  - apply Forall_app; auto.
Qed.

Lemma only_record (P : Event -> Prop) (ev : Event) (w : World) :
  P ev -> only P w (record_event ev w).
Proof. intros H. exists [ev]. split; [reflexivity | repeat constructor; exact H]. Qed.

Lemma quiet_only (Q : Event -> bool) (P : Event -> Prop) (w w' : World) :
  (forall ev, Q ev = true -> P ev) -> quiet Q w w' -> only P w w'.
Proof.
  intros HQP (evs & H & F). exists evs. split; [exact H|]. clear H.
  induction evs as [|ev evs IH]; [constructor|].
  simpl in F. apply andb_true_iff in F. destruct F as (F1 & F2).
  constructor; auto.
Qed.

Lemma only_recorded (P : Event -> Prop) (evs : list Event) (w w' : World) :
  only P w w' -> recorded evs w w' -> Forall P evs.
Proof.
  intros (evs' & H & F) He. unfold recorded in He. rewrite H in He.
  apply app_inv_tail in He. subst. exact F.
Qed.

Lemma only_in (P : Event -> Prop) (evs : list Event) (w w' : World) (ev : Event) :
  only P w w' -> recorded evs w w' -> In ev evs -> P ev.
Proof.
  intros Ho Hrec Hin. pose proof (only_recorded _ _ _ _ Ho Hrec) as F. clear Ho Hrec.
  induction F as [|ev' rest Hev F IH]; [destruct Hin|].
  destruct Hin as [->|Hin]; [exact Hev | exact (IH Hin)].
Qed.


Lemma get_prop_defined (v : JsVal) (name : string) :
  is_nullish v = false -> exists x, get_prop v name = Ok x.
Proof.
  destruct v; simpl; intros H; try discriminate H; eauto.
  - destruct (String.eqb name "length"); eauto.
    destruct (index_of_name name); eauto. destruct (String.get _ _); eauto.
  - destruct (String.eqb name "length"); eauto.
    destruct (index_of_name name); eauto. destruct (nth_error _ _); eauto.
  - destruct (lookup_field name _); eauto.
Qed.

Lemma followingEntry_defined (p : JsVal) :
  is_nullish p = false -> exists entry, TwitterHelper.followingEntry p = Ok entry.
Proof.
  intros H. unfold TwitterHelper.followingEntry.
  repeat match goal with
         | |- context [get_prop p ?n] =>
             let x := fresh "x" in
             destruct (get_prop_defined p n H) as (x & ->); simpl
         end.
  eauto.
Qed.

Lemma followingEntry_nullish (p : JsVal) :
  is_nullish p = true -> exists e, TwitterHelper.followingEntry p = Throw e.
Proof. destruct p; simpl; intros H; try discriminate H; eauto. Qed.

(** The loop of [getFollowing] is all or nothing. *)
Lemma collectFollowing_cases (yielded : list JsVal) (failed : option JsError)
    (acc : list JsVal) :
  match TwitterHelper.collectFollowing yielded failed acc with
  | Ok l =>
      failed = None /\ forallb (fun p => negb (is_nullish p)) yielded = true
      /\ exists entries,
           l = acc ++ entries
           /\ Forall2 (fun p entry => TwitterHelper.followingEntry p = Ok entry)
                yielded entries
  | Throw _ =>
      failed <> None \/ existsb is_nullish yielded = true
  end.
Proof.
  revert acc. induction yielded as [|p rest IH]; intros acc; simpl.
  - destruct failed as [e|].
    + left. discriminate.
    + split; [reflexivity|]. split; [reflexivity|]. exists []. split.
      * symmetry. apply app_nil_r.
      * constructor.
  - destruct (is_nullish p) eqn:Hp.
    + destruct (followingEntry_nullish p Hp) as (e & ->). simpl. right. reflexivity.
    + destruct (followingEntry_defined p Hp) as (entry & He). rewrite He. simpl.
      specialize (IH (acc ++ [entry])).
      destruct (TwitterHelper.collectFollowing rest failed (acc ++ [entry])) as [l|e].
      * destruct IH as (Hf & Hall & entries & -> & F2).
        split; [exact Hf|]. split; [exact Hall|]. exists (entry :: entries). split.
        -- rewrite <- app_assoc. reflexivity.
        -- constructor; assumption.
      * exact IH.
Qed.

Section HelperCalls.

Variable env : Env.

Lemma resolution_is_no_platform_call (c : string * list JsVal) (ev : Event) :
  is_resolution_event ev = true -> platform_call_is c ev.
Proof. destruct ev; simpl; intros H; solve [exact I | discriminate H]. Qed.

Lemma sendTweet_only_posting_call (credentials : Credentials) :
  preserves (only (platform_call_is (postingCall credentials)))
    (TwitterHelper.sendTweet env credentials).
Proof.
  assert (Hg : forall c, preserves (only (platform_call_is c))
                           (TwitterClient.getClient env credentials)).
  { intros c w0 r0 w0' H0. eapply quiet_only; [|eapply getClient_events; eauto].
    apply resolution_is_no_platform_call. }
  unfold TwitterHelper.sendTweet, TwitterHelper.responseJson, TwitterHelper.invoke,
    console_error, postingCall.
  destruct (truthy (quote_tweet_id credentials)) eqn:Eq;
    destruct (truthy (text credentials)) eqn:Et; cbn [andb negb]; cbv iota.
  all: match goal with
       | |- preserves (only (platform_call_is ?c)) _ =>
           specialize (Hg c);
           preserve_from
             (only_refl (platform_call_is c)) (only_trans (platform_call_is c))
             ltac:(first [ apply only_refl | apply only_record; simpl; reflexivity
                         | apply only_record; exact I ])
       end.
Qed.

(** X12. [sendTweet] makes one kind of platform call, chosen by the
    request.  Whatever happens in a run, every platform method it calls is
    the one the request asks for, with the arguments of the request:
    [retweet(quote_tweet_id)] when there is a quote id and no text,
    [sendQuoteTweet(text, quote_tweet_id, { mediaData: mediaData || [] })]
    when there are both, [sendTweet(text, reply_to_id, mediaData)]
    otherwise; no other method is called and no search is started. *)
Theorem sendTweet_makes_one_kind_of_call (credentials : Credentials)
    (w w' : World) (r : outcome JsVal) (evs : list Event) :
  TwitterHelper.sendTweet env credentials w = (r, w') ->
  recorded evs w w' ->
  (forall h method args,
      In (EvScraper h method args) evs -> (method, args) = postingCall credentials)
  /\ (forall h args, ~ In (EvFetchSearchTweets h args) evs).
Proof.
  intros H Hrec.
  pose proof (sendTweet_only_posting_call credentials _ _ _ H) as Ho.
  split.
  - intros h method args Hin. exact (only_in _ _ _ _ _ Ho Hrec Hin).
  - intros h args Hin. exact (only_in _ _ _ _ _ Ho Hrec Hin).
Qed.
(** X13. [getFollowing] is all or nothing.  After a cache miss and a
    resolved session, what the call returns is decided by what the
    platform's generator does.  If the generator ends normally and every
    profile it yielded is an object, the call returns one entry per
    yielded profile, in order, and the Cache Store is as it was or differs
    by that list stored under [following_<userId>] for twelve hours.  If
    the generator throws, even after having yielded profiles, or yields
    [null] or [undefined], the call returns the failure object
    [{ status: 500, error: 'Failed to fetch following users: ...' }]: the
    profiles collected so far are dropped and the Cache Store is
    untouched. *)
Theorem getFollowing_all_or_nothing (credentials : Credentials) (userId count : JsVal)
    (w w1 w2 w' : World) (cached : JsVal) (client : Handle)
    (yielded : list JsVal) (failed : option JsError) (r : outcome JsVal) :
  TwitterClient.getCachedData env (toString userId) "following" None w = (Ok cached, w1) ->
  truthy cached = false ->
  TwitterClient.getClient env credentials w1 = (Ok (Some client), w2) ->
  scraper_getFollowing env (trace w2) client
    [userId; TwitterHelper.with_default count (VNum 100)] = (yielded, failed) ->
  TwitterHelper.getFollowing env credentials userId count w = (r, w') ->
  (failed = None
   /\ forallb (fun p => negb (is_nullish p)) yielded = true
   /\ exists entries,
        r = Ok (VArr entries)
        /\ Forall2 (fun p entry => TwitterHelper.followingEntry p = Ok entry) yielded entries
        /\ (db_twitter_cache w' = db_twitter_cache w
            \/ cache_stored env (TwitterClient.cacheId "following" (toString userId))
                 (VArr entries) TwitterClient.defaultCacheDurationMs w w'))
  \/ ((failed <> None \/ existsb is_nullish yielded = true)
      /\ (exists detail,
            r = Ok (TwitterHelper.failure
                      (VStr ("Failed to fetch following users: " +:+ detail))))
      /\ db_twitter_cache w' = db_twitter_cache w).
Proof.
  intros Hget Hmiss Hcl Hgen H.
  pose proof (getCachedData_keeps_cache env _ _ _ _ _ _ Hget) as K1.
  pose proof (quiet_extends _ _ _ (getCachedData_events env _ _ _ _ _ _ Hget)) as E1.
  pose proof (getClient_keeps_cache env _ _ _ _ Hcl) as K2.
  pose proof (quiet_extends _ _ _ (getClient_events env _ _ _ _ Hcl)) as E2.
  unfold keeps in K1, K2.
  unfold TwitterHelper.getFollowing, try_catch in H.
  unfold bind at 1 in H. rewrite Hget, Hmiss in H.
  unfold bind at 1 in H. rewrite Hcl in H.
  unfold bind at 1, call at 1 in H. rewrite Hgen in H. cbn [fst snd] in H.
  unfold bind at 1, lift at 1 in H.
  pose proof (collectFollowing_cases yielded failed []) as Hc.
  destruct (TwitterHelper.collectFollowing yielded failed []) as [l|e].
  - destruct Hc as (Hf & Hall & entries & -> & F2). simpl in H.
    set (w3 := record_event _ w2) in H.
    destruct (setCachedData_cases env (toString userId) "following"
                (VArr entries) None w3) as (w4 & Hs & _ & _ & _ & _ & Hst).
    unfold bind, ret in H. rewrite Hs in H. inversion H; subst r w'.
    left. split; [exact Hf|]. split; [exact Hall|]. exists entries.
    split; [reflexivity|]. split; [exact F2|].
    assert (E3 : extends w w3).
    { eapply extends_trans; [exact E1|]. eapply extends_trans; [exact E2|].
      apply extends_record. }
    destruct Hst as [Hst|(stamp & later & R1 & R2 & Hst)].
    + left. rewrite Hst. simpl. congruence.
    + right. exists stamp, later.
      split; [eapply read_clock_from; eauto|].
      split; [eapply read_clock_from; eauto|].
      rewrite Hst. simpl. rewrite K2, K1. reflexivity.
  - right. split; [exact Hc|].
    unfold bind, console_error, modify, ret in H. inversion H; subst r w'.
    split; [eexists; reflexivity|]. simpl. congruence.
Qed.

End HelperCalls.

Lemma sendTweet_makes_one_kind_of_call_witness :
  ("sendTweet", [VStr "hello"; VUndefined; VUndefined])
  = postingCall (Sample.posting (VStr "hello") VUndefined).
Proof.
  pose (run := TwitterHelper.sendTweet Sample.env (Sample.posting (VStr "hello") VUndefined)
                 Example.fresh_world).
  refine (proj1 (sendTweet_makes_one_kind_of_call Sample.env
                   (Sample.posting (VStr "hello") VUndefined) Example.fresh_world
                   (snd run) (fst run) (trace (snd run)) _ _)
            0%nat "sendTweet" [VStr "hello"; VUndefined; VUndefined] _).
  - apply surjective_pairing.
  - vm_compute. reflexivity.
  - vm_compute. repeat first [left; reflexivity | right].
Defined.

Lemma getFollowing_all_or_nothing_witness :
  let run := TwitterHelper.getFollowing Sample.env (Example.alice None) (VStr "42")
               VUndefined Example.fresh_world in
  let failing := TwitterHelper.getFollowing Sample.failing_env (Example.alice None)
                   (VStr "42") VUndefined Example.fresh_world in
  (* the generator ends normally after two profiles *)
  ((@None JsError = None
    /\ forallb (fun p => negb (is_nullish p)) [Sample.carol; Sample.dave] = true
    /\ exists entries,
         fst run = Ok (VArr entries)
         /\ Forall2 (fun p entry => TwitterHelper.followingEntry p = Ok entry)
              [Sample.carol; Sample.dave] entries
         /\ (db_twitter_cache (snd run) = db_twitter_cache Example.fresh_world
             \/ cache_stored Sample.env
                  (TwitterClient.cacheId "following" (toString (VStr "42")))
                  (VArr entries) TwitterClient.defaultCacheDurationMs
                  Example.fresh_world (snd run)))
   \/ ((@None JsError <> None \/ existsb is_nullish [Sample.carol; Sample.dave] = true)
       /\ (exists detail,
             fst run = Ok (TwitterHelper.failure
                             (VStr ("Failed to fetch following users: " +:+ detail))))
       /\ db_twitter_cache (snd run) = db_twitter_cache Example.fresh_world))
  /\ List.length <$> (match fst run with Ok (VArr entries) => Some entries | _ => None end)
     = Some 2%nat
  /\ data <$> (db_twitter_cache (snd run) !! "following_42") = Sample.fst_value (fst run)
  (* the generator throws after its first profile *)
  /\ ((Some Sample.rate_limited = None
       /\ forallb (fun p => negb (is_nullish p)) [Sample.carol] = true
       /\ exists entries,
            fst failing = Ok (VArr entries)
            /\ Forall2 (fun p entry => TwitterHelper.followingEntry p = Ok entry)
                 [Sample.carol] entries
            /\ (db_twitter_cache (snd failing) = db_twitter_cache Example.fresh_world
                \/ cache_stored Sample.failing_env
                     (TwitterClient.cacheId "following" (toString (VStr "42")))
                     (VArr entries) TwitterClient.defaultCacheDurationMs
                     Example.fresh_world (snd failing)))
      \/ ((Some Sample.rate_limited <> None \/ existsb is_nullish [Sample.carol] = true)
          /\ (exists detail,
                fst failing = Ok (TwitterHelper.failure
                                    (VStr ("Failed to fetch following users: " +:+ detail))))
          /\ db_twitter_cache (snd failing) = db_twitter_cache Example.fresh_world))
  /\ fst failing
     = Ok (TwitterHelper.failure
             (VStr "Failed to fetch following users: Rate limit exceeded"))
  /\ db_twitter_cache (snd failing) !! "following_42" = None.
Proof.
  intros run failing.
  pose (w1 := snd (TwitterClient.getCachedData Sample.env "42" "following" None
                     Example.fresh_world)).
  pose (v1 := snd (TwitterClient.getCachedData Sample.failing_env "42" "following" None
                     Example.fresh_world)).
  split; [|split; [|split; [|split; [|split]]]].
  - apply (getFollowing_all_or_nothing Sample.env (Example.alice None) (VStr "42") VUndefined
             Example.fresh_world w1
             (snd (TwitterClient.getClient Sample.env (Example.alice None) w1))
             (snd run) VNull 0%nat [Sample.carol; Sample.dave] None (fst run)).
    + vm_compute. reflexivity.
    + reflexivity.
    + vm_compute. reflexivity.
    + reflexivity.
    + apply surjective_pairing.
  - vm_compute. reflexivity.
  - vm_compute. reflexivity.
  - apply (getFollowing_all_or_nothing Sample.failing_env (Example.alice None) (VStr "42")
             VUndefined Example.fresh_world v1
             (snd (TwitterClient.getClient Sample.failing_env (Example.alice None) v1))
             (snd failing) VNull 0%nat [Sample.carol] (Some Sample.rate_limited)
             (fst failing)).
    + vm_compute. reflexivity.
    + reflexivity.
    + vm_compute. reflexivity.
    + reflexivity.
    + apply surjective_pairing.
  - vm_compute. reflexivity.
  - vm_compute. reflexivity.
Defined.

Section HelperHits.

Variable env : Env.

(** X14. A live cache entry answers the call by itself.  For the five
    operations that consult the Cache Store before anything else, a read
    that finds a truthy entry under the operation's key is the whole run:
    the entry is returned and the world is the one the cache read left, so
    no session is resolved and the platform is not called.  The keys are
    [target_profile_<targetUsername>], [user_tweets_<userId>],
    [timeline_<username>_home_timeline] or [..._following_timeline],
    [search_<query>_<searchMode>_<maxTweets>] and [following_<userId>];
    [getUserTweets], [fetchHomeTimeline] and [searchTweets] consult the
    store only when caching is on (and, for a search, on the first page). *)
Theorem cache_hit_answers_without_session (credentials : Credentials) :
  (forall targetUsername,
      answers_from_cache env (toString targetUsername) "target_profile" None
        (TwitterHelper.getTargetProfile env credentials targetUsername))
  /\ (forall userId count useCache,
         truthy (TwitterHelper.with_default useCache (VBool true)) = true ->
         answers_from_cache env (toString userId) "user_tweets"
           (Some TwitterHelper.THIRTY_MINUTES_MS)
           (TwitterHelper.getUserTweets env credentials userId count useCache))
  /\ (forall count following useCache,
         truthy (TwitterHelper.with_default useCache (VBool true)) = true ->
         answers_from_cache env
           (username credentials +:+ "_"
            +:+ (if truthy (TwitterHelper.with_default following (VBool false))
                 then "following" else "home")
            +:+ "_timeline")
           "timeline" (Some TwitterHelper.THIRTY_MINUTES_MS)
           (TwitterHelper.fetchHomeTimeline env credentials count following useCache))
  /\ (forall query maxTweets searchMode cursor useCache,
         searchMode <> VUndefined ->
         truthy (TwitterHelper.with_default useCache (VBool true)) = true ->
         truthy cursor = false ->
         answers_from_cache env
           (toString query +:+ "_" +:+ toString searchMode +:+ "_" +:+ toString maxTweets)
           "search" (Some TwitterHelper.THIRTY_MINUTES_MS)
           (TwitterHelper.searchTweets env credentials query maxTweets searchMode cursor
              useCache))
  /\ (forall userId count,
         answers_from_cache env (toString userId) "following" None
           (TwitterHelper.getFollowing env credentials userId count)).
Proof.
  repeat split.
  - intros t w w1 v Hget Hv. unfold TwitterHelper.getTargetProfile, try_catch, bind at 1.
    rewrite Hget, Hv. reflexivity.
  - intros u n uc Hon w w1 v Hget Hv.
    unfold TwitterHelper.getUserTweets, try_catch. rewrite Hon.
    unfold bind. rewrite Hget. unfold ret. rewrite Hv. reflexivity.
  - intros n f uc Hon w w1 v Hget Hv.
    unfold TwitterHelper.fetchHomeTimeline, try_catch. rewrite Hon. cbv zeta.
    unfold bind. rewrite Hget. unfold ret. rewrite Hv. reflexivity.
  - intros q n sm cur uc Hsm Hon Hcur w w1 v Hget Hv.
    unfold TwitterHelper.searchTweets.
    assert (Hret : match sm with
                   | VUndefined =>
                       lift (obind TwitterHelper.SearchMode (fun m => get_prop m "Latest"))
                   | _ => ret sm
                   end = ret sm) by (destruct sm; [contradiction | reflexivity ..]).
    rewrite Hret. unfold bind at 1, ret at 1. unfold try_catch. rewrite Hon, Hcur.
    cbn [andb negb]. cbv zeta. unfold bind. rewrite Hget. unfold ret. rewrite Hv.
    reflexivity.
  - intros u n w w1 v Hget Hv. unfold TwitterHelper.getFollowing, try_catch, bind at 1.
    rewrite Hget, Hv. reflexivity.
Qed.

End HelperHits.

Lemma cache_hit_answers_without_session_witness :
  let w1 := snd (TwitterClient.getCachedData Sample.env "bob" "target_profile" None
                   Sample.target_cached_world) in
  TwitterHelper.getTargetProfile Sample.env (Example.alice None) (VStr "bob")
    Sample.target_cached_world
  = (Ok (VObj [("id", VStr "42")]), w1).
Proof.
  intros w1.
  apply (proj1 (cache_hit_answers_without_session Sample.env (Example.alice None))
           (VStr "bob") Sample.target_cached_world w1 (VObj [("id", VStr "42")])).
  - vm_compute. reflexivity.
  - reflexivity.
Defined.

(* ===================================================================== *)
(** ** Properties of the routes of index.js *)
(* ===================================================================== *)

Section Handlers.

Variable env : Env.
Variable SearchMode : string -> JsVal.
Variable JSON_stringify : JsVal -> outcome unit.



Lemma validateCredentials_cases (req : Routes.Request) (next : M Routes.Response) :
  (has_credentials req = false
   /\ Routes.validateCredentials req next = ret credentialsRequired)
  \/ (has_credentials req = true /\ Routes.validateCredentials req next = next).
Proof.
  unfold has_credentials, Routes.validateCredentials.
  destruct (truthy (VStr (username (Routes.req_body req))));
    destruct (truthy (VStr (password (Routes.req_body req)))); simpl; auto.
Qed.



Lemma bind_lift_Ok {A B} (x : A) (k : A -> M B) : bind (lift (Ok x)) k = k x.
Proof. reflexivity. Qed.

Lemma with_default_idem (v dflt : JsVal) :
  TwitterHelper.with_default (TwitterHelper.with_default v dflt) dflt
  = TwitterHelper.with_default v dflt.
Proof. destruct v; try reflexivity. destruct dflt; reflexivity. Qed.

Lemma getClient_no_platform_call (c : string * list JsVal) (credentials : Credentials) :
  preserves (only (platform_call_is c)) (TwitterClient.getClient env credentials).
Proof.
  intros w0 r0 w0' H0. eapply quiet_only; [|eapply getClient_events; eauto].
  apply resolution_is_no_platform_call.
Qed.

(** X17. The poll handler only posts valid polls.  Whenever a run of the
    handler calls a platform method, the request carried credentials, a
    truthy text and an array of two to four options, and the call is
    [sendTweetV2(text, undefined, { poll: { options, durationMinutes } })]
    with one [{ label }] per option, in order, and the requested duration
    (120 when none was given). *)
Theorem poll_route_posts_valid_polls (req : Routes.Request) (w w' : World)
    (r : outcome Routes.Response) (evs : list Event)
    (h : Handle) (method : string) (args : list JsVal) :
  Routes.poll env JSON_stringify req w = (r, w') ->
  recorded evs w w' ->
  In (EvScraper h method args) evs ->
  exists labels,
    Routes.req_options req = VArr labels
    /\ (2 <= List.length labels <= 4)%nat
    /\ truthy (text (Routes.req_body req)) = true
    /\ has_credentials req = true
    /\ (method, args)
       = pollCall (text (Routes.req_body req)) labels
           (TwitterHelper.with_default (Routes.req_durationMinutes req) (VNum 120)).
Proof.
  intros H Hrec Hin.
  assert (Hnone : w' = w -> False).
  { intros ->. unfold recorded in Hrec.
    assert (Hl : List.length (trace w) = List.length (evs ++ trace w)) by (rewrite <- Hrec; reflexivity).
    rewrite length_app in Hl. destruct evs; [destruct Hin | simpl in Hl; lia]. }
  unfold Routes.poll in H.
  match type of H with
  | context [Routes.validateCredentials req ?next] =>
      destruct (validateCredentials_cases req next) as [(Hc & Hv)|(Hc & Hv)]
  end; rewrite Hv in H; clear Hv.
  { unfold ret in H. inversion H; subst. exfalso. auto. }
  cbv zeta in H. unfold try_catch at 1 in H.
  destruct (truthy (text (Routes.req_body req))) eqn:Ht; cbn [negb orb] in H.
  2:{ unfold Routes.sendError, ret in H. inversion H; subst. exfalso. auto. }
  destruct (truthy (Routes.req_options req)) eqn:Ho; cbn [negb orb] in H.
  2:{ unfold Routes.sendError, ret in H. inversion H; subst. exfalso. auto. }
  destruct (Routes.req_options req) as [| | | | | labels |] eqn:Hopt; cbn [Routes.isArray negb] in H;
    try (unfold Routes.sendError, ret in H; inversion H; subst; exfalso; auto; fail).
  unfold Routes.badOptionCount in H.
  destruct (Nat.ltb_spec (List.length labels) 2) as [Hlo|Hlo]; cbn [orb] in H.
  { unfold Routes.sendError, ret in H. inversion H; subst. exfalso. auto. }
  destruct (Nat.ltb_spec 4 (List.length labels)) as [Hhi|Hhi].
  { unfold Routes.sendError, ret in H. inversion H; subst. exfalso. auto. }
  exists labels. split; [reflexivity|]. split; [lia|]. split; [reflexivity|].
  split; [exact Hc|].
  set (c := pollCall _ _ _).
  assert (Ho' : only (platform_call_is c) w w').
  { unfold bind at 1 in H.
    match type of H with
    | context [TwitterHelper.sendTweetWithPoll env ?a ?b ?d ?e w] =>
        destruct (TwitterHelper.sendTweetWithPoll env a b d e w) as [rs ws] eqn:Hs
    end.
    assert (Hp : only (platform_call_is c) w ws).
    { revert Hs. generalize w rs ws.
      match goal with
      | |- forall w0 rs0 ws0, ?m w0 = _ -> _ =>
          change (preserves (only (platform_call_is c)) m)
      end.
      pose proof (getClient_no_platform_call c (Routes.req_body req)) as Hg.
      unfold TwitterHelper.sendTweetWithPoll, TwitterHelper.invoke_with,
        TwitterHelper.invoke, TwitterHelper.pollOptions, console_error. simpl obind.
      rewrite with_default_idem.
      apply (preserves_try_catch _ (only_trans (platform_call_is c)));
        [apply (preserves_bind _ (only_trans (platform_call_is c)));
           [exact Hg | intros [h0|]; [rewrite bind_lift_Ok|]] | intros e].
      all: preserve_from (only_refl (platform_call_is c)) (only_trans (platform_call_is c))
             ltac:(first [ apply only_refl | apply only_record; reflexivity
                         | apply only_record; exact I ]). }
    destruct rs as [sent|e].
    - unfold Routes.send, Routes.sendError, bind, lift, ret in H.
      destruct (JSON_stringify sent); inversion H; subst; exact Hp.
    - unfold Routes.sendError, ret in H. inversion H; subst. exact Hp. }
  exact (only_in _ _ _ _ _ Ho' Hrec Hin).
Qed.

(** X18. The tweet handler never posts an empty text.  Whenever a run of
    the handler calls a platform method, the request carried credentials,
    the call is the one [sendTweet] makes for the request, and either the
    text is truthy or the call is [retweet(quote_tweet_id)] with a truthy
    quote id. *)
Theorem tweet_route_never_posts_empty_text (req : Routes.Request) (w w' : World)
    (r : outcome Routes.Response) (evs : list Event)
    (h : Handle) (method : string) (args : list JsVal) :
  Routes.tweet env JSON_stringify req w = (r, w') ->
  recorded evs w w' ->
  In (EvScraper h method args) evs ->
  has_credentials req = true
  /\ (method, args) = postingCall (Routes.req_body req)
  /\ (truthy (text (Routes.req_body req)) = true
      \/ (method = "retweet" /\ args = [quote_tweet_id (Routes.req_body req)]
          /\ truthy (quote_tweet_id (Routes.req_body req)) = true)).
Proof.
  intros H Hrec Hin.
  assert (Hnone : w' = w -> False).
  { intros ->. unfold recorded in Hrec.
    assert (Hl : List.length (trace w) = List.length (evs ++ trace w))
      by (rewrite <- Hrec; reflexivity).
    rewrite length_app in Hl. destruct evs; [destruct Hin | simpl in Hl; lia]. }
  unfold Routes.tweet in H.
  match type of H with
  | context [Routes.validateCredentials req ?next] =>
      destruct (validateCredentials_cases req next) as [(Hc & Hv)|(Hc & Hv)]
  end; rewrite Hv in H; clear Hv.
  { unfold ret in H. inversion H; subst. exfalso. auto. }
  split; [exact Hc|].
  unfold try_catch at 1 in H.
  destruct (negb (truthy (text (Routes.req_body req)))
            && negb (truthy (quote_tweet_id (Routes.req_body req)))) eqn:Hempty.
  { unfold Routes.sendError, ret in H. inversion H; subst. exfalso. auto. }
  unfold bind at 1 in H.
  destruct (TwitterHelper.sendTweet env (Routes.req_body req) w) as [rs ws] eqn:Hs.
  assert (ws = w').
  { destruct rs as [sent|e]; unfold Routes.send, Routes.sendError, bind, lift, ret in H;
      [destruct (JSON_stringify sent)|]; inversion H; reflexivity. }
  subst ws.
  pose proof (only_in _ _ _ _ _ (sendTweet_only_posting_call env _ _ _ _ Hs) Hrec Hin) as Hcall.
  simpl in Hcall. split; [exact Hcall|].
  unfold postingCall in Hcall.
  destruct (truthy (text (Routes.req_body req))); [left; reflexivity | right].
  destruct (truthy (quote_tweet_id (Routes.req_body req))); [|discriminate Hempty].
  simpl in Hcall. inversion Hcall. auto.
Qed.

End Handlers.


Lemma poll_route_posts_valid_polls_witness :
  let req := Sample.request (Sample.posting (VStr "tea or coffee?") VUndefined)
               (VArr [VStr "tea"; VStr "coffee"]) in
  exists labels,
    Routes.req_options req = VArr labels
    /\ (2 <= List.length labels <= 4)%nat
    /\ truthy (text (Routes.req_body req)) = true
    /\ has_credentials req = true
    /\ ("sendTweetV2",
        [VStr "tea or coffee?"; VUndefined;
         VObj [("poll", VObj [("options", VArr [VObj [("label", VStr "tea")];
                                                VObj [("label", VStr "coffee")]]);
                              ("durationMinutes", VNum 120)])]])
       = pollCall (text (Routes.req_body req)) labels
           (TwitterHelper.with_default (Routes.req_durationMinutes req) (VNum 120)).
Proof.
  intros req.
  pose (run := Routes.poll Sample.env Sample.serialises req Example.fresh_world).
  apply (poll_route_posts_valid_polls Sample.env Sample.serialises req Example.fresh_world
           (snd run) (fst run)
           (trace (snd run)) 0%nat).
  - apply surjective_pairing.
  - vm_compute. reflexivity.
  - vm_compute. repeat first [left; reflexivity | right].
Defined.

Lemma tweet_route_never_posts_empty_text_witness :
  let req := Sample.request (Sample.posting VUndefined (VStr "1790")) VUndefined in
  has_credentials req = true
  /\ ("retweet", [VStr "1790"]) = postingCall (Routes.req_body req)
  /\ (truthy (text (Routes.req_body req)) = true
      \/ ("retweet" = "retweet" /\ [VStr "1790"] = [quote_tweet_id (Routes.req_body req)]
          /\ truthy (quote_tweet_id (Routes.req_body req)) = true)).
Proof.
  intros req.
  pose (run := Routes.tweet Sample.env Sample.serialises req Example.fresh_world).
  apply (tweet_route_never_posts_empty_text Sample.env Sample.serialises req
           Example.fresh_world
           (snd run) (fst run) (trace (snd run)) 0%nat).
  - apply surjective_pairing.
  - vm_compute. reflexivity.
  - vm_compute. repeat first [left; reflexivity | right].
Defined.
